(** * hello-aaudio: the buffer tuner and the render loop of audio_main.cpp

    A shallow embedding of [TunePlayerForLowLatency], [PlayAudioThreadProc]
    and the JNI entry points of
    [aaudio/hello-aaudio/src/main/cpp/audio_main.cpp], followed by the
    properties of the tuner and of the render loop.

    The AAudio stream is an external collaborator: it is a state machine
    [D] whose every call may change its state and answer anything.  Every
    call the program makes is recorded, with its answer, in a trace. *)

From Stdlib Require Import ZArith List Bool Lia QArith.
From stdpp Require Import base list.
Import ListNotations.
Local Open Scope Z_scope.

(** ** 32-bit integers

    [int32_t] values are integers in [INT32_MIN, INT32_MAX].  An
    overflow of signed arithmetic is undefined in C++; the model gives it
    the wrap-around of the machines the sample runs on. *)

Definition INT32_MIN : Z := -2147483648.
Definition INT32_MAX : Z := 2147483647.

Definition in_int32 (z : Z) : Prop := INT32_MIN <= z <= INT32_MAX.

Definition wrap32 (z : Z) : Z := (z + 2147483648) mod 4294967296 - 2147483648.

Definition add32 (a b : Z) : Z := wrap32 (a + b).
Definition mul32 (a b : Z) : Z := wrap32 (a * b).

(** ** Constants of the AAudio header (NDK, <aaudio/AAudio.h>) *)

Definition AAUDIO_OK : Z := 0.
Definition AAUDIO_STREAM_STATE_STARTED : Z := 4.
Definition AAUDIO_FORMAT_PCM_I16 : Z := 1.
Definition AAUDIO_SHARING_MODE_SHARED : Z := 1.

(** ** The engine structure *)

(** An [AAudioStream*]: [None] is the null pointer. *)
Definition stream_ptr : Type := option positive.

Record AAudioEngine : Type := mkEngine {
  sampleRate_ : Z;
  sampleChannels_ : Z;
  bitsPerSample_ : Z;
  sampleFormat_ : Z;
  playStream_ : stream_ptr;
  requestStop_ : bool;
  playAudio_ : bool
}.

(** [memset(&engine, 0, sizeof(engine))] *)
Definition engine_zero : AAudioEngine :=
  mkEngine 0 0 0 0 None false false.

Definition set_playStream (p : stream_ptr) (e : AAudioEngine) : AAudioEngine :=
  mkEngine (sampleRate_ e) (sampleChannels_ e) (bitsPerSample_ e)
           (sampleFormat_ e) p (requestStop_ e) (playAudio_ e).

Definition set_requestStop (b : bool) (e : AAudioEngine) : AAudioEngine :=
  mkEngine (sampleRate_ e) (sampleChannels_ e) (bitsPerSample_ e)
           (sampleFormat_ e) (playStream_ e) b (playAudio_ e).

Definition set_playAudio (b : bool) (e : AAudioEngine) : AAudioEngine :=
  mkEngine (sampleRate_ e) (sampleChannels_ e) (bitsPerSample_ e)
           (sampleFormat_ e) (playStream_ e) (requestStop_ e) b.

(** ** The controller side: start, stop and deleteEngine

    The three JNI entry points touch nothing but the engine structure. *)

Definition Java_com_google_sample_aaudio_play_MainActivity_start
    (e : AAudioEngine) : bool * AAudioEngine :=
  match playStream_ e with
  | None => (false, e)
  | Some _ => (true, set_playAudio true e)
  end.

Definition Java_com_google_sample_aaudio_play_MainActivity_stop
    (e : AAudioEngine) : bool * AAudioEngine :=
  match playStream_ e with
  | None => (true, e)
  | Some _ => (true, set_playAudio false e)
  end.

Definition Java_com_google_sample_aaudio_play_MainActivity_deleteEngine
    (e : AAudioEngine) : AAudioEngine :=
  match playStream_ e with
  | None => e
  | Some _ => set_requestStop true e
  end.

Inductive command : Type := CmdStart | CmdStop | CmdDeleteEngine.

Definition run_command (c : command) (e : AAudioEngine) : AAudioEngine :=
  match c with
  | CmdStart => snd (Java_com_google_sample_aaudio_play_MainActivity_start e)
  | CmdStop => snd (Java_com_google_sample_aaudio_play_MainActivity_stop e)
  | CmdDeleteEngine => Java_com_google_sample_aaudio_play_MainActivity_deleteEngine e
  end.

Definition run_commands (cs : list command) (e : AAudioEngine) : AAudioEngine :=
  fold_left (fun e c => run_command c e) cs e.

(** ** The stream collaborator and the trace of calls *)

Record AAudioApi (D : Type) : Type := mkApi {
  AAudioStream_getState : D -> Z * D;
  AAudioStream_getFramesPerBurst : D -> Z * D;
  AAudioStream_getSamplesPerFrame : D -> Z * D;
  AAudioStream_getSampleRate : D -> Z * D;
  AAudioStream_getBufferSizeInFrames : D -> Z * D;
  AAudioStream_getBufferCapacityInFrames : D -> Z * D;
  AAudioStream_getXRunCount : D -> Z * D;
  AAudioStream_setBufferSizeInFrames : Z -> D -> Z * D;
  (* buffer, numFrames, timeoutNanoseconds *)
  AAudioStream_write : list Z -> Z -> Z -> D -> Z * D;
  AAudioStream_requestStart : D -> Z * D;
  AAudioStream_requestStop : D -> Z * D;
  AAudioStream_close : D -> Z * D
}.

Arguments AAudioStream_getState {D}.
Arguments AAudioStream_getFramesPerBurst {D}.
Arguments AAudioStream_getSamplesPerFrame {D}.
Arguments AAudioStream_getSampleRate {D}.
Arguments AAudioStream_getBufferSizeInFrames {D}.
Arguments AAudioStream_getBufferCapacityInFrames {D}.
Arguments AAudioStream_getXRunCount {D}.
Arguments AAudioStream_setBufferSizeInFrames {D}.
Arguments AAudioStream_write {D}.
Arguments AAudioStream_requestStart {D}.
Arguments AAudioStream_requestStop {D}.
Arguments AAudioStream_close {D}.

(** The two heap buffers of the program. *)
Inductive buffer_id : Type := ProbeBuf | RenderBuf.

(** One entry per call, with the arguments passed and the answer got.
    [ENew] and [EDelete] are [new[]] and [delete[]]. *)
Inductive event : Type :=
| EGetState (r : Z)
| EGetFramesPerBurst (r : Z)
| EGetSamplesPerFrame (r : Z)
| EGetSampleRate (r : Z)
| EGetBufferSize (r : Z)
| EGetBufferCapacity (r : Z)
| EGetXRunCount (r : Z)
| ESetBufferSize (frames r : Z)
| EWrite (buf : list Z) (numFrames timeout r : Z)
| ERequestStart (r : Z)
| ERequestStop (r : Z)
| EClose (r : Z)
| EPrintInfo
| ENew (b : buffer_id) (len : Z)
| EDelete (b : buffer_id).

Definition is_write (e : event) : bool :=
  match e with EWrite _ _ _ _ => true | _ => false end.

Definition is_set (e : event) : bool :=
  match e with ESetBufferSize _ _ => true | _ => false end.

(** A tuning error as the trace shows it: a rejected size request or a
    failed write. *)
Definition tuning_error_event (e : event) : bool :=
  match e with
  | ESetBufferSize _ r => r <=? AAUDIO_OK
  | EWrite _ _ _ r => r <? 0
  | _ => false
  end.

Definition negative_write (e : event) : bool :=
  match e with EWrite _ _ _ r => r <? 0 | _ => false end.

(** ** Program states and the monad of the embedding *)

(** How a run can end other than by returning. *)
Inductive crash : Type :=
| AssertFail   (* a failed assert: the process aborts *)
| BadAlloc     (* new[] with a negative length *)
| OutOfFuel.   (* the loop bound of the model was reached *)

Inductive outcome (A : Type) : Type :=
| Ret (a : A)
| Crash (c : crash).

Arguments Ret {A}.
Arguments Crash {A}.

Definition terminated {A : Type} (o : outcome A) : Prop :=
  o <> Crash OutOfFuel.

Section Program.

Variable D : Type.
Variable api : AAudioApi D.

(** [assert] is a macro of <cassert>: it is empty when the file is
    compiled with NDEBUG defined, which the build decides. *)
Variable NDEBUG : bool.

(** The calls of the controller thread, in the order in which the
    rendering thread sees their effect: [controller n] runs just before
    the [n]-th access of the rendering thread to a field of the engine
    that the controller reads or writes too.  These accesses are the
    reads of the two flags in the loop and the assignments to
    [requestStop_] and to [playStream_] in the teardown. *)
Variable controller : nat -> list command.

Record world : Type := mkWorld {
  w_dev : D;
  w_engine : AAudioEngine;     (* the global [engine] *)
  w_trace : list event;
  w_clock : nat                (* accesses of the rendering thread to the
                                  fields it shares with the controller *)
}.

Definition M (A : Type) : Type := world -> outcome A * world.

Definition ret {A : Type} (a : A) : M A := fun w => (Ret a, w).

Definition bind {A B : Type} (m : M A) (k : A -> M B) : M B :=
  fun w =>
    match m w with
    | (Ret a, w') => k a w'
    | (Crash c, w') => (Crash c, w')
    end.

Notation "x <- m ;; k" := (bind m (fun x => k))
  (at level 90, m at level 80, right associativity).
Notation "m ;;; k" := (bind m (fun _ => k))
  (at level 90, right associativity).

Definition crash_with {A : Type} (c : crash) : M A := fun w => (Crash c, w).

Definition log (e : event) : M unit :=
  fun w => (Ret tt, mkWorld (w_dev w) (w_engine w) (w_trace w ++ [e]) (w_clock w)).

(** A call of the stream: step the device, record the answer. *)
Definition call (op : D -> Z * D) (ev : Z -> event) : M Z :=
  fun w =>
    let (r, d) := op (w_dev w) in
    (Ret r, mkWorld d (w_engine w) (w_trace w ++ [ev r]) (w_clock w)).

Definition get_engine : M AAudioEngine := fun w => (Ret (w_engine w), w).

Definition update_engine (f : AAudioEngine -> AAudioEngine) : M unit :=
  fun w => (Ret tt, mkWorld (w_dev w) (f (w_engine w)) (w_trace w) (w_clock w)).

(** A read of a flag that the controller writes: what the controller did
    in the meantime is applied first. *)
Definition read_flag (f : AAudioEngine -> bool) : M bool :=
  fun w =>
    let e := run_commands (controller (w_clock w)) (w_engine w) in
    (Ret (f e), mkWorld (w_dev w) e (w_trace w) (S (w_clock w))).

(** An assignment to a field that the controller reads or writes: what
    the controller did in the meantime comes first. *)
Definition write_field (f : AAudioEngine -> AAudioEngine) : M unit :=
  fun w =>
    let e := run_commands (controller (w_clock w)) (w_engine w) in
    (Ret tt, mkWorld (w_dev w) (f e) (w_trace w) (S (w_clock w))).

Definition assert (b : bool) : M unit :=
  if NDEBUG then ret tt
  else if b then ret tt else crash_with AssertFail.

(** [new T[len]]: a negative length throws; the elements are not
    initialised, [fill] stands for what the memory holds. *)
Definition new_array (b : buffer_id) (len : Z) (fill : Z) : M (list Z) :=
  if len <? 0 then crash_with BadAlloc
  else log (ENew b len) ;;; ret (replicate (Z.to_nat len) fill).

Definition delete_array (b : buffer_id) : M unit := log (EDelete b).

(** ** TunePlayerForLowLatency *)

Record tune_vars : Type := mkTune {
  bufSize : Z;
  prevBufSize : Z;
  prevXRun : Z;
  trainingError : bool
}.

Inductive flow : Type := Continue | Break.

(** The body of the search loop (lines 233-262). *)
Definition tune_body (framesPerBurst bufCap : Z) (buf : list Z) (v : tune_vars)
  : M (flow * tune_vars) :=
  result <- call (AAudioStream_setBufferSizeInFrames api (bufSize v))
                 (ESetBufferSize (bufSize v)) ;;
  if result <=? AAUDIO_OK then
    ret (Break, mkTune (bufSize v) (prevBufSize v) (prevXRun v) true)
  else
    bufSize' <- call (AAudioStream_getBufferSizeInFrames api) EGetBufferSize ;;
    if bufSize' =? prevBufSize v then
      ret (Break, mkTune bufSize' (prevBufSize v) (prevXRun v) (trainingError v))
    else
      let prevBufSize' := bufSize' in
      result <- call (AAudioStream_write api buf bufCap 1000000000)
                     (EWrite buf bufCap 1000000000) ;;
      if result <? 0 then
        assert (0 <=? result) ;;;
        ret (Break, mkTune bufSize' prevBufSize' (prevXRun v) true)
      else
        curXRun <- call (AAudioStream_getXRunCount api) EGetXRunCount ;;
        if curXRun <=? prevXRun v then
          ret (Break, mkTune bufSize' prevBufSize' (prevXRun v) (trainingError v))
        else
          ret (Continue,
               mkTune (add32 bufSize' framesPerBurst) prevBufSize' curXRun
                      (trainingError v)).

(** [while (bufSize <= bufCap) { ... }] *)
Fixpoint tune_loop (fuel : nat) (framesPerBurst bufCap : Z) (buf : list Z)
    (v : tune_vars) : M tune_vars :=
  match fuel with
  | O => crash_with OutOfFuel
  | S fuel' =>
      if bufSize v <=? bufCap then
        r <- tune_body framesPerBurst bufCap buf v ;;
        match r with
        | (Continue, v') => tune_loop fuel' framesPerBurst bufCap buf v'
        | (Break, v') => ret v'
        end
      else ret v
  end.

(** The length in bytes of the probe buffer:
    [bufCap * engine.bitsPerSample_ / 8] in [int] arithmetic. *)
Definition probe_bytes (bufCap bitsPerSample : Z) : Z :=
  Z.quot (mul32 bufCap bitsPerSample) 8.

Definition TunePlayerForLowLatency (fuel : nat) : M bool :=
  state <- call (AAudioStream_getState api) EGetState ;;
  if negb (state =? AAUDIO_STREAM_STATE_STARTED) then ret false
  else
    framesPerBurst <- call (AAudioStream_getFramesPerBurst api) EGetFramesPerBurst ;;
    orgSize <- call (AAudioStream_getBufferSizeInFrames api) EGetBufferSize ;;
    let bufSize0 := framesPerBurst in
    bufCap <- call (AAudioStream_getBufferCapacityInFrames api) EGetBufferCapacity ;;
    eng <- get_engine ;;
    (* new uint8_t[...], then memset to 0 *)
    buf <- new_array ProbeBuf (probe_bytes bufCap (bitsPerSample_ eng)) 0 ;;
    assert true ;;;
    prevXRun0 <- call (AAudioStream_getXRunCount api) EGetXRunCount ;;
    v <- tune_loop fuel framesPerBurst bufCap buf (mkTune bufSize0 0 prevXRun0 false) ;;
    delete_array ProbeBuf ;;;
    if trainingError v then
      call (AAudioStream_setBufferSizeInFrames api orgSize) (ESetBufferSize orgSize) ;;;
      ret false
    else ret true.

(** ** The sine generator

    [SineGenerator.h] is not part of the sources at hand.  What a sample
    is worth is floating-point arithmetic and stays abstract: [sample g]
    is the 16-bit value the generator writes at its current phase and
    [advancePhase g] moves the phase on by one frame. *)

Variable SineGenerator : Type.
Variable setup : Q -> Z -> Q -> SineGenerator.  (* frequency, rate, amplitude *)
Variable sample : SineGenerator -> Z.
Variable advancePhase : SineGenerator -> SineGenerator.

(** [buffer[i] = x].  An index outside the buffer is undefined behaviour
    in the source; the model leaves the buffer as it is. *)
Definition store (i : Z) (x : Z) (buffer : list Z) : list Z :=
  if 0 <=? i then <[Z.to_nat i := x]> buffer else buffer.

(** Modelled from the spec: the loop of [SineGenerator::render], one
    sample per frame, [stride] elements apart. *)
Fixpoint render_from (g : SineGenerator) (buffer : list Z) (index stride : Z)
    (count : nat) : SineGenerator * list Z :=
  match count with
  | O => (g, buffer)
  | S n =>
      render_from (advancePhase g) (store index (sample g) buffer)
                  (index + stride) stride n
  end.

(** Modelled from the spec: [SineGenerator::render] (SineGenerator.h is
    missing), "writes frameCount samples into buffer, advancing by
    frameStride elements between samples"; [offset] is where the pointer
    passed as buffer points to. *)
Definition render (g : SineGenerator) (buffer : list Z) (offset : Z)
    (frameStride frameCount : Z) : SineGenerator * list Z :=
  render_from g buffer offset frameStride (Z.to_nat frameCount).

(** [memset(buf, 0, sizeof(int16_t) * n)] on a buffer of 16-bit samples,
    confined to the buffer. *)
Definition memset_zero (n : Z) (buffer : list Z) : list Z :=
  replicate (Nat.min (Z.to_nat n) (length buffer)) 0 ++ drop (Z.to_nat n) buffer.

(** ** PlayAudioThreadProc *)

(** [PrintAudioStreamInfo] (audio_common) only logs; it may query the
    stream. *)
Variable PrintAudioStreamInfo : D -> D.

Definition print_info : M unit :=
  fun w => (Ret tt, mkWorld (PrintAudioStreamInfo (w_dev w)) (w_engine w)
                            (w_trace w ++ [EPrintInfo]) (w_clock w)).

(** What a fresh [new int16_t[n]] holds. *)
Variable garbage : Z.

Record render_vars : Type := mkRender {
  sineOscLeft : SineGenerator;
  sineOscRight : SineGenerator;
  buf : list Z
}.

(** Lines 93-100: fill the buffer. *)
Definition fill_buffer (play : bool) (samplesPerFrame framesPerBurst : Z)
    (v : render_vars) : render_vars :=
  if play then
    let (r, b) := render (sineOscRight v) (buf v) 0 samplesPerFrame framesPerBurst in
    if samplesPerFrame =? 2 then
      let (l, b') := render (sineOscLeft v) b 1 samplesPerFrame framesPerBurst in
      mkRender l r b'
    else mkRender (sineOscLeft v) r b
  else
    mkRender (sineOscLeft v) (sineOscRight v)
             (memset_zero (framesPerBurst * samplesPerFrame) (buf v)).

(** The body of the rendering loop (lines 93-105). *)
Definition render_body (samplesPerFrame framesPerBurst : Z) (v : render_vars)
  : M render_vars :=
  play <- read_flag playAudio_ ;;
  let v' := fill_buffer play samplesPerFrame framesPerBurst v in
  result <- call (AAudioStream_write api (buf v') framesPerBurst 100000000)
                 (EWrite (buf v') framesPerBurst 100000000) ;;
  assert (0 <? result) ;;;
  ret v'.

(** [while (!eng->requestStop_) { ... }] *)
Fixpoint render_loop (fuel : nat) (samplesPerFrame framesPerBurst : Z)
    (v : render_vars) : M render_vars :=
  match fuel with
  | O => crash_with OutOfFuel
  | S fuel' =>
      stop <- read_flag requestStop_ ;;
      if negb stop then
        v' <- render_body samplesPerFrame framesPerBurst v ;;
        render_loop fuel' samplesPerFrame framesPerBurst v'
      else ret v
  end.

(** Lines 108-114.  The controller can run before each of the two
    assignments: a call of it that comes after the first one finds the
    handle still in place. *)
Definition teardown : M unit :=
  delete_array RenderBuf ;;;
  write_field (set_requestStop false) ;;;
  call (AAudioStream_requestStop api) ERequestStop ;;;
  call (AAudioStream_close api) EClose ;;;
  write_field (set_playStream None).

(** Lines 92-116: the loop, then the teardown. *)
Definition render_session (fuel : nat) (samplesPerFrame framesPerBurst : Z)
    (v : render_vars) : M unit :=
  render_loop fuel samplesPerFrame framesPerBurst v ;;;
  teardown.

Definition PlayAudioThreadProc (fuelTune fuelRender : nat) : M unit :=
  TunePlayerForLowLatency fuelTune ;;;   (* a failure is only logged *)
  print_info ;;;
  call (AAudioStream_getState api) EGetState ;;;
  eng <- get_engine ;;
  let oscLeft := setup (440 # 1) (sampleRate_ eng) (1 # 4) in
  let oscRight := setup (660 # 1) (sampleRate_ eng) (1 # 4) in
  framesPerBurst <- call (AAudioStream_getFramesPerBurst api) EGetFramesPerBurst ;;
  samplesPerFrame <- call (AAudioStream_getSamplesPerFrame api) EGetSamplesPerFrame ;;
  buf0 <- new_array RenderBuf (mul32 framesPerBurst samplesPerFrame) garbage ;;
  assert true ;;;
  render_session fuelRender samplesPerFrame framesPerBurst
                 (mkRender oscLeft oscRight buf0).

(** ** createEngine

    [InitAAudio], [StreamBuilder::CreateStream], [SampleFormatToBpp] and
    [AUDIO_SAMPLE_CHANNELS] come from files that are not at hand: what
    they answer is taken as given. *)

Variable InitAAudio : bool.
Variable CreateStream : Z -> Z -> Z -> stream_ptr.
Variable SampleFormatToBpp : Z -> Z.
Variable AUDIO_SAMPLE_CHANNELS : Z.

Definition is_null (p : stream_ptr) : bool :=
  match p with None => true | Some _ => false end.

(** The engine as [createEngine] fills it, the stream rate apart. *)
Definition engine_created : AAudioEngine :=
  let channels := AUDIO_SAMPLE_CHANNELS mod 65536 in
  let format := AAUDIO_FORMAT_PCM_I16 in
  mkEngine 0 channels (SampleFormatToBpp format mod 65536) format
           (CreateStream format channels AAUDIO_SHARING_MODE_SHARED)
           false false.

Definition set_sampleRate (r : Z) (e : AAudioEngine) : AAudioEngine :=
  mkEngine r (sampleChannels_ e) (bitsPerSample_ e)
           (sampleFormat_ e) (playStream_ e) (requestStop_ e) (playAudio_ e).

(** Returns whether the rendering thread was launched. *)
Definition Java_com_google_sample_aaudio_play_MainActivity_createEngine : M bool :=
  update_engine (fun _ => engine_zero) ;;;
  if negb InitAAudio then ret false
  else
    update_engine (fun _ => engine_created) ;;;
    eng <- get_engine ;;
    assert (negb (is_null (playStream_ eng))) ;;;
    print_info ;;;
    rate <- call (AAudioStream_getSampleRate api) EGetSampleRate ;;
    update_engine (set_sampleRate (rate mod 4294967296)) ;;;
    result <- call (AAudioStream_requestStart api) ERequestStart ;;
    if negb (result =? AAUDIO_OK) then
      assert (result =? AAUDIO_OK) ;;;
      ret false
    else ret true.

(** The engine is created and the rendering thread runs to its end,
    while the controller makes the calls of [controller]. *)
Definition engine_lifetime (fuelTune fuelRender : nat) : M bool :=
  launched <- Java_com_google_sample_aaudio_play_MainActivity_createEngine ;;
  if launched then PlayAudioThreadProc fuelTune fuelRender ;;; ret true
  else ret false.

End Program.

Arguments mkWorld {D}.
Arguments w_dev {D}.
Arguments w_engine {D}.
Arguments w_trace {D}.
Arguments w_clock {D}.
Arguments tune_body {D}.
Arguments tune_loop {D}.
Arguments TunePlayerForLowLatency {D}.
Arguments render_body {D} _ _ _ {SineGenerator}.
Arguments render_loop {D} _ _ _ {SineGenerator}.
Arguments teardown {D}.
Arguments render_session {D} _ _ _ {SineGenerator}.
Arguments PlayAudioThreadProc {D} _ _ _ {SineGenerator}.
Arguments Java_com_google_sample_aaudio_play_MainActivity_createEngine {D}.
Arguments engine_lifetime {D} _ _ _ {SineGenerator}.
Arguments mkRender {SineGenerator}.
Arguments sineOscLeft {SineGenerator}.
Arguments sineOscRight {SineGenerator}.
Arguments buf {SineGenerator}.
Arguments render {SineGenerator}.
Arguments render_from {SineGenerator}.
Arguments fill_buffer {SineGenerator}.

(** ** Simulated streams

    A simulated stream keeps its buffer size, its underrun count and the
    number of writes it got; how it answers a size request and a write is
    given by the functions of a [sim_policy].  Its underrun counter is a
    32-bit integer. *)

Record sim_dev : Type := mkSim {
  sd_size : Z;
  sd_xrun : Z;
  sd_writes : nat
}.

Record sim_policy : Type := mkPolicy {
  sp_state : Z;
  sp_burst : Z;
  sp_capacity : Z;
  sp_channels : Z;
  sp_rate : Z;
  sp_adopt : sim_dev -> Z -> Z;        (* the size adopted on a request *)
  sp_set_result : sim_dev -> Z -> Z;   (* the answer to the request *)
  sp_write_result : sim_dev -> Z -> Z; (* the answer to a write of n frames *)
  sp_underruns : sim_dev -> Z          (* underruns a write adds *)
}.

Definition sim_api (p : sim_policy) : AAudioApi sim_dev :=
  mkApi sim_dev
    (fun d => (sp_state p, d))
    (fun d => (sp_burst p, d))
    (fun d => (sp_channels p, d))
    (fun d => (sp_rate p, d))
    (fun d => (sd_size d, d))
    (fun d => (sp_capacity p, d))
    (fun d => (wrap32 (sd_xrun d), d))
    (fun n d => (sp_set_result p d n, mkSim (sp_adopt p d n) (sd_xrun d) (sd_writes d)))
    (fun _ n _ d =>
       (sp_write_result p d n,
        mkSim (sd_size d) (sd_xrun d + sp_underruns p d) (S (sd_writes d))))
    (fun d => (AAUDIO_OK, d))
    (fun d => (AAUDIO_OK, d))
    (fun d => (AAUDIO_OK, d)).

(** A stream that keeps its buffer between [lo] and [hi] frames, answers
    a request with the size it adopted, takes every write in full and
    underruns while its buffer is smaller than [threshold]. *)
Definition clamping_policy (burst capacity channels lo hi threshold : Z)
  : sim_policy :=
  mkPolicy AAUDIO_STREAM_STATE_STARTED burst capacity channels 48000
    (fun _ n => Z.min (Z.max n lo) hi)
    (fun _ n => Z.min (Z.max n lo) hi)
    (fun _ n => n)
    (fun d => if sd_size d <? threshold then 1 else 0).

(** A stream that honours every request up to its capacity. *)
Definition plain_policy (burst capacity channels threshold : Z) : sim_policy :=
  clamping_policy burst capacity channels 0 capacity threshold.

(** A stream that accepts every request and whose buffer size reads 0. *)
Definition sizeless_policy (burst capacity : Z) : sim_policy :=
  mkPolicy AAUDIO_STREAM_STATE_STARTED burst capacity 2 48000
    (fun _ _ => 0)
    (fun _ n => n)
    (fun _ n => n)
    (fun _ => 0).

(** A stream that rejects every size request. *)
Definition rejecting_policy (burst capacity : Z) : sim_policy :=
  mkPolicy AAUDIO_STREAM_STATE_STARTED burst capacity 2 48000
    (fun d _ => sd_size d)
    (fun _ _ => -1)
    (fun _ n => n)
    (fun _ => 0).

(** A stream that honours every request and fails every write. *)
Definition broken_write_policy (burst capacity : Z) : sim_policy :=
  mkPolicy AAUDIO_STREAM_STATE_STARTED burst capacity 2 48000
    (fun _ n => Z.min n capacity)
    (fun _ n => Z.min n capacity)
    (fun _ _ => -1)
    (fun _ => 0).

(** The engine of the sample once created: stereo, 16-bit PCM. *)
Definition sample_engine : AAudioEngine :=
  mkEngine 48000 2 16 AAUDIO_FORMAT_PCM_I16 (Some 1%positive) false false.

Definition sim_world (size : Z) : world sim_dev :=
  mkWorld (mkSim size 0 0) sample_engine [] 0.

(** A stream that stays at 192 frames whatever is asked. *)
Definition stuck_policy : sim_policy := clamping_policy 96 384 2 192 192 0.

(** A stream whose buffer is never smaller than two bursts of 96 frames
    and which underruns below 400 frames. *)
Definition two_burst_policy : sim_policy := clamping_policy 96 960 2 192 960 400.

(** A stream whose buffer flips between one and two bursts on every
    request, and which underruns on every write. *)
Definition flapping_policy : sim_policy :=
  mkPolicy AAUDIO_STREAM_STATE_STARTED 96 384 2 48000
    (fun d _ => if sd_size d =? 96 then 192 else 96)
    (fun d _ => if sd_size d =? 96 then 192 else 96)
    (fun _ n => n)
    (fun _ => 1).

(** A stand-in for the sine generator: a ramp, whose state is the next
    sample. *)
Definition ramp_sample (g : Z) : Z := g.
Definition ramp_advance (g : Z) : Z := g + 1.

(** The controller starts the playback during the second iteration of
    the rendering thread (its fourth flag read) and deletes the engine
    right after it. *)
Definition short_visit (n : nat) : list command :=
  match n with
  | 3%nat => [CmdStart]
  | 4%nat => [CmdDeleteEngine]
  | _ => []
  end.

Definition idle (n : nat) : list command := [].

(** A stereo stream with bursts of two frames. *)
Definition tiny_policy : sim_policy := plain_policy 2 8 2 0.

Definition tiny_vars : render_vars Z := mkRender 100 200 [7; 7; 7; 7].

(** * The vocabulary of the properties

    Predicates on runs and traces, and the sentences of the
    specification that the program does not satisfy as they are worded,
    each stated before it is refuted. *)

(** The world after some more calls: the device moved to [d], the events
    [evs] were added to the trace. *)
Definition extend {D : Type} (w : world D) (d : D) (evs : list event) : world D :=
  mkWorld d (w_engine w) (w_trace w ++ evs) (w_clock w).

(** The calls that precede the search. *)
Definition entry_events (s f org c n x : Z) : list event :=
  [EGetState s; EGetFramesPerBurst f; EGetBufferSize org;
   EGetBufferCapacity c; ENew ProbeBuf n; EGetXRunCount x].

(** What the search leaves in the trace, and how it ends: the error flag
    is raised exactly when the trace shows a tuning error; a failed
    assertion is the one of line 252, right after a negative write. *)
Definition search_result (NDEBUG : bool) (flag0 : bool) (probe : list Z) (bufCap : Z)
    (out : outcome tune_vars) (evs : list event) : Prop :=
  match out with
  | Ret v' =>
      trainingError v' = flag0 || existsb tuning_error_event evs
      /\ (NDEBUG = false -> existsb negative_write evs = false)
  | Crash AssertFail =>
      NDEBUG = false /\
      exists pre r, evs = pre ++ [EWrite probe bufCap 1000000000 r] /\ r < 0
  | Crash BadAlloc => False
  | Crash OutOfFuel => True
  end.

(** The specification on the first iteration, as it is worded: a stream
    whose size, read back after the first accepted request, is unchanged
    -- the size it had at entry -- makes the tuner answer true without
    any probe write. *)
Definition unchanged_size_skips_probe : Prop :=
  forall (D : Type) (api : AAudioApi D) (nd : bool) (fuel : nat)
         (w w' : world D) (out : outcome bool) s f org c n x r rest,
    TunePlayerForLowLatency api nd fuel w = (out, w') ->
    w_trace w' = w_trace w ++ entry_events s f org c n x
                   ++ [ESetBufferSize f r; EGetBufferSize org] ++ rest ->
    0 < r ->
    out = Ret true /\ existsb is_write rest = false.

(** The specification on the next candidate, as it is worded: an
    iteration that goes on to the next one has grown the candidate -- the
    size it asked the stream for -- by exactly one burst, and so never
    shrinks it. *)
Definition candidate_grows_by_one_burst : Prop :=
  forall (D : Type) (api : AAudioApi D) (nd : bool) framesPerBurst bufCap probe
         (v v' : tune_vars) (w w' : world D),
    tune_body api nd framesPerBurst bufCap probe v w = (Ret (Continue, v'), w') ->
    bufSize v' = bufSize v + framesPerBurst /\ bufSize v <= bufSize v'.

Definition requested_sizes (evs : list event) : list Z :=
  flat_map (fun e => match e with ESetBufferSize n _ => [n] | _ => [] end) evs.

(** The room left above the last reading of the underrun counter: every
    iteration that goes on to the next one uses some of it up. *)
Definition headroom (v : tune_vars) : nat := Z.to_nat (INT32_MAX - prevXRun v).

(** The tuner put the size of entry back and answered false. *)
Definition restored_and_failed (out : outcome bool) (evs : list event) : Prop :=
  out = Ret false /\
  exists s f org rest r,
    evs = EGetState s :: EGetFramesPerBurst f :: EGetBufferSize org
            :: rest ++ [ESetBufferSize org r].

(** The process was aborted by the assertion that follows a negative
    write: that write is the last call made. *)
Definition aborted_at_write (out : outcome bool) (evs : list event) : Prop :=
  out = Crash AssertFail /\
  exists pre b n t r, evs = pre ++ [EWrite b n t r] /\ r < 0.

(** The sentence of the specification on tuning errors, for a build
    with ([nd] true) or without ([nd] false) NDEBUG: every run that meets
    a tuning error puts the size of entry back and answers false. *)
Definition tuning_error_restores (nd : bool) : Prop :=
  forall (D : Type) (api : AAudioApi D) (fuel : nat) (w w' : world D) out evs,
    TunePlayerForLowLatency api nd fuel w = (out, w') ->
    w_trace w' = w_trace w ++ evs ->
    terminated out ->
    existsb tuning_error_event evs = true ->
    restored_and_failed out evs.

(** What the search may leave in the trace: size requests, size and
    underrun queries, and writes of the probe buffer, [bufCap] frames at a
    time. *)
Definition search_event (probe : list Z) (bufCap : Z) (e : event) : Prop :=
  match e with
  | ESetBufferSize _ _ | EGetBufferSize _ | EGetXRunCount _ => True
  | EWrite b n t _ => b = probe /\ n = bufCap /\ t = 1000000000
  | _ => False
  end.

(** The bytes that a frame of [samplesPerFrame] samples of
    [bitsPerSample] bits takes. *)
Definition frame_bytes (samplesPerFrame bitsPerSample : Z) : Z :=
  samplesPerFrame * (bitsPerSample / 8).

(** The world once the rendering thread has read a flag. *)
Definition after_read {D : Type} (controller : nat -> list command)
    (w : world D) : world D :=
  mkWorld (w_dev w) (run_commands (controller (w_clock w)) (w_engine w))
          (w_trace w) (S (w_clock w)).

(** The stream parameters and the handle of two engine states agree. *)
Definition same_stream (e e' : AAudioEngine) : Prop :=
  sampleRate_ e' = sampleRate_ e
  /\ sampleChannels_ e' = sampleChannels_ e
  /\ bitsPerSample_ e' = bitsPerSample_ e
  /\ sampleFormat_ e' = sampleFormat_ e
  /\ playStream_ e' = playStream_ e.

Definition positive_write (e : event) : bool :=
  match e with EWrite _ _ _ r => 0 <? r | _ => false end.

(** How the rendering loop ends and what it leaves in the trace: writes
    only; with the assertions compiled in they were all answered with a
    positive result, but for the one that made an assertion fail. *)
Definition render_result {G : Type} (NDEBUG : bool)
    (out : outcome (render_vars G))
    (evs : list event) : Prop :=
  match out with
  | Crash AssertFail =>
      NDEBUG = false /\
      exists pre b n t r,
        evs = pre ++ [EWrite b n t r] /\ r <= 0
        /\ forallb positive_write pre = true
  | Crash BadAlloc => False
  | _ => NDEBUG = false -> forallb positive_write evs = true
  end.


(** The calls the controller made just before the accesses [from], ...,
    [upto - 1] of the rendering thread, in their order. *)
Definition controller_calls (controller : nat -> list command)
    (from upto : nat) : list command :=
  flat_map controller (seq from (upto - from)).

(** The specification on write errors, as it is worded, whatever the
    build: once a write of the rendering loop was answered with a
    non-positive result, no other write follows. *)
Definition write_error_ends_loop : Prop :=
  forall (D : Type) (api : AAudioApi D) (nd : bool)
         (controller : nat -> list command) (G : Type) (sample : G -> Z)
         (advancePhase : G -> G) (fuel : nat) (samplesPerFrame framesPerBurst : Z)
         (v : render_vars G) (w w' : world D) (out : outcome unit)
         (pre post : list event) (b : list Z) (n t r : Z),
    render_session api nd controller sample advancePhase fuel
                   samplesPerFrame framesPerBurst v w = (out, w') ->
    w_trace w' = w_trace w ++ pre ++ EWrite b n t r :: post ->
    r <= 0 ->
    existsb is_write post = false.

(** The generator after [n] frames. *)
Definition phase_after {G : Type} (advancePhase : G -> G) (n : nat) (g : G) : G :=
  Nat.iter n advancePhase g.

(** The place of the [i]-th sample of a channel. *)
Definition slot (idx stride : Z) (i : nat) : nat :=
  Z.to_nat (idx + Z.of_nat i * stride).

(** ** The shapes of a run of the tuner *)

(** A size request that does not exceed the capacity. *)
Definition within_capacity (bufCap : Z) (e : event) : Prop :=
  match e with ESetBufferSize n _ => n <= bufCap | _ => True end.

(** The calls of a search: calls of the loop only, every size request
    within the capacity, the first call a request for [first] frames. *)
Definition search_trace (probe : list Z) (bufCap first : Z)
    (evs : list event) : Prop :=
  List.Forall (search_event probe bufCap) evs
  /\ List.Forall (within_capacity bufCap) evs
  /\ (evs = [] \/ exists r rest, evs = ESetBufferSize first r :: rest).

(** The six ways a run of [TunePlayerForLowLatency] can go, with the
    calls it makes; [nd] tells whether NDEBUG is defined and
    [bitsPerSample] is the field of the engine. *)
Inductive tuner_run (nd : bool) (bitsPerSample : Z)
  : outcome bool -> list event -> Prop :=
| run_not_started (s : Z) :
    s <> AAUDIO_STREAM_STATE_STARTED ->
    tuner_run nd bitsPerSample (Ret false) [EGetState s]
| run_bad_alloc (f org c : Z) :
    probe_bytes c bitsPerSample < 0 ->
    tuner_run nd bitsPerSample (Crash BadAlloc)
      [EGetState AAUDIO_STREAM_STATE_STARTED; EGetFramesPerBurst f;
       EGetBufferSize org; EGetBufferCapacity c]
| run_tuned (f org c x : Z) (levs : list event) :
    0 <= probe_bytes c bitsPerSample ->
    search_trace (replicate (Z.to_nat (probe_bytes c bitsPerSample)) 0) c f levs ->
    existsb tuning_error_event levs = false ->
    tuner_run nd bitsPerSample (Ret true)
      (entry_events AAUDIO_STREAM_STATE_STARTED f org c
                    (probe_bytes c bitsPerSample) x
         ++ levs ++ [EDelete ProbeBuf])
| run_restored (f org c x r : Z) (levs : list event) :
    0 <= probe_bytes c bitsPerSample ->
    search_trace (replicate (Z.to_nat (probe_bytes c bitsPerSample)) 0) c f levs ->
    existsb tuning_error_event levs = true ->
    (nd = false -> existsb negative_write levs = false) ->
    tuner_run nd bitsPerSample (Ret false)
      (entry_events AAUDIO_STREAM_STATE_STARTED f org c
                    (probe_bytes c bitsPerSample) x
         ++ levs ++ [EDelete ProbeBuf; ESetBufferSize org r])
| run_aborted (f org c x r : Z) (pre : list event) :
    nd = false ->
    r < 0 ->
    0 <= probe_bytes c bitsPerSample ->
    search_trace (replicate (Z.to_nat (probe_bytes c bitsPerSample)) 0) c f
                 (pre ++ [EWrite (replicate (Z.to_nat (probe_bytes c bitsPerSample)) 0)
                                 c 1000000000 r]) ->
    tuner_run nd bitsPerSample (Crash AssertFail)
      (entry_events AAUDIO_STREAM_STATE_STARTED f org c
                    (probe_bytes c bitsPerSample) x
         ++ pre ++ [EWrite (replicate (Z.to_nat (probe_bytes c bitsPerSample)) 0)
                           c 1000000000 r])
| run_out_of_fuel (f org c x : Z) (levs : list event) :
    0 <= probe_bytes c bitsPerSample ->
    search_trace (replicate (Z.to_nat (probe_bytes c bitsPerSample)) 0) c f levs ->
    tuner_run nd bitsPerSample (Crash OutOfFuel)
      (entry_events AAUDIO_STREAM_STATE_STARTED f org c
                    (probe_bytes c bitsPerSample) x
         ++ levs).

(** The allocation and the release of the probe buffer. *)
Definition is_probe_new (e : event) : bool :=
  match e with ENew ProbeBuf _ => true | _ => false end.

Definition is_probe_delete (e : event) : bool :=
  match e with EDelete ProbeBuf => true | _ => false end.

(** ** The controller calls and the writes of the rendering loop *)

Definition is_delete_cmd (c : command) : bool :=
  match c with CmdDeleteEngine => true | _ => false end.

Definition is_start_cmd (c : command) : bool :=
  match c with CmdStart => true | _ => false end.

(** The play flag after some calls: the last start or stop decides. *)
Definition play_after (cs : list command) (play : bool) : bool :=
  fold_left (fun b c => match c with
                        | CmdStart => true
                        | CmdStop => false
                        | CmdDeleteEngine => b
                        end) cs play.

(** A write of the rendering loop: [frames] frames from a buffer of
    [len] samples, with the timeout of the loop. *)
Definition render_write (frames : Z) (len : nat) (e : event) : Prop :=
  match e with
  | EWrite b n t _ => n = frames /\ t = 100000000 /\ length b = len
  | _ => False
  end.

(** A write of [len] zeros. *)
Definition silent_write (len : nat) (e : event) : Prop :=
  match e with
  | EWrite b _ _ _ => b = replicate len 0
  | _ => False
  end.

(** * Properties *)

Lemma wrap32_range (z : Z) : in_int32 (wrap32 z).
Proof.
  unfold in_int32, wrap32, INT32_MIN, INT32_MAX.
  pose proof (Z.mod_pos_bound (z + 2147483648) 4294967296). lia.
Qed.

Lemma wrap32_small (z : Z) : in_int32 z -> wrap32 z = z.
Proof.
  unfold in_int32, wrap32, INT32_MIN, INT32_MAX. intros H.
  rewrite Z.mod_small; lia.
Qed.

Lemma extend_extend {D : Type} (w : world D) d1 d2 evs1 evs2 :
  extend (extend w d1 evs1) d2 evs2 = extend w d2 (evs1 ++ evs2).
Proof. unfold extend; simpl. now rewrite <- app_assoc. Qed.

Lemma extend_trace {D : Type} (w : world D) d evs :
  w_trace (extend w d evs) = w_trace w ++ evs.
Proof. reflexivity. Qed.

Ltac unfold_monad :=
  unfold bind, call, ret, log, crash_with, get_engine, update_engine,
         delete_array, new_array, assert.

(** From two descriptions of the same trace, the events they share. *)
Ltac same_trace H :=
  repeat rewrite extend_trace in H;
  unfold entry_events in H;
  repeat rewrite <- app_assoc in H;
  apply app_inv_head in H;
  simpl in H;
  try discriminate H;
  try (injection H as H; subst).

Section TunerProperties.

Variable D : Type.
Variable api : AAudioApi D.
Variable NDEBUG : bool.

(** The five ways through the body of the search loop. *)
Lemma tune_body_cases (framesPerBurst bufCap : Z) (probe : list Z)
    (v : tune_vars) (w : world D) :
  let '(r1, d1) := AAudioStream_setBufferSizeInFrames api (bufSize v) (w_dev w) in
  let '(a, d2) := AAudioStream_getBufferSizeInFrames api d1 in
  let '(r2, d3) := AAudioStream_write api probe bufCap 1000000000 d2 in
  let '(x, d4) := AAudioStream_getXRunCount api d3 in
  let e1 := ESetBufferSize (bufSize v) r1 in
  let e2 := EGetBufferSize a in
  let e3 := EWrite probe bufCap 1000000000 r2 in
  let e4 := EGetXRunCount x in
  tune_body api NDEBUG framesPerBurst bufCap probe v w =
    if r1 <=? AAUDIO_OK then
      (Ret (Break, mkTune (bufSize v) (prevBufSize v) (prevXRun v) true),
       extend w d1 [e1])
    else if a =? prevBufSize v then
      (Ret (Break, mkTune a (prevBufSize v) (prevXRun v) (trainingError v)),
       extend w d2 [e1; e2])
    else if r2 <? 0 then
      (if NDEBUG then Ret (Break, mkTune a a (prevXRun v) true)
       else Crash AssertFail,
       extend w d3 [e1; e2; e3])
    else if x <=? prevXRun v then
      (Ret (Break, mkTune a a (prevXRun v) (trainingError v)),
       extend w d4 [e1; e2; e3; e4])
    else
      (Ret (Continue, mkTune (add32 a framesPerBurst) a x (trainingError v)),
       extend w d4 [e1; e2; e3; e4]).
Proof.
  unfold tune_body. unfold_monad. simpl.
  destruct (AAudioStream_setBufferSizeInFrames api (bufSize v) (w_dev w)) as [r1 d1].
  destruct (AAudioStream_getBufferSizeInFrames api d1) as [a d2] eqn:Ha.
  destruct (AAudioStream_write api probe bufCap 1000000000 d2) as [r2 d3] eqn:Hw.
  destruct (AAudioStream_getXRunCount api d3) as [x d4] eqn:Hx.
  simpl.
  destruct (r1 <=? AAUDIO_OK); simpl; [reflexivity|].
  rewrite Ha; simpl.
  destruct (a =? prevBufSize v); simpl.
  { unfold extend; simpl. now rewrite <- app_assoc. }
  rewrite Hw; simpl.
  destruct (r2 <? 0) eqn:Hneg; simpl.
  { assert (Hge : (0 <=? r2) = false) by lia. rewrite Hge.
    unfold extend; simpl. rewrite <- !app_assoc. simpl.
    destruct NDEBUG; reflexivity. }
  rewrite Hx; simpl.
  destruct (x <=? prevXRun v); simpl;
    unfold extend; simpl; rewrite <- !app_assoc; reflexivity.
Qed.

(** The tuner, call by call: what precedes the search and what follows. *)
Lemma tune_entry (fuel : nat) (w : world D) :
  let '(s, d1) := AAudioStream_getState api (w_dev w) in
  let '(f, d2) := AAudioStream_getFramesPerBurst api d1 in
  let '(org, d3) := AAudioStream_getBufferSizeInFrames api d2 in
  let '(c, d4) := AAudioStream_getBufferCapacityInFrames api d3 in
  let n := probe_bytes c (bitsPerSample_ (w_engine w)) in
  let '(x, d5) := AAudioStream_getXRunCount api d4 in
  let entry := [EGetState s; EGetFramesPerBurst f; EGetBufferSize org;
                EGetBufferCapacity c] in
  TunePlayerForLowLatency api NDEBUG fuel w =
    if negb (s =? AAUDIO_STREAM_STATE_STARTED) then
      (Ret false, extend w d1 [EGetState s])
    else if n <? 0 then (Crash BadAlloc, extend w d4 entry)
    else
      match tune_loop api NDEBUG fuel f c (replicate (Z.to_nat n) 0)
                      (mkTune f 0 x false)
                      (extend w d5 (entry ++ [ENew ProbeBuf n; EGetXRunCount x]))
      with
      | (Ret v, w') =>
          if trainingError v then
            let '(r, d') := AAudioStream_setBufferSizeInFrames api org (w_dev w') in
            (Ret false, extend w' d' [EDelete ProbeBuf; ESetBufferSize org r])
          else (Ret true, extend w' (w_dev w') [EDelete ProbeBuf])
      | (Crash k, w') => (Crash k, w')
      end.
Proof.
  unfold TunePlayerForLowLatency. unfold_monad. simpl.
  destruct (AAudioStream_getState api (w_dev w)) as [s d1].
  destruct (AAudioStream_getFramesPerBurst api d1) as [f d2] eqn:Hf.
  destruct (AAudioStream_getBufferSizeInFrames api d2) as [org d3] eqn:Ho.
  destruct (AAudioStream_getBufferCapacityInFrames api d3) as [c d4] eqn:Hc.
  destruct (AAudioStream_getXRunCount api d4) as [x d5] eqn:Hx.
  simpl.
  destruct (s =? AAUDIO_STREAM_STATE_STARTED); simpl; [|reflexivity].
  rewrite Hf; simpl. rewrite Ho; simpl. rewrite Hc; simpl.
  destruct (probe_bytes c (bitsPerSample_ (w_engine w)) <? 0); simpl.
  { unfold extend; simpl. rewrite <- !app_assoc. reflexivity. }
  assert (Hassert : (if NDEBUG then ret D tt else ret D tt) = ret D tt)
    by (destruct NDEBUG; reflexivity).
  rewrite Hassert. unfold ret. simpl. rewrite Hx; simpl.
  unfold extend; simpl. rewrite <- !app_assoc; simpl.
  match goal with
  | |- context [tune_loop ?a ?b ?c ?d ?e ?f ?g ?h] =>
      destruct (tune_loop a b c d e f g h) as [[v|k] w']
  end; simpl; [|reflexivity].
  destruct (trainingError v); simpl.
  - destruct (AAudioStream_setBufferSizeInFrames api org (w_dev w')) as [r d'].
    simpl. rewrite <- !app_assoc. reflexivity.
  - reflexivity.
Qed.

Lemma tune_loop_spec (fuel : nat) (framesPerBurst bufCap : Z) (probe : list Z) :
  forall (v : tune_vars) (w : world D) out w',
    tune_loop api NDEBUG fuel framesPerBurst bufCap probe v w = (out, w') ->
    exists evs, w' = extend w (w_dev w') evs
                /\ search_result NDEBUG (trainingError v) probe bufCap out evs.
Proof.
  induction fuel as [|fuel IH]; intros v w out w' Hrun; simpl in Hrun.
  { inversion Hrun; subst. exists []. split; [|exact I].
    unfold extend; simpl. rewrite app_nil_r. now destruct w'. }
  destruct (bufSize v <=? bufCap).
  2:{ inversion Hrun; subst. exists []. split.
      - unfold extend; simpl. rewrite app_nil_r. now destruct w'.
      - simpl. split; [now rewrite orb_false_r|reflexivity]. }
  unfold bind in Hrun.
  pose proof (tune_body_cases framesPerBurst bufCap probe v w) as Hb.
  destruct (AAudioStream_setBufferSizeInFrames api (bufSize v) (w_dev w)) as [r1 d1].
  destruct (AAudioStream_getBufferSizeInFrames api d1) as [a d2].
  destruct (AAudioStream_write api probe bufCap 1000000000 d2) as [r2 d3].
  destruct (AAudioStream_getXRunCount api d3) as [x d4].
  cbv zeta in Hb. rewrite Hb in Hrun. clear Hb.
  destruct (r1 <=? AAUDIO_OK) eqn:Hr1.
  { inversion Hrun; subst; clear Hrun. eexists; split; [reflexivity|].
    simpl. rewrite Hr1. split; [now rewrite orb_true_r|reflexivity]. }
  destruct (a =? prevBufSize v) eqn:Ha.
  { inversion Hrun; subst; clear Hrun. eexists; split; [reflexivity|].
    simpl. rewrite Hr1. split; [now rewrite orb_false_r|reflexivity]. }
  destruct (r2 <? 0) eqn:Hr2.
  { destruct NDEBUG eqn:Hnd; inversion Hrun; subst out w'; clear Hrun;
      (eexists; split; [reflexivity|]); simpl.
    - rewrite Hr1, Hr2. split; [now rewrite orb_true_r|discriminate].
    - split; [reflexivity|]. exists [ESetBufferSize (bufSize v) r1; EGetBufferSize a], r2.
      split; [reflexivity|lia]. }
  destruct (x <=? prevXRun v) eqn:Hx.
  { inversion Hrun; subst; clear Hrun. eexists; split; [reflexivity|].
    simpl. rewrite Hr1, Hr2. split; [now rewrite orb_false_r|reflexivity]. }
  apply IH in Hrun. destruct Hrun as (evs & Hw' & Hres).
  simpl in Hw'. rewrite extend_extend in Hw'.
  eexists; split; [exact Hw'|].
  simpl in Hres.
  destruct out as [v'|[| |]]; simpl in *.
  - destruct Hres as [Hflag Hneg]. rewrite Hr1, Hr2. simpl. split; assumption.
  - destruct Hres as [Hnd (pre & r & Hevs & Hr)]. split; [assumption|].
    exists ([ESetBufferSize (bufSize v) r1; EGetBufferSize a;
             EWrite probe bufCap 1000000000 r2; EGetXRunCount x] ++ pre), r.
    split; [|assumption]. rewrite Hevs. reflexivity.
  - assumption.
  - exact I.
Qed.

(** C8: when the stream is not in the STARTED state the tuner answers
    false at once; the state query is the only call it makes, so no size
    request and no write reaches the stream. *)
Theorem tune_requires_started (fuel : nat) (w : world D) :
  fst (AAudioStream_getState api (w_dev w)) <> AAUDIO_STREAM_STATE_STARTED ->
  TunePlayerForLowLatency api NDEBUG fuel w =
    (Ret false,
     extend w (snd (AAudioStream_getState api (w_dev w)))
            [EGetState (fst (AAudioStream_getState api (w_dev w)))]).
Proof.
  intros Hstate. pose proof (tune_entry fuel w) as He.
  destruct (AAudioStream_getState api (w_dev w)) as [s d1].
  destruct (AAudioStream_getFramesPerBurst api d1) as [f d2].
  destruct (AAudioStream_getBufferSizeInFrames api d2) as [org d3].
  destruct (AAudioStream_getBufferCapacityInFrames api d3) as [c d4].
  destruct (AAudioStream_getXRunCount api d4) as [x d5].
  cbv zeta in He. rewrite He. simpl in *.
  destruct (s =? AAUDIO_STREAM_STATE_STARTED) eqn:Hs; [lia|reflexivity].
Qed.

(** On the first iteration the size read back is compared with 0, the
    initial value of [prevBufSize]. *)
Lemma first_iteration_zero (fuel : nat) (w w' : world D) out s f org c n x r rest :
  TunePlayerForLowLatency api NDEBUG fuel w = (out, w') ->
  w_trace w' = w_trace w ++ entry_events s f org c n x
                 ++ [ESetBufferSize f r; EGetBufferSize 0] ++ rest ->
  0 < r ->
  out = Ret true /\ rest = [EDelete ProbeBuf].
Proof.
  intros Hrun Htr Hr. pose proof (tune_entry fuel w) as He.
  destruct (AAudioStream_getState api (w_dev w)) as [s0 d1].
  destruct (AAudioStream_getFramesPerBurst api d1) as [f0 d2].
  destruct (AAudioStream_getBufferSizeInFrames api d2) as [org0 d3].
  destruct (AAudioStream_getBufferCapacityInFrames api d3) as [c0 d4].
  destruct (AAudioStream_getXRunCount api d4) as [x0 d5].
  cbv zeta in He. rewrite He in Hrun. clear He.
  destruct (negb (s0 =? AAUDIO_STREAM_STATE_STARTED)).
  { inversion Hrun; subst out w'. same_trace Htr. }
  destruct (probe_bytes c0 (bitsPerSample_ (w_engine w)) <? 0).
  { inversion Hrun; subst out w'. same_trace Htr. }
  destruct fuel as [|fuel]; simpl in Hrun.
  { inversion Hrun; subst out w'. same_trace Htr. }
  destruct (f0 <=? c0).
  2:{ unfold ret in Hrun. simpl in Hrun. inversion Hrun; subst out w'.
      same_trace Htr. }
  unfold bind in Hrun.
  match type of Hrun with
  | context [tune_body _ _ ?a ?b ?p ?v ?w0] =>
      pose proof (tune_body_cases a b p v w0) as Hb
  end.
  simpl w_dev in Hb. simpl bufSize in Hb. simpl prevBufSize in Hb.
  destruct (AAudioStream_setBufferSizeInFrames api f0 d5) as [r1 e1].
  destruct (AAudioStream_getBufferSizeInFrames api e1) as [a e2].
  destruct (AAudioStream_write api _ c0 1000000000 e2) as [r2 e3].
  destruct (AAudioStream_getXRunCount api e3) as [x1 e4].
  cbv zeta in Hb. rewrite Hb in Hrun. clear Hb.
  destruct (r1 <=? AAUDIO_OK) eqn:Hr1.
  { simpl in Hrun.
    destruct (AAudioStream_setBufferSizeInFrames api org0 e1) as [r3 e5].
    inversion Hrun; subst out w'. same_trace Htr. }
  destruct (a =? 0) eqn:Ha.
  { simpl in Hrun. inversion Hrun; subst out w'. same_trace Htr. auto. }
  destruct (r2 <? 0).
  { destruct NDEBUG; simpl in Hrun.
    - destruct (AAudioStream_setBufferSizeInFrames api org0 e3) as [r3 e5].
      inversion Hrun; subst out w'. same_trace Htr. discriminate Ha.
    - inversion Hrun; subst out w'. same_trace Htr. discriminate Ha. }
  destruct (x1 <=? prevXRun _).
  { simpl in Hrun. inversion Hrun; subst out w'. same_trace Htr. discriminate Ha. }
  match type of Hrun with
  | context [tune_loop _ _ ?a ?b ?c ?p ?v ?w0] =>
      destruct (tune_loop api NDEBUG a b c p v w0) as [o w6] eqn:Hloop
  end.
  apply tune_loop_spec in Hloop. destruct Hloop as (evs & Hw6 & _).
  assert (Hpre : exists more, w_trace w' = w_trace w ++
            entry_events s0 f0 org0 c0 (probe_bytes c0 (bitsPerSample_ (w_engine w))) x0
            ++ [ESetBufferSize f0 r1; EGetBufferSize a] ++ more).
  { destruct o as [v6|k].
    - destruct (trainingError v6).
      + destruct (AAudioStream_setBufferSizeInFrames api org0 (w_dev w6)) as [r3 e5].
        inversion Hrun; subst out w'. rewrite Hw6.
        rewrite !extend_trace. unfold entry_events. rewrite <- !app_assoc.
        simpl. eexists; reflexivity.
      + inversion Hrun; subst out w'. rewrite Hw6.
        rewrite !extend_trace. unfold entry_events. rewrite <- !app_assoc.
        simpl. eexists; reflexivity.
    - inversion Hrun; subst out w'. rewrite Hw6.
      rewrite !extend_trace. unfold entry_events. rewrite <- !app_assoc.
      simpl. eexists; reflexivity. }
  destruct Hpre as (more & Hpre). rewrite Hpre in Htr.
  same_trace Htr. discriminate Ha.
Qed.

End TunerProperties.

(** A stream that is still starting (state 3): the tuner answers false
    after the state query. *)
Lemma tune_requires_started_witness :
  TunePlayerForLowLatency
    (sim_api (mkPolicy 3 96 384 2 48000 (fun _ n => n) (fun _ n => n)
                       (fun _ n => n) (fun _ => 0)))
    false 5 (sim_world 192)
  = (Ret false, mkWorld (mkSim 192 0 0) sample_engine [EGetState 3] 0).
Proof.
  apply (tune_requires_started sim_dev
           (sim_api (mkPolicy 3 96 384 2 48000 (fun _ n => n) (fun _ n => n)
                              (fun _ n => n) (fun _ => 0)))
           false 5 (sim_world 192)).
  simpl. unfold AAUDIO_STREAM_STATE_STARTED. lia.
Defined.

Arguments tune_body_cases {D}.
Arguments tune_entry {D}.
Arguments tune_loop_spec {D}.
Arguments first_iteration_zero {D}.

(** ** The convergence test of the search (C1) *)

(** On the stream that stays at 192 frames the size read back on the
    first iteration is the one of entry, and the probe buffer is written
    all the same. *)
Lemma stuck_stream_is_probed : ~ unchanged_size_skips_probe.
Proof.
  intros H.
  pose (run := TunePlayerForLowLatency (sim_api stuck_policy) false 1 (sim_world 192)).
  destruct (H _ (sim_api stuck_policy) false 1%nat (sim_world 192)
              (snd run) (fst run) 4 96 192 384 768 0 192
              [EWrite (replicate 768 0) 384 1000000000 384;
               EGetXRunCount 0; EDelete ProbeBuf]) as [_ Hw].
  - apply surjective_pairing.
  - vm_compute. reflexivity.
  - lia.
  - discriminate Hw.
Qed.

(** C1, amended: in every iteration, once the size request is accepted,
    the size read back is compared with the one read back in the previous
    iteration, which is 0 before the first iteration; when they are equal
    the search stops there, with the error flag untouched and without a
    probe write.  On the first iteration this happens when the size read
    back is 0: the tuner then answers true and its only further action is
    to release the probe buffer. *)
Theorem converged_size_stops_search (D : Type) (api : AAudioApi D) (nd : bool) :
  (forall framesPerBurst bufCap probe (v : tune_vars) (w : world D) r d1 a d2,
      AAudioStream_setBufferSizeInFrames api (bufSize v) (w_dev w) = (r, d1) ->
      AAudioStream_getBufferSizeInFrames api d1 = (a, d2) ->
      0 < r ->
      a = prevBufSize v ->
      tune_body api nd framesPerBurst bufCap probe v w =
        (Ret (Break, mkTune a (prevBufSize v) (prevXRun v) (trainingError v)),
         extend w d2 [ESetBufferSize (bufSize v) r; EGetBufferSize a]))
  /\
  (forall fuel (w w' : world D) out s f org c n x r rest,
      TunePlayerForLowLatency api nd fuel w = (out, w') ->
      w_trace w' = w_trace w ++ entry_events s f org c n x
                     ++ [ESetBufferSize f r; EGetBufferSize 0] ++ rest ->
      0 < r ->
      out = Ret true /\ rest = [EDelete ProbeBuf]).
Proof.
  split.
  - intros f cap probe v w r d1 a d2 Hset Hget Hr Ha.
    pose proof (tune_body_cases api nd f cap probe v w) as Hb.
    rewrite Hset, Hget in Hb.
    destruct (AAudioStream_write api probe cap 1000000000 d2) as [r2 d3].
    destruct (AAudioStream_getXRunCount api d3) as [x d4].
    cbv zeta in Hb. rewrite Hb.
    assert (Hr' : (r <=? AAUDIO_OK) = false) by (unfold AAUDIO_OK; lia).
    assert (Ha' : (a =? prevBufSize v) = true) by lia.
    now rewrite Hr', Ha'.
  - intros. eapply first_iteration_zero; eassumption.
Qed.

(** A stream that clamps its buffer at one burst converges on the second
    iteration; a stream whose size reads 0 converges on the first. *)
Lemma converged_size_stops_search_witness :
  tune_body (sim_api (clamping_policy 96 384 2 0 96 1000)) false 96 384
            (replicate 768 0) (mkTune 192 96 1 false)
            (mkWorld (mkSim 96 1 1) sample_engine [] 0) =
    (Ret (Break, mkTune 96 96 1 false),
     mkWorld (mkSim 96 1 1) sample_engine
             [ESetBufferSize 192 96; EGetBufferSize 96] 0)
  /\ fst (TunePlayerForLowLatency (sim_api (sizeless_policy 96 384)) false 1
                                  (sim_world 0)) = Ret true.
Proof.
  split.
  - apply (proj1 (converged_size_stops_search sim_dev
                    (sim_api (clamping_policy 96 384 2 0 96 1000)) false)
                 96 384 (replicate 768 0) (mkTune 192 96 1 false)
                 (mkWorld (mkSim 96 1 1) sample_engine [] 0)
                 96 (mkSim 96 1 1) 96 (mkSim 96 1 1));
      [reflexivity | reflexivity | lia | reflexivity].
  - apply (proj2 (converged_size_stops_search sim_dev
                    (sim_api (sizeless_policy 96 384)) false)
                 1%nat (sim_world 0)
                 (snd (TunePlayerForLowLatency (sim_api (sizeless_policy 96 384))
                                               false 1 (sim_world 0)))
                 _ 4 96 0 384 768 0 96 [EDelete ProbeBuf]);
      [apply surjective_pairing | reflexivity | lia].
Defined.

(** ** The underrun check and the next candidate (C3) *)

(** Asked for 96 frames, the stream with a minimum of two bursts adopts
    192, and the next candidate is 288, not 192. *)
Lemma two_burst_stream_skips_a_candidate : ~ candidate_grows_by_one_burst.
Proof.
  intros H.
  destruct (H _ (sim_api two_burst_policy) false 96 960 (replicate 1920 0)
              (mkTune 96 0 0 false) (mkTune 288 192 1 false)
              (mkWorld (mkSim 192 0 0) sample_engine [] 0)
              (mkWorld (mkSim 192 1 1) sample_engine
                 [ESetBufferSize 96 192; EGetBufferSize 192;
                  EWrite (replicate 1920 0) 960 1000000000 960;
                  EGetXRunCount 1] 0)) as [Heq _].
  - vm_compute. reflexivity.
  - discriminate Heq.
Qed.

(** The whole run on that stream: the sizes asked for are 96, 288, 384
    and 480. *)
Example two_burst_stream_requests :
  let run := TunePlayerForLowLatency (sim_api two_burst_policy) false 10
                                     (sim_world 192) in
  fst run = Ret true /\ requested_sizes (w_trace (snd run)) = [96; 288; 384; 480].
Proof. vm_compute. split; reflexivity. Qed.

(** C3, amended: an iteration that reaches the underrun check (the size
    request was accepted, the size read back differs from the previous
    one, the probe write did not fail) reads the underrun counter.  When
    the counter has not increased since the last reading the search stops
    with the error flag still down, that is with success.  Otherwise the
    search repeats, and the next candidate is the size read back from the
    stream plus one burst, in 32-bit arithmetic; it is not below the
    candidate of this iteration whenever the burst is not negative, the
    stream adopted at least what it was asked for, and the sum fits in 32
    bits.  This holds for every iteration, the first one included. *)
Theorem underrun_check_decides (D : Type) (api : AAudioApi D) (nd : bool)
    (fuel : nat) framesPerBurst bufCap probe candidate previous lastXRun
    (w : world D) r1 d1 a d2 r2 d3 x d4 :
  candidate <= bufCap ->
  AAudioStream_setBufferSizeInFrames api candidate (w_dev w) = (r1, d1) ->
  AAudioStream_getBufferSizeInFrames api d1 = (a, d2) ->
  AAudioStream_write api probe bufCap 1000000000 d2 = (r2, d3) ->
  AAudioStream_getXRunCount api d3 = (x, d4) ->
  0 < r1 -> a <> previous -> 0 <= r2 ->
  let w4 := extend w d4 [ESetBufferSize candidate r1; EGetBufferSize a;
                         EWrite probe bufCap 1000000000 r2; EGetXRunCount x] in
  let v := mkTune candidate previous lastXRun false in
  (x <= lastXRun ->
     tune_loop api nd (S fuel) framesPerBurst bufCap probe v w =
       (Ret (mkTune a a lastXRun false), w4))
  /\
  (lastXRun < x ->
     tune_loop api nd (S fuel) framesPerBurst bufCap probe v w =
       tune_loop api nd fuel framesPerBurst bufCap probe
                 (mkTune (add32 a framesPerBurst) a x false) w4
     /\ (0 <= framesPerBurst -> candidate <= a -> in_int32 (a + framesPerBurst) ->
         add32 a framesPerBurst = a + framesPerBurst
         /\ candidate <= add32 a framesPerBurst)).
Proof.
  intros Hguard Hset Hget Hwrite Hxrun Hr1 Ha Hr2 w4 v.
  pose proof (tune_body_cases api nd framesPerBurst bufCap probe v w) as Hb.
  simpl bufSize in Hb. rewrite Hset, Hget, Hwrite, Hxrun in Hb.
  cbv zeta in Hb. simpl in Hb.
  assert (E1 : (r1 <=? AAUDIO_OK) = false) by (unfold AAUDIO_OK; lia).
  assert (E2 : (a =? previous) = false) by lia.
  assert (E3 : (r2 <? 0) = false) by lia.
  rewrite E1, E2, E3 in Hb.
  assert (Hg : (candidate <=? bufCap) = true) by lia.
  split; intros Hx.
  - assert (E4 : (x <=? lastXRun) = true) by lia. rewrite E4 in Hb.
    simpl. rewrite Hg. unfold bind. rewrite Hb. reflexivity.
  - assert (E4 : (x <=? lastXRun) = false) by lia. rewrite E4 in Hb.
    split.
    + simpl. rewrite Hg. unfold bind. rewrite Hb. reflexivity.
    + intros Hf Hadopt [Hlo Hhi].
      assert (Hsum : add32 a framesPerBurst = a + framesPerBurst).
      { unfold add32, wrap32. unfold INT32_MIN in Hlo. unfold INT32_MAX in Hhi.
        rewrite Z.mod_small; lia. }
      split; [exact Hsum|]. rewrite Hsum. lia.
Qed.

(** On a stream that honours every request, the first iteration, which
    underruns, leads to a second one with one burst more. *)
Lemma underrun_check_decides_witness :
  tune_loop (sim_api (plain_policy 96 384 2 200)) false 3 96 384 (replicate 768 0)
            (mkTune 96 0 0 false) (sim_world 192) =
  tune_loop (sim_api (plain_policy 96 384 2 200)) false 2 96 384 (replicate 768 0)
            (mkTune 192 96 1 false)
            (extend (sim_world 192) (mkSim 96 1 1)
               [ESetBufferSize 96 96; EGetBufferSize 96;
                EWrite (replicate 768 0) 384 1000000000 384; EGetXRunCount 1]).
Proof.
  refine (proj1 (proj2 (underrun_check_decides sim_dev
            (sim_api (plain_policy 96 384 2 200)) false 2 96 384 (replicate 768 0)
            96 0 0 (sim_world 192) 96 (mkSim 96 0 0) 96 (mkSim 96 0 0)
            384 (mkSim 96 1 1) 1 (mkSim 96 1 1) _ _ _ _ _ _ _ _) _));
    try reflexivity; lia.
Defined.

(** ** Termination of the search (C4) *)

Section Termination.

Variable D : Type.
Variable api : AAudioApi D.
Variable NDEBUG : bool.

(** The underrun counter is an [int32_t]. *)
Hypothesis xrun_int32 :
  forall d : D, in_int32 (fst (AAudioStream_getXRunCount api d)).

Lemma tune_loop_terminates (framesPerBurst bufCap : Z) (probe : list Z) :
  forall (fuel : nat) (v : tune_vars) (w : world D),
    (headroom v < fuel)%nat ->
    terminated (fst (tune_loop api NDEBUG fuel framesPerBurst bufCap probe v w)).
Proof.
  induction fuel as [|fuel IH]; intros v w Hfuel; [lia|].
  simpl. destruct (bufSize v <=? bufCap); [|discriminate].
  unfold bind.
  pose proof (tune_body_cases api NDEBUG framesPerBurst bufCap probe v w) as Hb.
  destruct (AAudioStream_setBufferSizeInFrames api (bufSize v) (w_dev w)) as [r1 d1].
  destruct (AAudioStream_getBufferSizeInFrames api d1) as [a d2].
  destruct (AAudioStream_write api probe bufCap 1000000000 d2) as [r2 d3].
  pose proof (xrun_int32 d3) as Hrange.
  destruct (AAudioStream_getXRunCount api d3) as [x d4].
  cbv zeta in Hb. rewrite Hb. clear Hb. simpl in Hrange.
  destruct (r1 <=? AAUDIO_OK); [discriminate|].
  destruct (a =? prevBufSize v); [discriminate|].
  destruct (r2 <? 0); [destruct NDEBUG; discriminate|].
  destruct (x <=? prevXRun v) eqn:Hx; [discriminate|].
  apply IH. unfold headroom in *. simpl.
  destruct Hrange as [_ Hmax]. lia.
Qed.

(** More fuel does not change a run that ended. *)
Lemma tune_loop_more_fuel (framesPerBurst bufCap : Z) (probe : list Z) :
  forall (fuel fuel' : nat) (v : tune_vars) (w : world D),
    (fuel <= fuel')%nat ->
    terminated (fst (tune_loop api NDEBUG fuel framesPerBurst bufCap probe v w)) ->
    tune_loop api NDEBUG fuel' framesPerBurst bufCap probe v w =
    tune_loop api NDEBUG fuel framesPerBurst bufCap probe v w.
Proof.
  induction fuel as [|fuel IH]; intros fuel' v w Hle Hterm.
  { simpl in Hterm. now elim Hterm. }
  destruct fuel' as [|fuel']; [lia|].
  simpl in *. destruct (bufSize v <=? bufCap); [|reflexivity].
  unfold bind in *.
  destruct (tune_body api NDEBUG framesPerBurst bufCap probe v w)
    as [[[[|] v']|k] w1]; try reflexivity.
  apply IH; [lia|assumption].
Qed.

Lemma tuner_more_fuel (fuel fuel' : nat) (w : world D) :
  (fuel <= fuel')%nat ->
  terminated (fst (TunePlayerForLowLatency api NDEBUG fuel w)) ->
  TunePlayerForLowLatency api NDEBUG fuel' w =
  TunePlayerForLowLatency api NDEBUG fuel w.
Proof.
  intros Hle Hterm.
  pose proof (tune_entry api NDEBUG fuel w) as He.
  pose proof (tune_entry api NDEBUG fuel' w) as He'.
  destruct (AAudioStream_getState api (w_dev w)) as [s d1].
  destruct (AAudioStream_getFramesPerBurst api d1) as [f d2].
  destruct (AAudioStream_getBufferSizeInFrames api d2) as [org d3].
  destruct (AAudioStream_getBufferCapacityInFrames api d3) as [c d4].
  destruct (AAudioStream_getXRunCount api d4) as [x d5].
  cbv zeta in He, He'. rewrite He in Hterm. rewrite He, He'. clear He He'.
  destruct (negb (s =? AAUDIO_STREAM_STATE_STARTED)); [reflexivity|].
  destruct (probe_bytes c (bitsPerSample_ (w_engine w)) <? 0); [reflexivity|].
  rewrite (tune_loop_more_fuel f c _ fuel fuel'); [reflexivity|assumption|].
  match goal with
  | |- terminated (fst ?run) => destruct run as [[v|k] w'] eqn:Hrun
  end; [discriminate|].
  simpl in *. intros Hk. apply Hterm. congruence.
Qed.

End Termination.

(** C4: whatever the stream answers to the size requests, the size
    queries and the writes, the search loop of the tuner ends after
    finitely many iterations: there is a number of iterations, at most
    2^32, within which the tuner ends, and with which every longer run
    agrees.  What bounds the search is the underrun counter, a 32-bit
    integer that every further iteration finds larger. *)
Theorem tuner_terminates (D : Type) (api : AAudioApi D) (nd : bool) (w : world D) :
  (forall d : D, in_int32 (fst (AAudioStream_getXRunCount api d))) ->
  exists n : nat,
    Z.of_nat n <= 4294967296
    /\ terminated (fst (TunePlayerForLowLatency api nd n w))
    /\ forall fuel, (n <= fuel)%nat ->
         TunePlayerForLowLatency api nd fuel w = TunePlayerForLowLatency api nd n w.
Proof.
  intros Hx.
  destruct (AAudioStream_getState api (w_dev w)) as [s d1] eqn:Hs.
  destruct (AAudioStream_getFramesPerBurst api d1) as [f d2] eqn:Hf.
  destruct (AAudioStream_getBufferSizeInFrames api d2) as [org d3] eqn:Ho.
  destruct (AAudioStream_getBufferCapacityInFrames api d3) as [c d4] eqn:Hc.
  pose proof (Hx d4) as Hrange.
  destruct (AAudioStream_getXRunCount api d4) as [x d5] eqn:Hxr.
  simpl in Hrange.
  exists (S (Z.to_nat (INT32_MAX - x))).
  assert (Hterm : terminated
            (fst (TunePlayerForLowLatency api nd (S (Z.to_nat (INT32_MAX - x))) w))).
  { pose proof (tune_entry api nd (S (Z.to_nat (INT32_MAX - x))) w) as He.
    rewrite Hs, Hf, Ho, Hc, Hxr in He. cbv zeta in He. rewrite He. clear He.
    destruct (negb (s =? AAUDIO_STREAM_STATE_STARTED)); [discriminate|].
    destruct (probe_bytes c (bitsPerSample_ (w_engine w)) <? 0); [discriminate|].
    match goal with
    | |- context [tune_loop api nd ?n ?a ?b ?p ?v ?w0] =>
        pose proof (tune_loop_terminates D api nd Hx a b p n v w0) as Hl;
        destruct (tune_loop api nd n a b p v w0) as [[v'|k] w'] eqn:Hrun
    end.
    - destruct (trainingError v').
      + destruct (AAudioStream_setBufferSizeInFrames api org (w_dev w')); discriminate.
      + discriminate.
    - assert (Hh : terminated (@Crash tune_vars k)).
      { apply Hl. unfold headroom. cbn [prevXRun]. lia. }
      cbn [fst]. intros Hk. apply Hh. congruence. }
  split; [|split].
  - destruct Hrange as [Hmin _]. unfold INT32_MIN in Hmin. unfold INT32_MAX. lia.
  - exact Hterm.
  - intros fuel Hle. apply tuner_more_fuel; assumption.
Qed.

(** On a stream that honours every request the tuner ends. *)
Lemma tuner_terminates_witness :
  exists n : nat,
    Z.of_nat n <= 4294967296
    /\ terminated (fst (TunePlayerForLowLatency
                          (sim_api (plain_policy 96 384 2 200)) false n
                          (mkWorld (mkSim 192 2147483600 0) sample_engine [] 0)))
    /\ forall fuel, (n <= fuel)%nat ->
         TunePlayerForLowLatency (sim_api (plain_policy 96 384 2 200)) false fuel
           (mkWorld (mkSim 192 2147483600 0) sample_engine [] 0) =
         TunePlayerForLowLatency (sim_api (plain_policy 96 384 2 200)) false n
           (mkWorld (mkSim 192 2147483600 0) sample_engine [] 0).
Proof.
  apply (tuner_terminates sim_dev (sim_api (plain_policy 96 384 2 200)) false
           (mkWorld (mkSim 192 2147483600 0) sample_engine [] 0)).
  intros d. apply wrap32_range.
Defined.

(** The capacity does not bound the search by itself: the flapping
    stream keeps the candidate below a capacity of four bursts, and a
    thousand iterations do not end the search. *)
Example flapping_stream_outlasts_capacity :
  fst (TunePlayerForLowLatency (sim_api flapping_policy) false 1000 (sim_world 192))
  = Crash OutOfFuel.
Proof. vm_compute. reflexivity. Qed.

(** ** Tuning errors (C2) *)

(** C2: the tuner on a started stream that honours the size request and
    answers the probe write with -1, the file being compiled as it is
    written, assertions in.  The run ends at [assert(result >= 0)], line
    252, right after the write: the error flag is never raised, the size
    of entry (192 frames) is not put back -- the stream stays at 96 --
    and nothing is answered to the caller. *)
Theorem failed_probe_write_aborts :
  TunePlayerForLowLatency (sim_api (broken_write_policy 96 384)) false 1
                          (sim_world 192)
  = (Crash AssertFail,
     mkWorld (mkSim 96 0 1) sample_engine
       (entry_events 4 96 192 384 768 0
          ++ [ESetBufferSize 96 96; EGetBufferSize 96;
              EWrite (replicate 768 0) 384 1000000000 (-1)]) 0).
Proof. vm_compute. reflexivity. Qed.

(** So the sentence of the specification does not hold of the build with
    assertions. *)
Lemma failed_write_aborts_tuner : ~ tuning_error_restores false.
Proof.
  intros H.
  pose (run := TunePlayerForLowLatency (sim_api (broken_write_policy 96 384))
                                       false 1 (sim_world 192)).
  destruct (H _ (sim_api (broken_write_policy 96 384)) 1%nat (sim_world 192)
              (snd run) (fst run)
              (entry_events 4 96 192 384 768 0 ++
               [ESetBufferSize 96 96; EGetBufferSize 96;
                EWrite (replicate 768 0) 384 1000000000 (-1)])) as [Hout _].
  - apply surjective_pairing.
  - vm_compute. reflexivity.
  - vm_compute. discriminate.
  - vm_compute. reflexivity.
  - vm_compute in Hout. discriminate Hout.
Qed.

Lemma existsb_entry_events (p : event -> bool) s f org c n x evs :
  (forall e, p e = true -> is_set e = true \/ is_write e = true) ->
  existsb p (entry_events s f org c n x ++ evs) = existsb p evs.
Proof.
  intros Hp. unfold entry_events. simpl.
  repeat match goal with
  | |- context [p ?e || _] =>
      let E := fresh in
      destruct (p e) eqn:E;
      [apply Hp in E; simpl in E; destruct E; discriminate | cbn [orb]]
  end.
  reflexivity.
Qed.

Lemma tuning_error_set_or_write (e : event) :
  tuning_error_event e = true -> is_set e = true \/ is_write e = true.
Proof. destruct e; simpl; auto; discriminate. Qed.

Lemma negative_write_set_or_write (e : event) :
  negative_write e = true -> is_set e = true \/ is_write e = true.
Proof. destruct e; simpl; auto; discriminate. Qed.

(** How a run with a tuning error ends, in either build.  Take a run of
    the tuner that ended and in which a tuning error occurred (a size
    request answered with a non-positive result, or a probe write
    answered with a negative one).  If no probe write failed, or if the
    assertions are compiled out (NDEBUG), the tuner puts the size
    recorded at entry back with setBufferSizeInFrames and answers false;
    so it does when every size request is rejected.  If a probe write
    failed and the assertions are compiled in, the process is aborted by
    [assert(result >= 0)] right after that write: nothing is restored
    and nothing is answered. *)
Theorem tuning_error_outcome (D : Type) (api : AAudioApi D) (nd : bool)
    (fuel : nat) (w w' : world D) (out : outcome bool) (evs : list event) :
  TunePlayerForLowLatency api nd fuel w = (out, w') ->
  w_trace w' = w_trace w ++ evs ->
  terminated out ->
  existsb tuning_error_event evs = true ->
  (nd = true \/ existsb negative_write evs = false -> restored_and_failed out evs)
  /\ (nd = false -> existsb negative_write evs = true -> aborted_at_write out evs).
Proof.
  intros Hrun Htr Hterm Herr.
  pose proof (tune_entry api nd fuel w) as He.
  destruct (AAudioStream_getState api (w_dev w)) as [s d1].
  destruct (AAudioStream_getFramesPerBurst api d1) as [f d2].
  destruct (AAudioStream_getBufferSizeInFrames api d2) as [org d3].
  destruct (AAudioStream_getBufferCapacityInFrames api d3) as [c d4].
  destruct (AAudioStream_getXRunCount api d4) as [x d5].
  cbv zeta in He. rewrite He in Hrun. clear He.
  destruct (negb (s =? AAUDIO_STREAM_STATE_STARTED)).
  { inversion Hrun; subst out w'. same_trace Htr. subst evs. discriminate Herr. }
  destruct (probe_bytes c (bitsPerSample_ (w_engine w)) <? 0).
  { inversion Hrun; subst out w'. same_trace Htr. subst evs. discriminate Herr. }
  match type of Hrun with
  | context [tune_loop api nd ?n ?a ?b ?p ?v ?w0] =>
      destruct (tune_loop api nd n a b p v w0) as [o w6] eqn:Hloop
  end.
  apply tune_loop_spec in Hloop. destruct Hloop as (levs & Hw6 & Hres).
  unfold search_result in Hres. cbn [trainingError orb] in Hres.
  set (n := probe_bytes c (bitsPerSample_ (w_engine w))) in *.
  destruct o as [v6|k].
  - destruct Hres as [Hflag Hneg].
    destruct (trainingError v6) eqn:Hv6.
    + destruct (AAudioStream_setBufferSizeInFrames api org (w_dev w6)) as [r3 e5].
      inversion Hrun; subst out w'. rewrite Hw6 in Htr.
      rewrite !extend_trace in Htr. rewrite <- !app_assoc in Htr.
      apply app_inv_head in Htr. subst evs. split.
      * intros _. split; [reflexivity|].
        exists s, f, org,
          ([EGetBufferCapacity c; ENew ProbeBuf n; EGetXRunCount x]
             ++ levs ++ [EDelete ProbeBuf]), r3.
        simpl. rewrite <- !app_assoc. reflexivity.
      * intros Hnd Hw. exfalso.
        change ([EGetState s; EGetFramesPerBurst f; EGetBufferSize org;
                 EGetBufferCapacity c] ++ [ENew ProbeBuf n; EGetXRunCount x]
                ++ levs ++ [EDelete ProbeBuf; ESetBufferSize org r3])
          with (entry_events s f org c n x
                ++ levs ++ [EDelete ProbeBuf; ESetBufferSize org r3]) in Hw.
        rewrite existsb_entry_events in Hw by apply negative_write_set_or_write.
        rewrite existsb_app in Hw. rewrite (Hneg Hnd) in Hw. discriminate Hw.
    + inversion Hrun; subst out w'. rewrite Hw6 in Htr.
      rewrite !extend_trace in Htr. rewrite <- !app_assoc in Htr.
      apply app_inv_head in Htr. subst evs. exfalso.
      change ([EGetState s; EGetFramesPerBurst f; EGetBufferSize org;
               EGetBufferCapacity c] ++ [ENew ProbeBuf n; EGetXRunCount x]
              ++ levs ++ [EDelete ProbeBuf])
        with (entry_events s f org c n x ++ levs ++ [EDelete ProbeBuf]) in Herr.
      rewrite existsb_entry_events in Herr by apply tuning_error_set_or_write.
      rewrite existsb_app in Herr. rewrite <- Hflag in Herr. discriminate Herr.
  - inversion Hrun; subst out w'. rewrite Hw6 in Htr.
    rewrite !extend_trace in Htr. rewrite <- !app_assoc in Htr.
    apply app_inv_head in Htr. subst evs.
    destruct k; [|contradiction|now elim Hterm].
    destruct Hres as [Hnd (pre & r & Hlevs & Hr)]. subst levs. split.
    + intros [Hnd'|Hw]; [congruence|]. exfalso.
      rewrite !existsb_app in Hw. simpl in Hw.
      assert (Hneg : (r <? 0) = true) by lia. rewrite Hneg in Hw.
      rewrite !orb_true_r in Hw. discriminate Hw.
    + intros _ _. split; [reflexivity|].
      exists ([EGetState s; EGetFramesPerBurst f; EGetBufferSize org;
               EGetBufferCapacity c; ENew ProbeBuf n; EGetXRunCount x] ++ pre).
      eexists _, _, _, r. split; [|exact Hr].
      rewrite <- !app_assoc. reflexivity.
Qed.

(** A stream that rejects every size request: the size of entry, 192, is
    put back and the tuner answers false.  A stream that fails the probe
    write, assertions compiled in: the process is aborted. *)
Lemma tuning_error_outcome_instances :
  restored_and_failed
    (fst (TunePlayerForLowLatency (sim_api (rejecting_policy 96 384)) false 1
                                  (sim_world 192)))
    (entry_events 4 96 192 384 768 0
       ++ [ESetBufferSize 96 (-1); EDelete ProbeBuf; ESetBufferSize 192 (-1)])
  /\
  aborted_at_write
    (fst (TunePlayerForLowLatency (sim_api (broken_write_policy 96 384)) false 1
                                  (sim_world 192)))
    (entry_events 4 96 192 384 768 0
       ++ [ESetBufferSize 96 96; EGetBufferSize 96;
           EWrite (replicate 768 0) 384 1000000000 (-1)]).
Proof.
  split.
  - refine (proj1 (tuning_error_outcome sim_dev (sim_api (rejecting_policy 96 384))
                     false 1 (sim_world 192) _ _ _ _ _ _ _) _).
    + apply surjective_pairing.
    + vm_compute. reflexivity.
    + vm_compute. discriminate.
    + vm_compute. reflexivity.
    + right. vm_compute. reflexivity.
  - refine (proj2 (tuning_error_outcome sim_dev (sim_api (broken_write_policy 96 384))
                     false 1 (sim_world 192) _ _ _ _ _ _ _) _ _).
    + apply surjective_pairing.
    + vm_compute. reflexivity.
    + vm_compute. discriminate.
    + vm_compute. reflexivity.
    + reflexivity.
    + vm_compute. reflexivity.
Defined.

(** With the assertions compiled out the sentence holds as it is
    worded. *)
Corollary tuning_error_restores_ndebug : tuning_error_restores true.
Proof.
  intros D api fuel w w' out evs Hrun Htr Hterm Herr.
  apply (tuning_error_outcome D api true fuel w w' out evs Hrun Htr Hterm Herr).
  now left.
Qed.

(** ** The probe buffer (C10) *)

Lemma tune_loop_events (D : Type) (api : AAudioApi D) (nd : bool)
    (fuel : nat) (framesPerBurst bufCap : Z) (probe : list Z) :
  forall (v : tune_vars) (w : world D) out w',
    tune_loop api nd fuel framesPerBurst bufCap probe v w = (out, w') ->
    exists evs, w' = extend w (w_dev w') evs
                /\ List.Forall (search_event probe bufCap) evs.
Proof.
  induction fuel as [|fuel IH]; intros v w out w' Hrun; simpl in Hrun.
  { inversion Hrun; subst. exists []. split; [|constructor].
    unfold extend; simpl. rewrite app_nil_r. now destruct w'. }
  destruct (bufSize v <=? bufCap).
  2:{ inversion Hrun; subst. exists []. split; [|constructor].
      unfold extend; simpl. rewrite app_nil_r. now destruct w'. }
  unfold bind in Hrun.
  pose proof (tune_body_cases api nd framesPerBurst bufCap probe v w) as Hb.
  destruct (AAudioStream_setBufferSizeInFrames api (bufSize v) (w_dev w)) as [r1 d1].
  destruct (AAudioStream_getBufferSizeInFrames api d1) as [a d2].
  destruct (AAudioStream_write api probe bufCap 1000000000 d2) as [r2 d3].
  destruct (AAudioStream_getXRunCount api d3) as [x d4].
  cbv zeta in Hb. rewrite Hb in Hrun. clear Hb.
  destruct (r1 <=? AAUDIO_OK).
  { inversion Hrun; subst out w'. eexists; split; [reflexivity|].
    repeat constructor. }
  destruct (a =? prevBufSize v).
  { inversion Hrun; subst out w'. eexists; split; [reflexivity|].
    repeat constructor. }
  destruct (r2 <? 0).
  { destruct nd; inversion Hrun; subst out w';
      (eexists; split; [reflexivity|]); repeat constructor. }
  destruct (x <=? prevXRun v).
  { inversion Hrun; subst out w'. eexists; split; [reflexivity|].
    repeat constructor. }
  apply IH in Hrun. destruct Hrun as (evs & Hw' & Hall).
  simpl in Hw'. rewrite extend_extend in Hw'.
  eexists; split; [exact Hw'|].
  apply Forall_app. split; [repeat constructor|exact Hall].
Qed.

Lemma probe_bytes_short (bufCap bits channels : Z) :
  0 < bufCap -> 8 <= bits -> bufCap * bits <= INT32_MAX -> 1 < channels ->
  probe_bytes bufCap bits = bufCap * bits / 8
  /\ 0 <= bufCap * bits / 8 < bufCap * frame_bytes channels bits.
Proof.
  intros Hcap Hbits Hfit Hch. unfold probe_bytes, mul32, frame_bytes.
  assert (Hpos : 0 <= bufCap * bits) by nia.
  rewrite wrap32_small by (unfold in_int32, INT32_MIN; lia).
  rewrite Z.quot_div_nonneg by lia.
  split; [reflexivity|]. split; [apply Z.div_pos; lia|].
  apply Z.div_lt_upper_bound; [lia|].
  pose proof (Z.div_mod bits 8 ltac:(lia)) as Hdm.
  pose proof (Z.mod_pos_bound bits 8 ltac:(lia)) as Hrem.
  assert (Hq : 1 <= bits / 8) by (apply Z.div_le_lower_bound; lia).
  set (q := bits / 8) in *. set (m := bits mod 8) in *.
  assert (H1 : bufCap * bits = 8 * (bufCap * q) + bufCap * m)
    by (rewrite Hdm; ring).
  assert (H2 : bufCap * m < 8 * bufCap) by nia.
  assert (H3 : bufCap <= bufCap * q) by nia.
  assert (H4 : 2 * (bufCap * q) <= bufCap * (channels * q)) by nia.
  lia.
Qed.

(** C10: in every run of the tuner, each probe write passes the buffer
    allocated with [bufCap * bitsPerSample / 8] bytes, whatever the
    channel count, together with a frame count of [bufCap].  On a stream
    of more than one channel (with a positive capacity and samples of a
    byte at least) [bufCap] frames take strictly more bytes than the
    buffer holds: the write reads past its end. *)
Theorem probe_buffer_too_short (D : Type) (api : AAudioApi D) (nd : bool)
    (fuel : nat) (w w' : world D) (out : outcome bool) (evs : list event)
    (probe : list Z) (numFrames timeout r channels : Z) :
  TunePlayerForLowLatency api nd fuel w = (out, w') ->
  w_trace w' = w_trace w ++ evs ->
  In (EWrite probe numFrames timeout r) evs ->
  1 < channels ->
  8 <= bitsPerSample_ (w_engine w) ->
  0 < numFrames ->
  numFrames * bitsPerSample_ (w_engine w) <= INT32_MAX ->
  In (EGetBufferCapacity numFrames) evs
  /\ Z.of_nat (length probe) = numFrames * bitsPerSample_ (w_engine w) / 8
  /\ Z.of_nat (length probe)
       < numFrames * frame_bytes channels (bitsPerSample_ (w_engine w)).
Proof.
  intros Hrun Htr Hin Hch Hbits Hpos Hfit.
  pose proof (tune_entry api nd fuel w) as He.
  destruct (AAudioStream_getState api (w_dev w)) as [s d1].
  destruct (AAudioStream_getFramesPerBurst api d1) as [f d2].
  destruct (AAudioStream_getBufferSizeInFrames api d2) as [org d3].
  destruct (AAudioStream_getBufferCapacityInFrames api d3) as [c d4].
  destruct (AAudioStream_getXRunCount api d4) as [x d5].
  cbv zeta in He. rewrite He in Hrun. clear He.
  set (bits := bitsPerSample_ (w_engine w)) in *.
  destruct (negb (s =? AAUDIO_STREAM_STATE_STARTED)).
  { inversion Hrun; subst out w'. same_trace Htr. subst evs.
    simpl in Hin. destruct Hin as [Hin|[]]. discriminate Hin. }
  destruct (probe_bytes c bits <? 0) eqn:Hneg.
  { inversion Hrun; subst out w'. same_trace Htr. subst evs.
    simpl in Hin. intuition discriminate. }
  match type of Hrun with
  | context [tune_loop api nd ?n ?a ?b ?p ?v ?w0] =>
      destruct (tune_loop api nd n a b p v w0) as [o w6] eqn:Hloop
  end.
  apply tune_loop_events in Hloop. destruct Hloop as (levs & Hw6 & Hall).
  assert (Hev : exists tail, evs = entry_events s f org c (probe_bytes c bits) x
                                     ++ levs ++ tail
                             /\ forall e, In e tail -> is_write e = false).
  { destruct o as [v6|k].
    - destruct (trainingError v6).
      + destruct (AAudioStream_setBufferSizeInFrames api org (w_dev w6)) as [r3 e5].
        inversion Hrun; subst out w'. rewrite Hw6 in Htr.
        rewrite !extend_trace in Htr. rewrite <- !app_assoc in Htr.
        apply app_inv_head in Htr. subst evs.
        exists [EDelete ProbeBuf; ESetBufferSize org r3]. split; [reflexivity|].
        simpl. intros e [<-|[<-|[]]]; reflexivity.
      + inversion Hrun; subst out w'. rewrite Hw6 in Htr.
        rewrite !extend_trace in Htr. rewrite <- !app_assoc in Htr.
        apply app_inv_head in Htr. subst evs.
        exists [EDelete ProbeBuf]. split; [reflexivity|].
        simpl. intros e [<-|[]]; reflexivity.
    - inversion Hrun; subst out w'. rewrite Hw6 in Htr.
      rewrite !extend_trace in Htr. rewrite <- !app_assoc in Htr.
      apply app_inv_head in Htr. subst evs.
      exists []. split; [now rewrite app_nil_r|]. intros e []. }
  destruct Hev as (tail & -> & Htail).
  assert (Hw : probe = replicate (Z.to_nat (probe_bytes c bits)) 0 /\ numFrames = c).
  { apply in_app_or in Hin. destruct Hin as [Hin|Hin].
    { unfold entry_events in Hin. simpl in Hin. intuition discriminate. }
    apply in_app_or in Hin. destruct Hin as [Hin|Hin].
    - rewrite List.Forall_forall in Hall. apply Hall in Hin. simpl in Hin.
      destruct Hin as (Hp & Hn & _). now split.
    - apply Htail in Hin. discriminate Hin. }
  destruct Hw as [-> ->].
  destruct (probe_bytes_short c bits channels Hpos Hbits Hfit Hch) as [Hlen [Hlo Hhi]].
  split; [|split].
  - apply in_or_app. left. unfold entry_events. simpl. auto.
  - rewrite length_replicate, Hlen. rewrite Z2Nat.id; lia.
  - rewrite length_replicate, Hlen. rewrite Z2Nat.id; lia.
Qed.

(** The stereo stream of the sample, 384 frames of capacity: the probe
    buffer holds 768 bytes and the write passes 384 frames of 4 bytes. *)
Lemma probe_buffer_too_short_witness :
  Z.of_nat (length (replicate 768 0)) < 384 * frame_bytes 2 16.
Proof.
  refine (proj2 (proj2 (probe_buffer_too_short sim_dev
            (sim_api (plain_policy 96 384 2 0)) false 1 (sim_world 192) _ _ _
            (replicate 768 0) 384 1000000000 384 2 _ _ _ _ _ _ _))).
  - apply surjective_pairing.
  - vm_compute. reflexivity.
  - vm_compute. right. right. right. right. right. right. right. right.
    left. reflexivity.
  - lia.
  - simpl. lia.
  - lia.
  - vm_compute. discriminate.
Defined.

(** * The render loop *)

(** The controller's calls leave the stream parameters and the handle
    alone, and none of them takes a stop request back. *)
Lemma run_command_fields (c : command) (e : AAudioEngine) :
  sampleRate_ (run_command c e) = sampleRate_ e
  /\ sampleChannels_ (run_command c e) = sampleChannels_ e
  /\ bitsPerSample_ (run_command c e) = bitsPerSample_ e
  /\ sampleFormat_ (run_command c e) = sampleFormat_ e
  /\ playStream_ (run_command c e) = playStream_ e
  /\ (requestStop_ e = true -> requestStop_ (run_command c e) = true).
Proof.
  destruct c; simpl;
    unfold Java_com_google_sample_aaudio_play_MainActivity_start,
           Java_com_google_sample_aaudio_play_MainActivity_stop,
           Java_com_google_sample_aaudio_play_MainActivity_deleteEngine;
    destruct (playStream_ e) eqn:Hp; simpl; rewrite ?Hp; auto 10.
Qed.

Lemma run_commands_fields (cs : list command) :
  forall e : AAudioEngine,
    sampleRate_ (run_commands cs e) = sampleRate_ e
    /\ sampleChannels_ (run_commands cs e) = sampleChannels_ e
    /\ bitsPerSample_ (run_commands cs e) = bitsPerSample_ e
    /\ sampleFormat_ (run_commands cs e) = sampleFormat_ e
    /\ playStream_ (run_commands cs e) = playStream_ e
    /\ (requestStop_ e = true -> requestStop_ (run_commands cs e) = true).
Proof.
  induction cs as [|c cs IH]; intros e; simpl; [auto 10|].
  destruct (run_command_fields c e) as (H1 & H2 & H3 & H4 & H5 & H6).
  destruct (IH (run_command c e)) as (I1 & I2 & I3 & I4 & I5 & I6).
  rewrite I1, I2, I3, I4, I5. auto 10.
Qed.

Lemma run_commands_delete (cs : list command) :
  forall e : AAudioEngine,
    In CmdDeleteEngine cs -> playStream_ e <> None ->
    requestStop_ (run_commands cs e) = true.
Proof.
  induction cs as [|c cs IH]; intros e Hin Hp; simpl in *; [contradiction|].
  destruct Hin as [->|Hin].
  - apply run_commands_fields. simpl. unfold Java_com_google_sample_aaudio_play_MainActivity_deleteEngine.
    destruct (playStream_ e); [reflexivity|congruence].
  - apply IH; [assumption|].
    destruct (run_command_fields c e) as (_ & _ & _ & _ & H5 & _). congruence.
Qed.

Lemma run_commands_app (cs1 cs2 : list command) (e : AAudioEngine) :
  run_commands (cs1 ++ cs2) e = run_commands cs2 (run_commands cs1 e).
Proof. apply fold_left_app. Qed.

(** Only deleteEngine raises the stop flag, and only on an engine that
    has a stream. *)
Lemma run_commands_stop_flag (cs : list command) :
  forall e : AAudioEngine,
    requestStop_ (run_commands cs e) = true ->
    requestStop_ e = true \/ (playStream_ e <> None /\ In CmdDeleteEngine cs).
Proof.
  induction cs as [|c cs IH]; intros e Hset; simpl in *; [now left|].
  apply IH in Hset. destruct Hset as [Hset|(Hp & Hin)].
  - destruct c; simpl in Hset;
      unfold Java_com_google_sample_aaudio_play_MainActivity_start,
             Java_com_google_sample_aaudio_play_MainActivity_stop,
             Java_com_google_sample_aaudio_play_MainActivity_deleteEngine in Hset;
      destruct (playStream_ e) eqn:Hp; simpl in Hset; auto.
  - right. destruct (run_command_fields c e) as (_ & _ & _ & _ & H5 & _).
    split; [congruence|now right].
Qed.

(** What the calls do to the play flag does not depend on the stop
    flag. *)
Lemma run_commands_play_flag (cs : list command) :
  forall (e : AAudioEngine) (b : bool),
    playAudio_ (run_commands cs (set_requestStop b e))
    = playAudio_ (run_commands cs e).
Proof.
  induction cs as [|c cs IH]; intros e b; simpl; [reflexivity|].
  destruct c; simpl;
    unfold Java_com_google_sample_aaudio_play_MainActivity_start,
           Java_com_google_sample_aaudio_play_MainActivity_stop,
           Java_com_google_sample_aaudio_play_MainActivity_deleteEngine;
    simpl; destruct (playStream_ e); simpl.
  - exact (IH (set_playAudio true e) b).
  - exact (IH e b).
  - exact (IH (set_playAudio false e) b).
  - exact (IH e b).
  - reflexivity.
  - exact (IH e b).
Qed.

Lemma controller_calls_nil (controller : nat -> list command) (t : nat) :
  controller_calls controller t t = [].
Proof. unfold controller_calls. now rewrite Nat.sub_diag. Qed.

Lemma controller_calls_first (controller : nat -> list command) (t u : nat) :
  (t < u)%nat ->
  controller_calls controller t u
  = controller t ++ controller_calls controller (S t) u.
Proof.
  intros Hlt. unfold controller_calls.
  replace (u - t)%nat with (S (u - S t)) by lia. reflexivity.
Qed.

Lemma controller_calls_last (controller : nat -> list command) (t u : nat) :
  (t <= u)%nat ->
  controller_calls controller t (S u)
  = controller_calls controller t u ++ controller u.
Proof.
  intros Hle. unfold controller_calls.
  replace (S u - t)%nat with ((u - t) + 1)%nat by lia.
  rewrite seq_app, flat_map_app. simpl. rewrite app_nil_r.
  replace (t + (u - t))%nat with u by lia. reflexivity.
Qed.

(** The engine the teardown leaves, when the calls [c0] of the
    controller come before its first assignment and the calls [c1]
    between the first and the second. *)
Lemma teardown_engine (c0 c1 : list command) (e : AAudioEngine) :
  let e' := set_playStream None
              (run_commands c1 (set_requestStop false (run_commands c0 e))) in
  playStream_ e' = None
  /\ sampleRate_ e' = sampleRate_ e
  /\ sampleChannels_ e' = sampleChannels_ e
  /\ bitsPerSample_ e' = bitsPerSample_ e
  /\ sampleFormat_ e' = sampleFormat_ e
  /\ playAudio_ e' = playAudio_ (run_commands (c0 ++ c1) e)
  /\ (requestStop_ e' = true <->
        playStream_ e <> None /\ In CmdDeleteEngine c1).
Proof.
  cbv zeta. simpl.
  destruct (run_commands_fields c0 e) as (A1 & A2 & A3 & A4 & A5 & _).
  destruct (run_commands_fields c1 (set_requestStop false (run_commands c0 e)))
    as (B1 & B2 & B3 & B4 & B5 & _).
  simpl in B1, B2, B3, B4, B5.
  split; [reflexivity|].
  split; [congruence|]. split; [congruence|].
  split; [congruence|]. split; [congruence|].
  split; [now rewrite run_commands_app, run_commands_play_flag|].
  split.
  - intros Hset. apply run_commands_stop_flag in Hset. simpl in Hset.
    destruct Hset as [Hset|(Hp & Hin)]; [discriminate Hset|].
    split; [congruence|exact Hin].
  - intros (Hp & Hin). apply run_commands_delete; [exact Hin|].
    simpl. congruence.
Qed.

Section RenderProperties.

Variable D : Type.
Variable api : AAudioApi D.
Variable NDEBUG : bool.
Variable controller : nat -> list command.
Variable SineGenerator : Type.
Variable sample : SineGenerator -> Z.
Variable advancePhase : SineGenerator -> SineGenerator.

Abbreviation body := (render_body api NDEBUG controller sample advancePhase).
Abbreviation loop := (render_loop api NDEBUG controller sample advancePhase).
Abbreviation session := (render_session api NDEBUG controller sample advancePhase).
Abbreviation fill := (fill_buffer sample advancePhase).

(** One iteration of the rendering loop. *)
Lemma render_body_eq (samplesPerFrame framesPerBurst : Z)
    (v : render_vars SineGenerator) (w : world D) :
  let w1 := after_read controller w in
  let v' := fill (playAudio_ (w_engine w1)) samplesPerFrame framesPerBurst v in
  let '(r, d) := AAudioStream_write api (buf v') framesPerBurst 100000000 (w_dev w) in
  body samplesPerFrame framesPerBurst v w =
    (if NDEBUG || (0 <? r) then Ret v' else Crash AssertFail,
     extend w1 d [EWrite (buf v') framesPerBurst 100000000 r]).
Proof.
  unfold render_body, read_flag. unfold_monad. simpl.
  destruct (AAudioStream_write api _ framesPerBurst 100000000 (w_dev w)) as [r d].
  simpl. destruct NDEBUG; simpl; [reflexivity|].
  destruct (0 <? r); reflexivity.
Qed.

Lemma render_loop_eq (fuel : nat) (samplesPerFrame framesPerBurst : Z)
    (v : render_vars SineGenerator) (w : world D) :
  loop (S fuel) samplesPerFrame framesPerBurst v w =
    if requestStop_ (w_engine (after_read controller w)) then (Ret v, after_read controller w)
    else match body samplesPerFrame framesPerBurst v (after_read controller w) with
         | (Ret v', w') => loop fuel samplesPerFrame framesPerBurst v' w'
         | (Crash k, w') => (Crash k, w')
         end.
Proof.
  simpl. unfold bind, read_flag. fold (after_read controller w).
  destruct (requestStop_ (run_commands (controller (w_clock w)) (w_engine w)));
    reflexivity.
Qed.

(** The teardown, call by call. *)
Lemma teardown_eq (w : world D) :
  let '(r1, d1) := AAudioStream_requestStop api (w_dev w) in
  let '(r2, d2) := AAudioStream_close api d1 in
  teardown api controller w =
    (Ret tt,
     mkWorld d2
             (set_playStream None
                (run_commands (controller (S (w_clock w)))
                   (set_requestStop false
                      (run_commands (controller (w_clock w)) (w_engine w)))))
             (w_trace w ++ [EDelete RenderBuf; ERequestStop r1; EClose r2])
             (S (S (w_clock w)))).
Proof.
  unfold teardown, write_field. unfold_monad. simpl.
  destruct (AAudioStream_requestStop api (w_dev w)) as [r1 d1].
  destruct (AAudioStream_close api d1) as [r2 d2] eqn:Hc.
  simpl. rewrite Hc. simpl. rewrite <- !app_assoc. reflexivity.
Qed.

Lemma same_stream_refl (e : AAudioEngine) : same_stream e e.
Proof. unfold same_stream; auto. Qed.

Lemma same_stream_trans (e1 e2 e3 : AAudioEngine) :
  same_stream e1 e2 -> same_stream e2 e3 -> same_stream e1 e3.
Proof. unfold same_stream; intuition congruence. Qed.

Lemma same_stream_after_read (w : world D) :
  same_stream (w_engine w) (w_engine (after_read controller w)).
Proof.
  unfold same_stream, after_read; simpl.
  destruct (run_commands_fields (controller (w_clock w)) (w_engine w))
    as (H1 & H2 & H3 & H4 & H5 & _). auto.
Qed.

Lemma render_loop_spec (samplesPerFrame framesPerBurst : Z) :
  forall (fuel : nat) (v : render_vars SineGenerator) (w : world D) out w',
    loop fuel samplesPerFrame framesPerBurst v w = (out, w') ->
    exists evs,
      w_trace w' = w_trace w ++ evs
      /\ forallb is_write evs = true
      /\ same_stream (w_engine w) (w_engine w')
      /\ render_result NDEBUG out evs.
Proof.
  induction fuel as [|fuel IH]; intros v w out w' Hrun.
  { simpl in Hrun. inversion Hrun; subst out w'. exists [].
    split; [now rewrite app_nil_r|]. split; [reflexivity|].
    split; [apply same_stream_refl|]. intros _; reflexivity. }
  rewrite render_loop_eq in Hrun.
  pose proof (same_stream_after_read w) as Hsame.
  destruct (requestStop_ (w_engine (after_read controller w))).
  { inversion Hrun; subst out w'. exists [].
    split; [simpl; now rewrite app_nil_r|]. split; [reflexivity|].
    split; [exact Hsame|]. intros _; reflexivity. }
  pose proof (render_body_eq samplesPerFrame framesPerBurst v (after_read controller w)) as Hb.
  cbv zeta in Hb.
  destruct (AAudioStream_write api _ framesPerBurst 100000000 (w_dev (after_read controller w)))
    as [r d].
  rewrite Hb in Hrun. clear Hb.
  pose proof (same_stream_after_read (after_read controller w)) as Hsame2.
  destruct (NDEBUG || (0 <? r)) eqn:Hok.
  - apply IH in Hrun. destruct Hrun as (evs & Htr & Hwr & Hs & Hres).
    rewrite extend_trace in Htr. simpl w_trace in Htr.
    rewrite <- app_assoc in Htr.
    eexists; split; [exact Htr|]. split; [simpl; exact Hwr|].
    split.
    { eapply same_stream_trans; [exact Hsame|].
      eapply same_stream_trans; [exact Hsame2|exact Hs]. }
    destruct out as [v1|[| |]]; simpl in *.
    + intros Hnd. rewrite Hnd in Hok. simpl in Hok. rewrite Hok. auto.
    + destruct Hres as (Hnd & pre & b & n & t & r' & Hevs & Hr' & Hpre).
      split; [exact Hnd|].
      eexists (_ :: pre), b, n, t, r'. rewrite Hevs.
      split; [reflexivity|]. split; [exact Hr'|].
      simpl. rewrite Hnd in Hok. simpl in Hok. now rewrite Hok.
    + exact Hres.
    + intros Hnd. rewrite Hnd in Hok. simpl in Hok. rewrite Hok. auto.
  - inversion Hrun; subst out w'. eexists; split; [reflexivity|].
    split; [reflexivity|]. split.
    { eapply same_stream_trans; [exact Hsame|exact Hsame2]. }
    simpl. apply orb_false_iff in Hok. destruct Hok as [Hnd Hr].
    split; [exact Hnd|].
    eexists [], _, _, _, r. repeat split. lia.
Qed.

(** The rendering loop never writes the engine: what it holds after the
    loop is what the calls of the controller made of it. *)
Lemma render_loop_engine (samplesPerFrame framesPerBurst : Z) :
  forall (fuel : nat) (v : render_vars SineGenerator) (w : world D) out w',
    loop fuel samplesPerFrame framesPerBurst v w = (out, w') ->
    (w_clock w <= w_clock w')%nat
    /\ w_engine w'
       = run_commands (controller_calls controller (w_clock w) (w_clock w'))
                      (w_engine w).
Proof.
  induction fuel as [|fuel IH]; intros v w out w' Hrun.
  { simpl in Hrun. inversion Hrun; subst out w'.
    split; [lia|]. now rewrite controller_calls_nil. }
  rewrite render_loop_eq in Hrun.
  destruct (requestStop_ (w_engine (after_read controller w))).
  { inversion Hrun; subst out w'. simpl. split; [lia|].
    rewrite controller_calls_first, controller_calls_nil, app_nil_r by lia.
    reflexivity. }
  pose proof (render_body_eq samplesPerFrame framesPerBurst v (after_read controller w)) as Hb.
  cbv zeta in Hb.
  destruct (AAudioStream_write api _ framesPerBurst 100000000 (w_dev (after_read controller w)))
    as [r d].
  rewrite Hb in Hrun. clear Hb.
  assert (Htwo : forall t : nat,
             (S (S (w_clock w)) <= t)%nat ->
             run_commands (controller_calls controller (S (S (w_clock w))) t)
               (run_commands (controller (S (w_clock w)))
                  (run_commands (controller (w_clock w)) (w_engine w)))
             = run_commands (controller_calls controller (w_clock w) t) (w_engine w)).
  { intros t Ht.
    rewrite (controller_calls_first controller (w_clock w) t) by lia.
    rewrite (controller_calls_first controller (S (w_clock w)) t) by lia.
    now rewrite !run_commands_app. }
  destruct (NDEBUG || (0 <? r)).
  - apply IH in Hrun. simpl in Hrun. destruct Hrun as (Hle & Heng).
    split; [lia|]. rewrite Heng. now apply Htwo.
  - inversion Hrun; subst out w'. simpl. split; [lia|].
    rewrite <- Htwo by lia. now rewrite controller_calls_nil.
Qed.

End RenderProperties.

Arguments same_stream e e' : simpl never.

(** An event that does not satisfy [p] and comes after events that all
    do is the last of a trace that ends right after such events. *)
Lemma odd_one_is_last (p : event -> bool) (x y : event) :
  forall pre post pre1 : list event,
    pre ++ x :: post = pre1 ++ [y] ->
    forallb p pre1 = true -> p x = false ->
    post = [].
Proof.
  intros pre post pre1. revert pre.
  induction pre1 as [|a pre1 IH]; intros pre Heq Hall Hx.
  - destruct pre as [|b pre]; simpl in Heq.
    + now inversion Heq.
    + inversion Heq as [[Hb Hrest]]. destruct pre; discriminate Hrest.
  - simpl in Hall. apply andb_true_iff in Hall. destruct Hall as [Ha Hall].
    destruct pre as [|b pre]; simpl in Heq.
    + inversion Heq; subst. congruence.
    + inversion Heq; subst. eapply IH; eassumption.
Qed.

Lemma render_session_eq (D : Type) (api : AAudioApi D) (nd : bool)
    (controller : nat -> list command) (G : Type) (sample : G -> Z)
    (advancePhase : G -> G) (fuel : nat) (samplesPerFrame framesPerBurst : Z)
    (v : render_vars G) (w : world D) :
  render_session api nd controller sample advancePhase fuel
                 samplesPerFrame framesPerBurst v w =
    match render_loop api nd controller sample advancePhase fuel
                      samplesPerFrame framesPerBurst v w with
    | (Ret _, w1) => teardown api controller w1
    | (Crash k, w1) => (Crash k, w1)
    end.
Proof. reflexivity. Qed.

(** ** Write errors while rendering (C5) *)

(** C5, amended: with the assertions compiled in, as the file is
    written, a write of the rendering loop that is answered with a
    non-positive result ends the run at [assert(result > 0)]: the run is
    aborted and that write is the last call made, so no further
    iteration, write or teardown call follows it.  The check is the
    assertion alone: the build decides whether there is one. *)
Theorem write_error_aborts_session (D : Type) (api : AAudioApi D)
    (controller : nat -> list command) (G : Type) (sample : G -> Z)
    (advancePhase : G -> G) (fuel : nat) (samplesPerFrame framesPerBurst : Z)
    (v : render_vars G) (w w' : world D) (out : outcome unit)
    (pre post : list event) (b : list Z) (n t r : Z) :
  render_session api false controller sample advancePhase fuel
                 samplesPerFrame framesPerBurst v w = (out, w') ->
  w_trace w' = w_trace w ++ pre ++ EWrite b n t r :: post ->
  r <= 0 ->
  out = Crash AssertFail /\ post = [].
Proof.
  intros Hrun Htr Hr. rewrite render_session_eq in Hrun.
  destruct (render_loop api false controller sample advancePhase fuel
                        samplesPerFrame framesPerBurst v w) as [o w1] eqn:Hloop.
  apply render_loop_spec in Hloop.
  destruct Hloop as (evs & Htr1 & Hwr & _ & Hres).
  assert (Hbad : positive_write (EWrite b n t r) = false) by (simpl; lia).
  assert (Hclean : forallb positive_write evs = true ->
                   forall tail, forallb is_write tail = false \/ tail = [] ->
                   (forall e, In e tail -> is_write e = false) ->
                   pre ++ EWrite b n t r :: post = evs ++ tail -> False).
  { intros Hall tail _ Htail Heq.
    assert (Hin : In (EWrite b n t r) (evs ++ tail))
      by (rewrite <- Heq; apply in_or_app; right; left; reflexivity).
    apply in_app_or in Hin. destruct Hin as [Hin|Hin].
    - rewrite forallb_forall in Hall. apply Hall in Hin. congruence.
    - apply Htail in Hin. discriminate Hin. }
  destruct o as [v1|k].
  - exfalso. pose proof (teardown_eq D api controller w1) as Ht.
    destruct (AAudioStream_requestStop api (w_dev w1)) as [r1 d1].
    destruct (AAudioStream_close api d1) as [r2 d2].
    rewrite Ht in Hrun. inversion Hrun; subst out w'. simpl in Htr.
    rewrite Htr1 in Htr. rewrite <- app_assoc in Htr. apply app_inv_head in Htr.
    simpl in Hres. eapply Hclean; [apply Hres; reflexivity| |
                                   |symmetry; exact Htr].
    + left; reflexivity.
    + simpl. intros e [<-|[<-|[<-|[]]]]; reflexivity.
  - inversion Hrun; subst out w'. rewrite Htr1 in Htr.
    apply app_inv_head in Htr.
    destruct k; simpl in Hres.
    + destruct Hres as (_ & pre1 & b1 & n1 & t1 & r1 & Hevs & _ & Hpre1).
      split; [reflexivity|]. rewrite Hevs in Htr.
      eapply odd_one_is_last; [symmetry; exact Htr|exact Hpre1|exact Hbad].
    + contradiction.
    + exfalso. eapply (Hclean (Hres eq_refl) []); [now right| |].
      * intros e [].
      * rewrite app_nil_r. symmetry; exact Htr.
Qed.

(** A stream that fails every write: the first write of the session is
    the last call of the run. *)
Lemma write_error_aborts_session_witness :
  fst (render_session (sim_api (broken_write_policy 2 8)) false idle
                      ramp_sample ramp_advance 5 2 2 tiny_vars (sim_world 2))
  = Crash AssertFail.
Proof.
  refine (proj1 (write_error_aborts_session sim_dev
            (sim_api (broken_write_policy 2 8)) idle Z ramp_sample ramp_advance
            5 2 2 tiny_vars (sim_world 2) _ _ [] [] [0; 0; 0; 0] 2 100000000 (-1)
            _ _ _)).
  - apply surjective_pairing.
  - vm_compute. reflexivity.
  - lia.
Defined.

(** Compiled with NDEBUG the program does not stop at a failed write:
    on a stream that fails every write the loop writes again after the
    first failure, so the sentence on write errors does not hold for
    every build. *)
Lemma ndebug_build_writes_on : ~ write_error_ends_loop.
Proof.
  intros H.
  pose (run := render_session (sim_api (broken_write_policy 2 8)) true short_visit
                              ramp_sample ramp_advance 5 2 2 tiny_vars (sim_world 2)).
  specialize (H sim_dev (sim_api (broken_write_policy 2 8)) true short_visit Z
                ramp_sample ramp_advance 5%nat 2 2 tiny_vars (sim_world 2)
                (snd run) (fst run) []
                [EWrite [200; 100; 201; 101] 2 100000000 (-1);
                 EDelete RenderBuf; ERequestStop 0; EClose 0]
                [0; 0; 0; 0] 2 100000000 (-1)
                (surjective_pairing run)).
  assert (Htr : w_trace (snd run)
                = w_trace (sim_world 2) ++ [] ++
                  EWrite [0; 0; 0; 0] 2 100000000 (-1)
                  :: [EWrite [200; 100; 201; 101] 2 100000000 (-1);
                      EDelete RenderBuf; ERequestStop 0; EClose 0])
    by (vm_compute; reflexivity).
  specialize (H Htr). simpl in H. discriminate H. lia.
Qed.

(** With the assertions compiled out nothing looks at the result of the
    write: the loop goes on until it sees the stop request. *)
Example ndebug_ignores_write_errors :
  let run := render_session (sim_api (broken_write_policy 2 8)) true short_visit
                            ramp_sample ramp_advance 5 2 2 tiny_vars (sim_world 2) in
  fst run = Ret tt
  /\ filter (fun e => is_write e) (w_trace (snd run)) =
       [EWrite [0; 0; 0; 0] 2 100000000 (-1);
        EWrite [200; 100; 201; 101] 2 100000000 (-1)].
Proof. vm_compute. split; reflexivity. Qed.

(** ** The stop request (C6) *)

(** C6: when the rendering loop reads the stop flag and finds it set, it
    runs no further iteration: the run goes straight to the teardown and
    returns.  What is left to the trace is, in this order, the release of
    the render buffer, the stop request to the stream and its close; no
    write comes after them.  The handle of the engine is then null.  The
    stop flag, put down by the teardown, is up at the end in one case
    only: the engine had a stream and deleteEngine was called again
    between the two assignments of the teardown. *)
Theorem stop_observed_teardown (D : Type) (api : AAudioApi D) (nd : bool)
    (controller : nat -> list command) (G : Type) (sample : G -> Z)
    (advancePhase : G -> G) (fuel : nat) (samplesPerFrame framesPerBurst : Z)
    (v : render_vars G) (w : world D) r1 d1 r2 d2 :
  requestStop_ (w_engine (after_read controller w)) = true ->
  AAudioStream_requestStop api (w_dev w) = (r1, d1) ->
  AAudioStream_close api d1 = (r2, d2) ->
  exists w',
    render_session api nd controller sample advancePhase (S fuel)
                   samplesPerFrame framesPerBurst v w = (Ret tt, w')
    /\ w_trace w' = w_trace w ++ [EDelete RenderBuf; ERequestStop r1; EClose r2]
    /\ w_dev w' = d2
    /\ playStream_ (w_engine w') = None
    /\ (requestStop_ (w_engine w') = true <->
          playStream_ (w_engine w) <> None
          /\ In CmdDeleteEngine (controller (S (S (w_clock w)))))
    /\ w_clock w' = S (S (S (w_clock w))).
Proof.
  intros Hstop Hreq Hclose.
  rewrite render_session_eq, render_loop_eq, Hstop.
  pose proof (teardown_eq D api controller (after_read controller w)) as Ht.
  simpl w_dev in Ht. rewrite Hreq, Hclose in Ht. rewrite Ht.
  eexists; split; [reflexivity|].
  destruct (teardown_engine (controller (S (w_clock w)))
              (controller (S (S (w_clock w))))
              (w_engine (after_read controller w)))
    as (Hnull & _ & _ & _ & _ & _ & Hflag).
  destruct (run_commands_fields (controller (w_clock w)) (w_engine w))
    as (_ & _ & _ & _ & Hp & _).
  simpl in Hflag. rewrite Hp in Hflag.
  simpl. auto 10.
Qed.

(** The engine is deleted while the loop is about to read the flag. *)
Lemma stop_observed_teardown_witness :
  exists w',
    render_session (sim_api tiny_policy) false (fun _ => [CmdDeleteEngine])
                   ramp_sample ramp_advance 1 2 2 tiny_vars (sim_world 2)
      = (Ret tt, w')
    /\ w_trace w' = [EDelete RenderBuf; ERequestStop 0; EClose 0]
    /\ w_dev w' = mkSim 2 0 0
    /\ playStream_ (w_engine w') = None
    /\ (requestStop_ (w_engine w') = true <->
          playStream_ (w_engine (sim_world 2)) <> None
          /\ In CmdDeleteEngine [CmdDeleteEngine])
    /\ w_clock w' = 3%nat.
Proof.
  apply (stop_observed_teardown sim_dev (sim_api tiny_policy) false
           (fun _ => [CmdDeleteEngine]) Z ramp_sample ramp_advance 0 2 2
           tiny_vars (sim_world 2) 0 (mkSim 2 0 0) 0 (mkSim 2 0 0));
    reflexivity.
Defined.

(** ** From the stop request to the end of the loop

    A call of deleteEngine that takes effect within the next [n] flag
    reads of the rendering thread ends the loop within [n] iterations:
    the stop flag, once set, stays set until the loop has read it. *)
Lemma stop_request_ends_loop (D : Type) (api : AAudioApi D) (nd : bool)
    (controller : nat -> list command) (G : Type) (sample : G -> Z)
    (advancePhase : G -> G) (samplesPerFrame framesPerBurst : Z) :
  forall (fuel n : nat) (v : render_vars G) (w : world D),
    playStream_ (w_engine w) <> None ->
    (requestStop_ (w_engine w) = true
     \/ exists t, (w_clock w <= t < w_clock w + n)%nat
                  /\ In CmdDeleteEngine (controller t)) ->
    (n < fuel)%nat ->
    terminated (fst (render_loop api nd controller sample advancePhase fuel
                                 samplesPerFrame framesPerBurst v w)).
Proof.
  induction fuel as [|fuel IH]; intros n v w Hopen Hstop Hfuel; [lia|].
  rewrite render_loop_eq.
  pose proof (same_stream_after_read D controller w) as (_ & _ & _ & _ & Hp1).
  destruct (requestStop_ (w_engine (after_read controller w))) eqn:Hflag;
    [discriminate|].
  assert (Hlater : exists t, (S (w_clock w) <= t < w_clock w + n)%nat
                             /\ In CmdDeleteEngine (controller t)).
  { destruct Hstop as [Hset|(t & Ht & Hin)].
    - exfalso. unfold after_read in Hflag. simpl in Hflag.
      destruct (run_commands_fields (controller (w_clock w)) (w_engine w))
        as (_ & _ & _ & _ & _ & Hkeep).
      rewrite (Hkeep Hset) in Hflag. discriminate Hflag.
    - destruct (Nat.eq_dec t (w_clock w)) as [->|Hne].
      + exfalso. unfold after_read in Hflag. simpl in Hflag.
        rewrite (run_commands_delete _ _ Hin Hopen) in Hflag. discriminate Hflag.
      + exists t. split; [lia|exact Hin]. }
  destruct Hlater as (t & Ht & Hin).
  pose proof (render_body_eq D api nd controller G sample advancePhase
                samplesPerFrame framesPerBurst v (after_read controller w)) as Hb.
  cbv zeta in Hb.
  destruct (AAudioStream_write api _ framesPerBurst 100000000
              (w_dev (after_read controller w))) as [r d].
  rewrite Hb. clear Hb.
  destruct (nd || (0 <? r)); [|discriminate].
  pose proof (same_stream_after_read D controller (after_read controller w))
    as (_ & _ & _ & _ & Hp2).
  unfold after_read in Hp1, Hp2. simpl in Hp1, Hp2.
  apply (IH (n - 1)%nat); simpl.
  - rewrite Hp2, Hp1. exact Hopen.
  - destruct (Nat.eq_dec t (S (w_clock w))) as [->|Hne].
    + left. apply run_commands_delete; [exact Hin|].
      rewrite Hp1. exact Hopen.
    + right. exists t. split; [lia|exact Hin].
  - lia.
Qed.

(** The controller of [short_visit] deletes the engine at the fifth flag
    read: six iterations are enough for every stream and every
    generator. *)
Example short_visit_ends (fuel : nat) (v : render_vars Z) :
  (5 < fuel)%nat ->
  terminated (fst (render_loop (sim_api tiny_policy) false short_visit
                               ramp_sample ramp_advance fuel 2 2 v (sim_world 2))).
Proof.
  intros Hfuel.
  apply (stop_request_ends_loop _ _ _ _ _ _ _ _ _ fuel 5%nat);
    [discriminate| |exact Hfuel].
  right. exists 4%nat. split; [simpl; lia|left; reflexivity].
Qed.

(** ** The engine after the teardown (C9) *)


Example engine_after_short_visit :
  w_engine (snd (render_session (sim_api tiny_policy) false short_visit
                   ramp_sample ramp_advance 5 2 2 tiny_vars (sim_world 2)))
  = mkEngine 48000 2 16 AAUDIO_FORMAT_PCM_I16 None false true.
Proof. vm_compute. reflexivity. Qed.

(** A session that returned: the engine it leaves and what it added to
    the trace.  The teardown makes two more accesses to the engine after
    the loop, its two assignments; the calls just before the last access
    are those made between the two. *)
Lemma render_session_engine (D : Type) (api : AAudioApi D)
    (nd : bool) (controller : nat -> list command) (G : Type) (sample : G -> Z)
    (advancePhase : G -> G) (fuel : nat) (samplesPerFrame framesPerBurst : Z)
    (v : render_vars G) (w w' : world D) :
  render_session api nd controller sample advancePhase fuel
                 samplesPerFrame framesPerBurst v w = (Ret tt, w') ->
  (w_clock w + 2 <= w_clock w')%nat
  /\ playStream_ (w_engine w') = None
  /\ (requestStop_ (w_engine w') = true <->
        playStream_ (w_engine w) <> None
        /\ In CmdDeleteEngine (controller (pred (w_clock w'))))
  /\ sampleRate_ (w_engine w') = sampleRate_ (w_engine w)
  /\ sampleChannels_ (w_engine w') = sampleChannels_ (w_engine w)
  /\ bitsPerSample_ (w_engine w') = bitsPerSample_ (w_engine w)
  /\ sampleFormat_ (w_engine w') = sampleFormat_ (w_engine w)
  /\ playAudio_ (w_engine w')
     = playAudio_ (run_commands
                     (controller_calls controller (w_clock w) (w_clock w'))
                     (w_engine w))
  /\ exists pre r1 r2,
       w_trace w' = w_trace w ++ pre ++ [EDelete RenderBuf; ERequestStop r1; EClose r2]
       /\ forallb is_write pre = true.
Proof.
  intros Hrun. rewrite render_session_eq in Hrun.
  destruct (render_loop api nd controller sample advancePhase fuel
                        samplesPerFrame framesPerBurst v w) as [o w1] eqn:Hloop.
  pose proof (render_loop_engine D api nd controller G sample advancePhase
                samplesPerFrame framesPerBurst fuel v w o w1 Hloop)
    as (Hle & Heng).
  apply render_loop_spec in Hloop.
  destruct Hloop as (evs & Htr1 & Hwr & Hsame & _).
  destruct o as [v1|k]; [|discriminate Hrun].
  pose proof (teardown_eq D api controller w1) as Ht.
  destruct (AAudioStream_requestStop api (w_dev w1)) as [r1 d1].
  destruct (AAudioStream_close api d1) as [r2 d2].
  rewrite Ht in Hrun. inversion Hrun; subst w'. clear Hrun Ht.
  pose proof Hsame as (H1 & H2 & H3 & H4 & H5).
  destruct (teardown_engine (controller (w_clock w1)) (controller (S (w_clock w1)))
              (w_engine w1)) as (T0 & T1 & T2 & T3 & T4 & T5 & T6).
  cbv zeta in T0, T1, T2, T3, T4, T5, T6.
  cbn [w_engine w_clock w_trace Nat.pred].
  split; [lia|]. split; [exact T0|].
  split; [rewrite <- H5; exact T6|].
  split; [congruence|]. split; [congruence|].
  split; [congruence|]. split; [congruence|].
  split.
  - rewrite T5, Heng, <- !run_commands_app.
    rewrite (controller_calls_last controller (w_clock w) (S (w_clock w1))) by lia.
    rewrite (controller_calls_last controller (w_clock w) (w_clock w1)) by lia.
    now rewrite <- !app_assoc.
  - exists evs, r1, r2. rewrite Htr1, <- app_assoc. split; [reflexivity|exact Hwr].
Qed.



(** ** What the rendering loop writes (C7) *)

Section Rendering.

Variable G : Type.
Variable sample : G -> Z.
Variable advancePhase : G -> G.

Lemma phase_after_S (n : nat) (g : G) :
  phase_after advancePhase n (advancePhase g) = phase_after advancePhase (S n) g.
Proof. unfold phase_after. symmetry. apply Nat.iter_succ_r. Qed.

Lemma store_length (i x : Z) (b : list Z) : length (store i x b) = length b.
Proof. unfold store. destruct (0 <=? i); [apply length_insert|reflexivity]. Qed.

Lemma render_from_length (n : nat) :
  forall g (b : list Z) idx stride,
    length (snd (render_from sample advancePhase g b idx stride n)) = length b.
Proof.
  induction n as [|n IH]; intros; simpl; [reflexivity|].
  rewrite IH. apply store_length.
Qed.

Lemma render_from_phase (n : nat) :
  forall g (b : list Z) idx stride,
    fst (render_from sample advancePhase g b idx stride n) = phase_after advancePhase n g.
Proof.
  induction n as [|n IH]; intros; simpl; [reflexivity|].
  rewrite IH. apply phase_after_S.
Qed.

(** A place that is not the slot of a frame keeps its value. *)
Lemma render_from_miss (n : nat) :
  forall g (b : list Z) idx stride (j : nat),
    0 <= idx -> 0 <= stride ->
    (forall i, (i < n)%nat -> j <> slot idx stride i) ->
    snd (render_from sample advancePhase g b idx stride n) !! j = b !! j.
Proof.
  induction n as [|n IH]; intros g b idx stride j Hidx Hstride Hj; simpl;
    [reflexivity|].
  rewrite IH; [| lia | lia |].
  - unfold store. assert (E : (0 <=? idx) = true) by lia. rewrite E.
    apply list_lookup_insert_ne.
    specialize (Hj 0%nat ltac:(lia)). unfold slot in Hj. simpl in Hj.
    rewrite Z.add_0_r in Hj. congruence.
  - intros i Hi. specialize (Hj (S i) ltac:(lia)). unfold slot in *.
    replace (idx + stride + Z.of_nat i * stride)
      with (idx + Z.of_nat (S i) * stride) by lia.
    exact Hj.
Qed.

(** The slot of frame [i] holds the sample of the generator [i] frames
    on. *)
Lemma render_from_hit (n : nat) :
  forall g (b : list Z) idx stride (i : nat),
    0 <= idx -> 1 <= stride -> (i < n)%nat ->
    (slot idx stride i < length b)%nat ->
    snd (render_from sample advancePhase g b idx stride n) !! slot idx stride i
    = Some (sample (phase_after advancePhase i g)).
Proof.
  induction n as [|n IH]; intros g b idx stride i Hidx Hstride Hi Hlen; [lia|].
  simpl. destruct i as [|i].
  - rewrite render_from_miss; [| lia | lia |].
    + unfold store, slot in *. assert (E : (0 <=? idx) = true) by lia. rewrite E.
      simpl. rewrite Z.add_0_r. apply list_lookup_insert_eq.
      simpl in Hlen. rewrite Z.add_0_r in Hlen. exact Hlen.
    + intros k Hk. unfold slot. nia.
  - replace (slot idx stride (S i)) with (slot (idx + stride) stride i)
      by (unfold slot; f_equal; lia).
    rewrite IH; [| lia | lia | lia |].
    + now rewrite phase_after_S.
    + rewrite store_length.
      replace (slot (idx + stride) stride i) with (slot idx stride (S i))
        by (unfold slot; f_equal; lia).
      exact Hlen.
Qed.

Lemma memset_zero_all (n : Z) (b : list Z) :
  length b = Z.to_nat n -> memset_zero n b = replicate (Z.to_nat n) 0.
Proof.
  intros Hlen. unfold memset_zero. rewrite Hlen, Nat.min_id.
  rewrite <- Hlen, drop_all. apply app_nil_r.
Qed.

End Rendering.


(** The render buffer as allocated has the length that the loop relies
    on. *)
Lemma new_array_length (D : Type) (b : buffer_id) (len fill : Z)
    (w w' : world D) (l : list Z) :
  new_array D b len fill w = (Ret l, w') -> length l = Z.to_nat len.
Proof.
  unfold new_array. destruct (len <? 0); [discriminate|].
  unfold_monad. simpl. intros H. inversion H. apply length_replicate.
Qed.

(** C7: take an iteration of the rendering loop on a stream of at least
    one channel, the buffer being the [framesPerBurst * samplesPerFrame]
    samples allocated for it.  The buffer as filled is what the write
    passes, with [framesPerBurst] frames.  If the play flag was read
    false, it is [framesPerBurst * samplesPerFrame] zeros.  If it was
    read true, the right channel is rendered whatever the channel count:
    sample [i] of the right generator is at place [i * samplesPerFrame].
    The left generator is rendered when the stream has exactly two
    channels, one place further ([2 * i + 1]); otherwise it is not
    touched and the places that are not a multiple of [samplesPerFrame]
    keep what they held. *)
Theorem render_iteration_buffer (D : Type) (api : AAudioApi D) (nd : bool)
    (controller : nat -> list command) (G : Type) (sample : G -> Z)
    (advancePhase : G -> G) (samplesPerFrame framesPerBurst : Z)
    (v : render_vars G) (w : world D) :
  1 <= samplesPerFrame ->
  0 <= framesPerBurst ->
  length (buf v) = Z.to_nat (framesPerBurst * samplesPerFrame) ->
  let play := playAudio_ (w_engine (after_read controller w)) in
  let v' := fill_buffer sample advancePhase play samplesPerFrame framesPerBurst v in
  let frames := Z.to_nat framesPerBurst in
  (exists r,
      w_trace (snd (render_body api nd controller sample advancePhase
                                samplesPerFrame framesPerBurst v w))
      = w_trace w ++ [EWrite (buf v') framesPerBurst 100000000 r])
  /\ length (buf v') = Z.to_nat (framesPerBurst * samplesPerFrame)
  /\ (play = false ->
        buf v' = replicate (Z.to_nat (framesPerBurst * samplesPerFrame)) 0
        /\ sineOscRight v' = sineOscRight v
        /\ sineOscLeft v' = sineOscLeft v)
  /\ (play = true ->
        (forall i, (i < frames)%nat ->
           buf v' !! slot 0 samplesPerFrame i
           = Some (sample (phase_after advancePhase i (sineOscRight v))))
        /\ sineOscRight v' = phase_after advancePhase frames (sineOscRight v)
        /\ (samplesPerFrame = 2 ->
              (forall i, (i < frames)%nat ->
                 buf v' !! slot 1 2 i
                 = Some (sample (phase_after advancePhase i (sineOscLeft v))))
              /\ sineOscLeft v' = phase_after advancePhase frames (sineOscLeft v))
        /\ (samplesPerFrame <> 2 ->
              sineOscLeft v' = sineOscLeft v
              /\ forall j : nat, Z.of_nat j mod samplesPerFrame <> 0 ->
                   buf v' !! j = buf v !! j)).
Proof.
  intros Hspf Hfpb Hlen play v' frames.
  split; [|split; [|split]].
  - pose proof (render_body_eq D api nd controller G sample advancePhase
                  samplesPerFrame framesPerBurst v w) as Hb.
    cbv zeta in Hb. fold play in Hb. fold v' in Hb.
    destruct (AAudioStream_write api (buf v') framesPerBurst 100000000 (w_dev w))
      as [r d].
    exists r. rewrite Hb. reflexivity.
  - subst v'. unfold fill_buffer, render. destruct play.
    + destruct (render_from sample advancePhase (sineOscRight v) (buf v) 0
                  samplesPerFrame (Z.to_nat framesPerBurst)) as [gr b] eqn:Hr.
      assert (Hb : length b = length (buf v)).
      { change b with (snd (gr, b)). rewrite <- Hr. apply render_from_length. }
      destruct (samplesPerFrame =? 2).
      * destruct (render_from sample advancePhase (sineOscLeft v) b 1
                    samplesPerFrame (Z.to_nat framesPerBurst)) as [gl b'] eqn:Hl.
        simpl. change b' with (snd (gl, b')). rewrite <- Hl.
        rewrite render_from_length. congruence.
      * simpl. congruence.
    + simpl. rewrite memset_zero_all by assumption. apply length_replicate.
  - intros Hplay. subst v'. rewrite Hplay. unfold fill_buffer. simpl.
    rewrite memset_zero_all by assumption. auto.
  - intros Hplay. subst v'. rewrite Hplay. unfold fill_buffer, render.
    fold frames.
    pose proof (render_from_phase G sample advancePhase frames (sineOscRight v)
                  (buf v) 0 samplesPerFrame) as Hgr.
    pose proof (render_from_length G sample advancePhase frames (sineOscRight v)
                  (buf v) 0 samplesPerFrame) as Hlr.
    assert (Hright : forall i, (i < frames)%nat ->
              snd (render_from sample advancePhase (sineOscRight v) (buf v) 0
                     samplesPerFrame frames) !! slot 0 samplesPerFrame i
              = Some (sample (phase_after advancePhase i (sineOscRight v)))).
    { intros i Hi. apply render_from_hit; [lia|lia|exact Hi|].
      rewrite Hlen. unfold slot. subst frames. nia. }
    assert (Hkeep : forall j : nat, Z.of_nat j mod samplesPerFrame <> 0 ->
              snd (render_from sample advancePhase (sineOscRight v) (buf v) 0
                     samplesPerFrame frames) !! j = buf v !! j).
    { intros j Hj. apply render_from_miss; [lia|lia|].
      intros i _ Heq. apply Hj. subst j. unfold slot.
      rewrite Z2Nat.id by nia. simpl. apply Z.mod_mul. lia. }
    destruct (render_from sample advancePhase (sineOscRight v) (buf v) 0
                samplesPerFrame frames) as [gr b]. simpl in Hgr, Hlr, Hright, Hkeep.
    destruct (samplesPerFrame =? 2) eqn:Hst.
    + assert (samplesPerFrame = 2) by lia. subst samplesPerFrame.
      pose proof (render_from_phase G sample advancePhase frames (sineOscLeft v)
                    b 1 2) as Hgl.
      assert (Hleft : forall i, (i < frames)%nat ->
                snd (render_from sample advancePhase (sineOscLeft v) b 1 2 frames)
                  !! slot 1 2 i
                = Some (sample (phase_after advancePhase i (sineOscLeft v)))).
      { intros i Hi. apply render_from_hit; [lia|lia|exact Hi|].
        rewrite Hlr, Hlen. unfold slot. subst frames. lia. }
      assert (Hstay : forall i, (i < frames)%nat ->
                snd (render_from sample advancePhase (sineOscLeft v) b 1 2 frames)
                  !! slot 0 2 i = b !! slot 0 2 i).
      { intros i Hi. apply render_from_miss; [lia|lia|].
        intros k _. unfold slot. lia. }
      destruct (render_from sample advancePhase (sineOscLeft v) b 1 2 frames)
        as [gl b']. simpl in *.
      split; [|split; [exact Hgr|split]].
      * intros i Hi. rewrite Hstay by exact Hi. apply Hright; exact Hi.
      * intros _. split; [exact Hleft|exact Hgl].
      * intros Hne. now elim Hne.
    + simpl. split; [exact Hright|split; [exact Hgr|split]].
      * intros H2. lia.
      * intros _. split; [reflexivity|exact Hkeep].
Qed.

(** A stereo burst of two frames, play flag set: right samples at the
    places 0 and 2, left samples at 1 and 3. *)
Lemma render_iteration_buffer_witness :
  buf (fill_buffer ramp_sample ramp_advance true 2 2 tiny_vars) !! 0%nat = Some 200
  /\ buf (fill_buffer ramp_sample ramp_advance true 2 2 tiny_vars) !! 1%nat = Some 100.
Proof.
  pose proof (render_iteration_buffer sim_dev (sim_api tiny_policy) false
                (fun _ => [CmdStart]) Z ramp_sample ramp_advance 2 2 tiny_vars
                (sim_world 2) ltac:(lia) ltac:(lia) eq_refl) as H.
  cbv zeta in H.
  destruct H as (_ & _ & _ & Hplay).
  destruct (Hplay eq_refl) as (Hright & _ & Hstereo & _).
  destruct (Hstereo eq_refl) as (Hleft & _).
  split.
  - exact (Hright 0%nat ltac:(simpl; lia)).
  - exact (Hleft 0%nat ltac:(simpl; lia)).
Defined.

(** ** A whole life of the engine

    The engine is created on a stereo stream with bursts of two frames;
    the tuner settles on one burst after one probe write; the loop
    renders a burst of silence, then one of sound, and tears the stream
    down when the engine is deleted. *)
Example engine_lifetime_run :
  let run := engine_lifetime (sim_api tiny_policy) false short_visit
               (fun _ _ _ => 100) ramp_sample ramp_advance (fun d => d) 7
               true (fun _ _ _ => Some 1%positive) (fun _ => 16) 2
               10 10 (mkWorld (mkSim 4 0 0) engine_zero [] 0) in
  fst run = Ret true
  /\ w_trace (snd run) =
       [EPrintInfo; EGetSampleRate 48000; ERequestStart 0;
        EGetState 4; EGetFramesPerBurst 2; EGetBufferSize 4;
        EGetBufferCapacity 8; ENew ProbeBuf 16; EGetXRunCount 0;
        ESetBufferSize 2 2; EGetBufferSize 2;
        EWrite (replicate 16 0) 8 1000000000 8; EGetXRunCount 0;
        EDelete ProbeBuf;
        EPrintInfo; EGetState 4; EGetFramesPerBurst 2; EGetSamplesPerFrame 2;
        ENew RenderBuf 4;
        EWrite [0; 0; 0; 0] 2 100000000 2;
        EWrite [100; 100; 101; 101] 2 100000000 2;
        EDelete RenderBuf; ERequestStop 0; EClose 0]
  /\ w_engine (snd run) = mkEngine 48000 2 16 AAUDIO_FORMAT_PCM_I16 None false true.
Proof. vm_compute. repeat split; reflexivity. Qed.

(** * Further properties of the tuner *)

Lemma same_extension {D : Type} (w w' : world D) d1 d2 evs1 evs2 :
  w' = extend w d1 evs1 -> w' = extend w d2 evs2 -> evs1 = evs2.
Proof.
  intros H1 H2. rewrite H1 in H2.
  apply (f_equal w_trace) in H2. rewrite !extend_trace in H2.
  now apply app_inv_head in H2.
Qed.

(** The size requests of the search stay within the capacity, and the
    search, if it makes a call at all, begins by asking for the
    candidate it starts from. *)
Lemma tune_loop_requests (D : Type) (api : AAudioApi D) (nd : bool)
    (fuel : nat) (framesPerBurst bufCap : Z) (probe : list Z) :
  forall (v : tune_vars) (w : world D) out w',
    tune_loop api nd fuel framesPerBurst bufCap probe v w = (out, w') ->
    exists evs, w' = extend w (w_dev w') evs
                /\ List.Forall (within_capacity bufCap) evs
                /\ (evs = [] \/ exists r rest, evs = ESetBufferSize (bufSize v) r :: rest).
Proof.
  induction fuel as [|fuel IH]; intros v w out w' Hrun; simpl in Hrun.
  { inversion Hrun; subst. exists []. split; [|split; [constructor|now left]].
    unfold extend; simpl. rewrite app_nil_r. now destruct w'. }
  destruct (bufSize v <=? bufCap) eqn:Hguard.
  2:{ inversion Hrun; subst. exists []. split; [|split; [constructor|now left]].
      unfold extend; simpl. rewrite app_nil_r. now destruct w'. }
  assert (Hle : bufSize v <= bufCap) by lia.
  unfold bind in Hrun.
  pose proof (tune_body_cases api nd framesPerBurst bufCap probe v w) as Hb.
  destruct (AAudioStream_setBufferSizeInFrames api (bufSize v) (w_dev w)) as [r1 d1].
  destruct (AAudioStream_getBufferSizeInFrames api d1) as [a d2].
  destruct (AAudioStream_write api probe bufCap 1000000000 d2) as [r2 d3].
  destruct (AAudioStream_getXRunCount api d3) as [x d4].
  cbv zeta in Hb. rewrite Hb in Hrun. clear Hb.
  destruct (r1 <=? AAUDIO_OK).
  { inversion Hrun; subst out w'. eexists; split; [reflexivity|].
    split; [repeat constructor; exact Hle|right; eauto]. }
  destruct (a =? prevBufSize v).
  { inversion Hrun; subst out w'. eexists; split; [reflexivity|].
    split; [repeat constructor; exact Hle|right; eauto]. }
  destruct (r2 <? 0).
  { destruct nd; inversion Hrun; subst out w';
      (eexists; split; [reflexivity|]);
      (split; [repeat constructor; exact Hle|right; eauto]). }
  destruct (x <=? prevXRun v).
  { inversion Hrun; subst out w'. eexists; split; [reflexivity|].
    split; [repeat constructor; exact Hle|right; eauto]. }
  apply IH in Hrun. destruct Hrun as (evs & Hw' & Hall & _).
  simpl in Hw'. rewrite extend_extend in Hw'.
  eexists; split; [exact Hw'|]. split.
  - apply Forall_app. split; [repeat constructor; exact Hle|exact Hall].
  - right. simpl. eauto.
Qed.

Lemma tune_loop_search_trace (D : Type) (api : AAudioApi D) (nd : bool)
    (fuel : nat) (framesPerBurst bufCap : Z) (probe : list Z)
    (v : tune_vars) (w : world D) out w' :
  tune_loop api nd fuel framesPerBurst bufCap probe v w = (out, w') ->
  exists evs, w' = extend w (w_dev w') evs
              /\ search_trace probe bufCap (bufSize v) evs
              /\ search_result nd (trainingError v) probe bufCap out evs.
Proof.
  intros Hrun.
  destruct (tune_loop_spec api nd fuel framesPerBurst bufCap probe v w out w' Hrun)
    as (evs & Hw & Hres).
  destruct (tune_loop_events D api nd fuel framesPerBurst bufCap probe v w out w' Hrun)
    as (evs1 & Hw1 & Hev).
  destruct (tune_loop_requests D api nd fuel framesPerBurst bufCap probe v w out w' Hrun)
    as (evs2 & Hw2 & Hcap & Hhead).
  rewrite <- (same_extension w w' _ _ _ _ Hw Hw1) in Hev.
  rewrite <- (same_extension w w' _ _ _ _ Hw Hw2) in Hcap, Hhead.
  exists evs. repeat split; assumption.
Qed.

(** Every run of the tuner has one of the six shapes of [tuner_run]. *)
Lemma tuner_run_shape (D : Type) (api : AAudioApi D) (nd : bool) (fuel : nat)
    (w w' : world D) (out : outcome bool) :
  TunePlayerForLowLatency api nd fuel w = (out, w') ->
  exists evs, w' = extend w (w_dev w') evs
              /\ tuner_run nd (bitsPerSample_ (w_engine w)) out evs.
Proof.
  intros Hrun. pose proof (tune_entry api nd fuel w) as He.
  destruct (AAudioStream_getState api (w_dev w)) as [s d1].
  destruct (AAudioStream_getFramesPerBurst api d1) as [f d2].
  destruct (AAudioStream_getBufferSizeInFrames api d2) as [org d3].
  destruct (AAudioStream_getBufferCapacityInFrames api d3) as [c d4].
  destruct (AAudioStream_getXRunCount api d4) as [x d5].
  cbv zeta in He. rewrite He in Hrun. clear He.
  set (bits := bitsPerSample_ (w_engine w)) in *.
  destruct (s =? AAUDIO_STREAM_STATE_STARTED) eqn:Hs; simpl negb in Hrun; cbv iota in Hrun.
  2:{ inversion Hrun; subst out w'. eexists; split; [reflexivity|].
      constructor. lia. }
  assert (s = AAUDIO_STREAM_STATE_STARTED) by lia. subst s.
  destruct (probe_bytes c bits <? 0) eqn:Hneg.
  { inversion Hrun; subst out w'. eexists; split; [reflexivity|].
    constructor. lia. }
  assert (Hn : 0 <= probe_bytes c bits) by lia.
  match type of Hrun with
  | context [tune_loop api nd ?n ?a ?b ?p ?v ?w0] =>
      destruct (tune_loop api nd n a b p v w0) as [o w6] eqn:Hloop
  end.
  apply tune_loop_search_trace in Hloop.
  destruct Hloop as (levs & Hw6 & Htrace & Hres).
  cbn [bufSize trainingError] in Htrace, Hres.
  unfold search_result in Hres. cbn [orb] in Hres.
  destruct o as [v6|k].
  - destruct Hres as [Hflag Hnowrite].
    destruct (trainingError v6).
    + destruct (AAudioStream_setBufferSizeInFrames api org (w_dev w6)) as [r3 e5].
      inversion Hrun; subst out w'. rewrite Hw6. rewrite !extend_extend.
      eexists; split; [reflexivity|].
      change ([EGetState AAUDIO_STREAM_STATE_STARTED; EGetFramesPerBurst f;
               EGetBufferSize org; EGetBufferCapacity c]
              ++ [ENew ProbeBuf (probe_bytes c bits); EGetXRunCount x])
        with (entry_events AAUDIO_STREAM_STATE_STARTED f org c (probe_bytes c bits) x).
      apply run_restored; auto.
    + inversion Hrun; subst out w'. rewrite Hw6. rewrite !extend_extend.
      eexists; split; [reflexivity|].
      change ([EGetState AAUDIO_STREAM_STATE_STARTED; EGetFramesPerBurst f;
               EGetBufferSize org; EGetBufferCapacity c]
              ++ [ENew ProbeBuf (probe_bytes c bits); EGetXRunCount x])
        with (entry_events AAUDIO_STREAM_STATE_STARTED f org c (probe_bytes c bits) x).
      apply run_tuned; auto.
  - inversion Hrun; subst out w'. rewrite Hw6. rewrite !extend_extend.
    eexists; split; [reflexivity|].
    change ([EGetState AAUDIO_STREAM_STATE_STARTED; EGetFramesPerBurst f;
             EGetBufferSize org; EGetBufferCapacity c]
            ++ [ENew ProbeBuf (probe_bytes c bits); EGetXRunCount x])
      with (entry_events AAUDIO_STREAM_STATE_STARTED f org c (probe_bytes c bits) x).
    destruct k.
    + destruct Hres as (Hnd & pre & r & Hlevs & Hr). subst levs.
      apply run_aborted; auto.
    + contradiction.
    + apply run_out_of_fuel; auto.
Qed.

(** Where an element of a concatenation lies. *)
Lemma split_in_app {A : Type} (x : A) :
  forall pre post l1 l2 : list A,
    pre ++ x :: post = l1 ++ l2 ->
    (exists m, l1 = pre ++ x :: m /\ post = m ++ l2)
    \/ (exists m, pre = l1 ++ m /\ l2 = m ++ x :: post).
Proof.
  induction pre as [|a pre IH]; intros post l1 l2 Heq; simpl in Heq.
  - destruct l1 as [|b l1]; simpl in Heq.
    + right. exists []. split; [reflexivity|]. now rewrite <- Heq.
    + left. inversion Heq; subst. exists l1. auto.
  - destruct l1 as [|b l1]; simpl in Heq.
    + right. exists (a :: pre). split; [reflexivity|]. now rewrite <- Heq.
    + inversion Heq; subst. destruct (IH _ _ _ H1) as [(m & -> & ->)|(m & -> & ->)].
      * left. exists m. auto.
      * right. exists m. auto.
Qed.

(** X1: the tuner does not touch the engine structure and reads no flag
    of the controller, whatever the stream answers and however the run
    ends. *)
Theorem tuner_leaves_engine_alone (D : Type) (api : AAudioApi D) (nd : bool)
    (fuel : nat) (w : world D) :
  w_engine (snd (TunePlayerForLowLatency api nd fuel w)) = w_engine w
  /\ w_clock (snd (TunePlayerForLowLatency api nd fuel w)) = w_clock w.
Proof.
  destruct (TunePlayerForLowLatency api nd fuel w) as [out w'] eqn:Hrun.
  apply tuner_run_shape in Hrun. destruct Hrun as (evs & -> & _).
  split; reflexivity.
Qed.

(** X2: what the answer of the tuner means.  It answers true only if no
    size request was rejected and no probe write failed, and then its
    last action is the release of the probe buffer: the size the stream
    adopted last stays.  It answers false either at once, the state
    query being its only call on a stream that is not started, or after
    a tuning error, the size of entry being requested back as the last
    call. *)
Theorem tuner_answer_meaning (D : Type) (api : AAudioApi D) (nd : bool)
    (fuel : nat) (w w' : world D) (answer : bool) (evs : list event) :
  TunePlayerForLowLatency api nd fuel w = (Ret answer, w') ->
  w_trace w' = w_trace w ++ evs ->
  (answer = true ->
     existsb tuning_error_event evs = false
     /\ exists pre, evs = pre ++ [EDelete ProbeBuf])
  /\ (answer = false ->
        (exists s, s <> AAUDIO_STREAM_STATE_STARTED /\ evs = [EGetState s])
        \/ (existsb tuning_error_event evs = true
            /\ restored_and_failed (Ret false) evs)).
Proof.
  intros Hrun Htr. apply tuner_run_shape in Hrun.
  destruct Hrun as (evs' & Hw' & Hshape).
  assert (evs = evs').
  { rewrite Hw', extend_trace in Htr. now apply app_inv_head in Htr. }
  subst evs'. clear Hw' Htr.
  inversion Hshape; subst; split; intros Hans; try discriminate Hans.
  - left. eauto.
  - split.
    + rewrite existsb_entry_events by apply tuning_error_set_or_write.
      rewrite existsb_app.
      match goal with
      | H : existsb tuning_error_event levs = _ |- _ => rewrite H
      end. reflexivity.
    + eexists (_ ++ levs). rewrite <- app_assoc. reflexivity.
  - right. split.
    + rewrite existsb_entry_events by apply tuning_error_set_or_write.
      rewrite existsb_app.
      match goal with
      | H : existsb tuning_error_event levs = _ |- _ => rewrite H
      end. reflexivity.
    + split; [reflexivity|].
      exists AAUDIO_STREAM_STATE_STARTED, f, org,
        ([EGetBufferCapacity c;
          ENew ProbeBuf (probe_bytes c (bitsPerSample_ (w_engine w)));
          EGetXRunCount x] ++ levs ++ [EDelete ProbeBuf]), r.
      unfold entry_events. simpl. rewrite <- !app_assoc. reflexivity.
Qed.

(** A stream that underruns below 200 frames: the tuner answers true
    and no call of its trace is a tuning error. *)
Lemma tuner_answer_meaning_witness :
  existsb tuning_error_event
    (w_trace (snd (TunePlayerForLowLatency (sim_api (plain_policy 96 384 2 200))
                                           false 5 (sim_world 192)))) = false.
Proof.
  refine (proj1 (proj1 (tuner_answer_meaning sim_dev
            (sim_api (plain_policy 96 384 2 200)) false 5 (sim_world 192)
            _ true _ _ _) eq_refl)).
  - vm_compute. reflexivity.
  - reflexivity.
Defined.

(** The three parts of the trace of a run that got to the search: the
    calls of entry, the search, and what follows it. *)
Lemma tuner_run_parts (nd : bool) (bits : Z) (out : outcome bool)
    (evs : list event) :
  tuner_run nd bits out evs ->
  (exists s, evs = [EGetState s])
  \/ (exists f org c,
        evs = [EGetState AAUDIO_STREAM_STATE_STARTED; EGetFramesPerBurst f;
               EGetBufferSize org; EGetBufferCapacity c]
        /\ out = Crash BadAlloc)
  \/ (exists f org c x levs tail,
        0 <= probe_bytes c bits
        /\ evs = entry_events AAUDIO_STREAM_STATE_STARTED f org c
                              (probe_bytes c bits) x ++ levs ++ tail
        /\ search_trace (replicate (Z.to_nat (probe_bytes c bits)) 0) c f levs
        /\ ((tail = [] /\ exists k, out = Crash k)
            \/ (tail = [EDelete ProbeBuf] /\ out = Ret true)
            \/ (exists r, tail = [EDelete ProbeBuf; ESetBufferSize org r]
                          /\ out = Ret false))).
Proof.
  intros H. inversion H; subst.
  - left. eauto.
  - right. left. eauto.
  - right. right. exists f, org, c, x, levs, [EDelete ProbeBuf].
    split; [assumption|]. split; [reflexivity|]. split; [assumption|].
    right. left. auto.
  - right. right. exists f, org, c, x, levs, [EDelete ProbeBuf; ESetBufferSize org r].
    split; [assumption|]. split; [reflexivity|]. split; [assumption|].
    right. right. eauto.
  - right. right.
    exists f, org, c, x,
      (pre ++ [EWrite (replicate (Z.to_nat (probe_bytes c bits)) 0) c 1000000000 r]), [].
    rewrite app_nil_r.
    split; [assumption|]. split; [reflexivity|]. split; [assumption|].
    left. eauto.
  - right. right. exists f, org, c, x, levs, []. rewrite app_nil_r.
    split; [assumption|]. split; [reflexivity|]. split; [assumption|].
    left. eauto.
Qed.

Lemma search_events_plain (probe : list Z) (bufCap : Z) (levs : list event) :
  List.Forall (search_event probe bufCap) levs ->
  filter (fun e => is_probe_new e) levs = []
  /\ filter (fun e => is_probe_delete e) levs = []
  /\ existsb is_probe_delete levs = false.
Proof.
  induction 1 as [|e levs He _ IH]; [auto|].
  destruct IH as (I1 & I2 & I3).
  destruct e; simpl in He; try contradiction; simpl;
    rewrite ?I1, ?I2, ?I3; auto.
Qed.

Ltac no_such_event H :=
  repeat (destruct H as [H|H]; [discriminate H|]); try contradiction.

(** X3: during the search the tuner never asks for more frames than the
    capacity it read, and the first size it asks for is the burst
    size.  Only the request that puts the size of entry back, after the
    release of the probe buffer, is not bounded. *)
Theorem tuner_requests_within_capacity (D : Type) (api : AAudioApi D) (nd : bool)
    (fuel : nat) (w w' : world D) (out : outcome bool)
    (pre post : list event) (n r : Z) :
  TunePlayerForLowLatency api nd fuel w = (out, w') ->
  w_trace w' = w_trace w ++ pre ++ ESetBufferSize n r :: post ->
  existsb is_probe_delete pre = false ->
  exists f c,
    In (EGetFramesPerBurst f) pre /\ In (EGetBufferCapacity c) pre
    /\ n <= c
    /\ (existsb is_set pre = false -> n = f).
Proof.
  intros Hrun Htr Hlive. apply tuner_run_shape in Hrun.
  destruct Hrun as (evs & Hw' & Hshape).
  rewrite Hw', extend_trace in Htr. apply app_inv_head in Htr. subst evs.
  apply tuner_run_parts in Hshape.
  destruct Hshape as [(s & Heq)|[(f & org & c & Heq & _)|Hparts]].
  - exfalso. destruct pre as [|e [|e' pre]]; discriminate Heq.
  - exfalso.
    assert (Hin : In (ESetBufferSize n r)
                     [EGetState AAUDIO_STREAM_STATE_STARTED; EGetFramesPerBurst f;
                      EGetBufferSize org; EGetBufferCapacity c])
      by (rewrite <- Heq; apply in_or_app; right; left; reflexivity).
    simpl in Hin. no_such_event Hin.
  - destruct Hparts as (f & org & c & x & levs & tail & Hn & Heq
                        & (Hev & Hcap & Hhead) & Htail).
    exists f, c.
    apply split_in_app in Heq. destruct Heq as [(m & Hentry & _)|(m & -> & Hrest)].
    { exfalso.
      assert (Hin : In (ESetBufferSize n r)
                       (entry_events AAUDIO_STREAM_STATE_STARTED f org c
                          (probe_bytes c (bitsPerSample_ (w_engine w))) x))
        by (rewrite Hentry; apply in_or_app; right; left; reflexivity).
      unfold entry_events in Hin. simpl in Hin. no_such_event Hin. }
    split; [apply in_or_app; left; unfold entry_events; simpl; auto|].
    split; [apply in_or_app; left; unfold entry_events; simpl; auto 6|].
    symmetry in Hrest. apply split_in_app in Hrest.
    destruct Hrest as [(m2 & Hlevs & _)|(m3 & -> & Htl)].
    + split.
      * rewrite Hlevs in Hcap. apply Forall_app in Hcap. destruct Hcap as [_ Hcap].
        inversion Hcap; subst. assumption.
      * intros Hfirst. rewrite existsb_app in Hfirst.
        apply orb_false_iff in Hfirst. destruct Hfirst as [_ Hm].
        destruct Hhead as [->|(r0 & rest & Hl)]; [destruct m; discriminate Hlevs|].
        rewrite Hl in Hlevs. destruct m as [|e m]; simpl in Hlevs.
        -- now inversion Hlevs.
        -- inversion Hlevs; subst e. simpl in Hm. discriminate Hm.
    + exfalso. rewrite !existsb_app in Hlive.
      destruct Htail as [[-> _]|[[-> _]|(r0 & -> & _)]].
      * destruct m3; discriminate Htl.
      * destruct m3 as [|e [|e' m3]]; discriminate Htl.
      * destruct m3 as [|e m3]; [discriminate Htl|].
        inversion Htl; subst e. simpl in Hlive.
        rewrite !orb_true_r in Hlive. discriminate Hlive.
Qed.

(** On the stream with a minimum of two bursts the second request, 288
    frames, is within the capacity of 960. *)
Lemma tuner_requests_within_capacity_witness :
  exists f c,
    In (EGetFramesPerBurst f)
       (entry_events 4 96 192 960 1920 0
          ++ [ESetBufferSize 96 192; EGetBufferSize 192;
              EWrite (replicate 1920 0) 960 1000000000 960; EGetXRunCount 1])
    /\ In (EGetBufferCapacity c)
          (entry_events 4 96 192 960 1920 0
             ++ [ESetBufferSize 96 192; EGetBufferSize 192;
                 EWrite (replicate 1920 0) 960 1000000000 960; EGetXRunCount 1])
    /\ 288 <= c
    /\ (existsb is_set
          (entry_events 4 96 192 960 1920 0
             ++ [ESetBufferSize 96 192; EGetBufferSize 192;
                 EWrite (replicate 1920 0) 960 1000000000 960; EGetXRunCount 1])
        = false -> 288 = f).
Proof.
  refine (tuner_requests_within_capacity sim_dev (sim_api two_burst_policy) false
            10 (sim_world 192) _ _ _
            [EGetBufferSize 288;
             EWrite (replicate 1920 0) 960 1000000000 960; EGetXRunCount 2;
             ESetBufferSize 384 384; EGetBufferSize 384;
             EWrite (replicate 1920 0) 960 1000000000 960; EGetXRunCount 3;
             ESetBufferSize 480 480; EGetBufferSize 480;
             EWrite (replicate 1920 0) 960 1000000000 960; EGetXRunCount 3;
             EDelete ProbeBuf]
            288 288 _ _ _).
  - apply surjective_pairing.
  - vm_compute. reflexivity.
  - vm_compute. reflexivity.
Defined.

(** X4: the tuner writes to the stream only from the probe buffer while
    it is allocated: before every write of a run the buffer passed was
    allocated, with this very length, and is not yet released.  A run
    that returns on a started stream has released the buffer it
    allocated, once; a run that returns without allocating releases
    nothing. *)
Theorem probe_buffer_lifetime (D : Type) (api : AAudioApi D) (nd : bool)
    (fuel : nat) (w w' : world D) (out : outcome bool) (evs : list event) :
  TunePlayerForLowLatency api nd fuel w = (out, w') ->
  w_trace w' = w_trace w ++ evs ->
  (forall pre b n t r post,
      evs = pre ++ EWrite b n t r :: post ->
      In (ENew ProbeBuf (Z.of_nat (length b))) pre
      /\ existsb is_probe_delete pre = false)
  /\ (forall answer, out = Ret answer ->
        length (filter (fun e => is_probe_new e) evs)
        = length (filter (fun e => is_probe_delete e) evs))
  /\ (length (filter (fun e => is_probe_delete e) evs) <= 1)%nat.
Proof.
  intros Hrun Htr. apply tuner_run_shape in Hrun.
  destruct Hrun as (evs' & Hw' & Hshape).
  assert (evs = evs').
  { rewrite Hw', extend_trace in Htr. now apply app_inv_head in Htr. }
  subst evs'. clear Hw' Htr.
  apply tuner_run_parts in Hshape.
  destruct Hshape as [(s & ->)|[(f & org & c & -> & ->)|Hparts]].
  - split; [|split; [reflexivity|simpl; lia]].
    intros pre b n t r post Heq. exfalso.
    destruct pre as [|e [|e' pre]]; discriminate Heq.
  - split; [|split; [discriminate|simpl; lia]].
    intros pre b n t r post Heq. exfalso.
    assert (Hin : In (EWrite b n t r)
                     [EGetState AAUDIO_STREAM_STATE_STARTED; EGetFramesPerBurst f;
                      EGetBufferSize org; EGetBufferCapacity c])
      by (rewrite Heq; apply in_or_app; right; left; reflexivity).
    simpl in Hin. no_such_event Hin.
  - destruct Hparts as (f & org & c & x & levs & tail & Hn & ->
                        & (Hev & _ & _) & Htail).
    set (nbytes := probe_bytes c (bitsPerSample_ (w_engine w))) in *.
    destruct (search_events_plain _ _ _ Hev) as (Hnew & Hdel & Hnodel).
    split; [|split].
    + intros pre b n t r post Heq. symmetry in Heq.
      apply split_in_app in Heq.
      destruct Heq as [(m & Hentry & _)|(m & -> & Hrest)].
      { exfalso.
        assert (Hin : In (EWrite b n t r)
                         (entry_events AAUDIO_STREAM_STATE_STARTED f org c nbytes x))
          by (rewrite Hentry; apply in_or_app; right; left; reflexivity).
        unfold entry_events in Hin. simpl in Hin. no_such_event Hin. }
      symmetry in Hrest. apply split_in_app in Hrest.
      destruct Hrest as [(m2 & Hlevs & _)|(m3 & -> & Htl)].
      * rewrite Hlevs in Hev, Hnodel.
        apply Forall_app in Hev. destruct Hev as [_ Hev].
        inversion Hev as [|? ? Hwr _]; subst. simpl in Hwr.
        destruct Hwr as (-> & _ & _).
        rewrite existsb_app in Hnodel. apply orb_false_iff in Hnodel.
        destruct Hnodel as [Hm _].
        split.
        -- apply in_or_app. left. unfold entry_events. simpl.
           rewrite length_replicate, Z2Nat.id by exact Hn. auto 6.
        -- rewrite existsb_app. unfold entry_events. simpl. exact Hm.
      * exfalso.
        destruct Htail as [[-> _]|[[-> _]|(r0 & -> & _)]].
        -- destruct m3; discriminate Htl.
        -- destruct m3 as [|e [|e' m3]]; discriminate Htl.
        -- destruct m3 as [|e [|e' [|e'' m3]]]; discriminate Htl.
    + intros answer Hout. unfold entry_events.
      rewrite !filter_app, !length_app, Hnew, Hdel. simpl.
      destruct Htail as [[_ (k & Hk)]|[[-> _]|(r0 & -> & _)]];
        [congruence|reflexivity|reflexivity].
    + unfold entry_events. rewrite !filter_app, !length_app, Hdel. simpl.
      destruct Htail as [[-> _]|[[-> _]|(r0 & -> & _)]]; simpl; lia.
Qed.

(** The probe write of the stream of the sample comes after the
    allocation of its 768 bytes. *)
Lemma probe_buffer_lifetime_witness :
  In (ENew ProbeBuf (Z.of_nat (length (replicate 768 0))))
     (entry_events 4 96 192 384 768 0 ++ [ESetBufferSize 96 96; EGetBufferSize 96]).
Proof.
  refine (proj1 (proj1 (probe_buffer_lifetime sim_dev
            (sim_api (plain_policy 96 384 2 0)) false 1 (sim_world 192)
            _ _ _ _ _)
            (entry_events 4 96 192 384 768 0
               ++ [ESetBufferSize 96 96; EGetBufferSize 96])
            (replicate 768 0) 384 1000000000 384
            [EGetXRunCount 0; EDelete ProbeBuf] _)).
  - apply surjective_pairing.
  - vm_compute. reflexivity.
  - reflexivity.
Defined.

(** X5: when the burst of the stream is larger than its capacity the
    search loop is not entered: a run that allocated its probe buffer
    and ended answers true without a single size request or write, its
    only action after the calls of entry being the release of the
    buffer. *)
Theorem search_skipped_when_burst_exceeds_capacity (D : Type)
    (api : AAudioApi D) (nd : bool) (fuel : nat) (w w' : world D)
    (out : outcome bool) (evs : list event) (f c n : Z) :
  TunePlayerForLowLatency api nd fuel w = (out, w') ->
  w_trace w' = w_trace w ++ evs ->
  In (EGetFramesPerBurst f) evs ->
  In (EGetBufferCapacity c) evs ->
  In (ENew ProbeBuf n) evs ->
  c < f ->
  terminated out ->
  out = Ret true
  /\ exists org x,
       evs = entry_events AAUDIO_STREAM_STATE_STARTED f org c n x
               ++ [EDelete ProbeBuf].
Proof.
  intros Hrun Htr Hf Hc Hn Hlt Hterm. apply tuner_run_shape in Hrun.
  destruct Hrun as (evs' & Hw' & Hshape).
  assert (evs = evs').
  { rewrite Hw', extend_trace in Htr. now apply app_inv_head in Htr. }
  subst evs'. clear Hw' Htr.
  assert (Hsearch : forall f0 org c0 x levs tail,
             evs = entry_events AAUDIO_STREAM_STATE_STARTED f0 org c0
                     (probe_bytes c0 (bitsPerSample_ (w_engine w))) x
                     ++ levs ++ tail ->
             search_trace (replicate (Z.to_nat (probe_bytes c0
                              (bitsPerSample_ (w_engine w)))) 0) c0 f0 levs ->
             (forall e, In e tail -> is_probe_delete e = true \/ is_set e = true) ->
             f0 = f /\ c0 = c
             /\ probe_bytes c0 (bitsPerSample_ (w_engine w)) = n /\ levs = []).
  { intros f0 org c0 x levs tail -> (Hev & Hcap & Hhead) Htail.
    assert (Hentry : forall e,
               In e (entry_events AAUDIO_STREAM_STATE_STARTED f0 org c0
                       (probe_bytes c0 (bitsPerSample_ (w_engine w))) x
                     ++ levs ++ tail) ->
               is_set e = false -> is_write e = false -> is_probe_delete e = false ->
               (forall a, e <> EGetBufferSize a) -> (forall a, e <> EGetXRunCount a) ->
               In e (entry_events AAUDIO_STREAM_STATE_STARTED f0 org c0
                       (probe_bytes c0 (bitsPerSample_ (w_engine w))) x)).
    { intros e Hin Hs Hwr Hd Hsz Hxr.
      apply in_app_or in Hin. destruct Hin as [Hin|Hin]; [exact Hin|].
      exfalso. apply in_app_or in Hin. destruct Hin as [Hin|Hin].
      - rewrite List.Forall_forall in Hev. apply Hev in Hin.
        destruct e; simpl in Hin, Hs, Hwr; try contradiction; try discriminate.
        + eapply Hsz; reflexivity.
        + eapply Hxr; reflexivity.
      - apply Htail in Hin. destruct Hin; congruence. }
    assert (Hf0 : f0 = f).
    { apply Hentry in Hf; try reflexivity; try (intros a; discriminate).
      unfold entry_events in Hf. simpl in Hf.
      destruct Hf as [Hf|[Hf|Hf]]; [discriminate Hf|now inversion Hf|].
      no_such_event Hf. }
    assert (Hc0 : c0 = c).
    { apply Hentry in Hc; try reflexivity; try (intros a; discriminate).
      unfold entry_events in Hc. simpl in Hc.
      destruct Hc as [Hc|[Hc|[Hc|[Hc|Hc]]]];
        [discriminate Hc|discriminate Hc|discriminate Hc|now inversion Hc|].
      no_such_event Hc. }
    assert (Hn0 : probe_bytes c0 (bitsPerSample_ (w_engine w)) = n).
    { apply Hentry in Hn; try reflexivity; try (intros a; discriminate).
      unfold entry_events in Hn. simpl in Hn.
      destruct Hn as [Hn|[Hn|[Hn|[Hn|[Hn|Hn]]]]];
        [discriminate Hn|discriminate Hn|discriminate Hn|discriminate Hn
        |now inversion Hn|].
      no_such_event Hn. }
    repeat split; try assumption.
    destruct Hhead as [->|(r0 & rest & ->)]; [reflexivity|].
    exfalso. inversion Hcap as [|? ? Hle _]; subst. simpl in Hle. lia. }
  inversion Hshape; subst.
  - exfalso. simpl in Hf. no_such_event Hf.
  - exfalso. simpl in Hn. no_such_event Hn.
  - match goal with
    | Hs : search_trace _ _ _ levs |- _ =>
        destruct (Hsearch f0 org c0 x levs [EDelete ProbeBuf] eq_refl Hs)
          as (E1 & E2 & E3 & E4)
    end.
    { simpl. intros e [<-|[]]. auto. }
    subst. split; [reflexivity|]. eauto.
  - exfalso.
    match goal with
    | Hs : search_trace _ _ _ levs |- _ =>
        destruct (Hsearch f0 org c0 x levs [EDelete ProbeBuf; ESetBufferSize org r]
                    eq_refl Hs) as (_ & _ & _ & E4)
    end.
    { simpl. intros e [<-|[<-|[]]]; auto. }
    subst levs. discriminate.
  - exfalso.
    match goal with
    | Hs : search_trace _ _ _ (pre ++ _) |- _ =>
        destruct (Hsearch f0 org c0 x _ [] ltac:(now rewrite app_nil_r) Hs)
          as (_ & _ & _ & E4)
    end.
    { intros e []. }
    destruct pre; discriminate E4.
  - now elim Hterm.
Qed.

(** A stream with bursts of 96 frames and room for 64. *)
Lemma search_skipped_when_burst_exceeds_capacity_witness :
  fst (TunePlayerForLowLatency (sim_api (plain_policy 96 64 2 0)) false 1
                               (sim_world 48)) = Ret true.
Proof.
  refine (proj1 (search_skipped_when_burst_exceeds_capacity sim_dev
            (sim_api (plain_policy 96 64 2 0)) false 1 (sim_world 48) _ _
            (entry_events 4 96 48 64 128 0 ++ [EDelete ProbeBuf]) 96 64 128
            _ _ _ _ _ _ _)).
  - apply surjective_pairing.
  - vm_compute. reflexivity.
  - simpl. auto.
  - simpl. auto 6.
  - simpl. auto 7.
  - lia.
  - vm_compute. discriminate.
Defined.

(** ** The tuner on a stream that underruns below a threshold *)

Section PlainStream.

Variables (burst capacity channels threshold : Z) (nd : bool).

Hypothesis burst_positive : 0 < burst.
Hypothesis sizes_fit : capacity + burst <= INT32_MAX.

Abbreviation stream := (sim_api (plain_policy burst capacity channels threshold)).

(** The search from a candidate [c], a multiple of the burst: it stops
    at the first candidate that does not underrun, or at the last that
    fits the capacity. *)
Lemma plain_search (probe : list Z) :
  forall (fuel : nat) (c p xr s : Z) (wr : nat) eng tr clk,
    0 <= p < c -> c <= capacity + burst ->
    0 <= xr -> xr + (capacity + burst - c) <= INT32_MAX ->
    capacity + burst - c < Z.of_nat fuel ->
    exists v' d' evs,
      tune_loop stream nd fuel burst capacity probe (mkTune c p xr false)
                (mkWorld (mkSim s xr wr) eng tr clk)
      = (Ret v', mkWorld d' eng (tr ++ evs) clk)
      /\ trainingError v' = false
      /\ ((capacity < c /\ sd_size d' = s)
          \/ (c <= sd_size d' <= capacity
              /\ exists j, 0 <= j /\ sd_size d' = c + j * burst
                           /\ (1 <= j -> sd_size d' - burst < threshold)
                           /\ (threshold <= sd_size d'
                               \/ capacity < sd_size d' + burst))).
Proof.
  induction fuel as [|fuel IH]; intros c p xr s wr eng tr clk Hp Hc Hxr Hroom Hfuel;
    [lia|].
  simpl tune_loop. cbn [bufSize].
  destruct (c <=? capacity) eqn:Hguard.
  2:{ exists (mkTune c p xr false), (mkSim s xr wr), [].
      rewrite app_nil_r. split; [reflexivity|]. split; [reflexivity|].
      left. simpl. lia. }
  assert (Hcc : c <= capacity) by lia.
  unfold bind.
  pose proof (tune_body_cases stream nd burst capacity probe (mkTune c p xr false)
                (mkWorld (mkSim s xr wr) eng tr clk)) as Hb.
  simpl in Hb.
  assert (Hadopt : Z.min (Z.max c 0) capacity = c) by lia.
  rewrite Hadopt in Hb.
  assert (E1 : (c <=? AAUDIO_OK) = false) by (unfold AAUDIO_OK; lia).
  assert (E2 : (c =? p) = false) by lia.
  assert (E3 : (capacity <? 0) = false) by lia.
  rewrite E1, E2, E3 in Hb.
  destruct (c <? threshold) eqn:Hunder.
  - assert (Ex : wrap32 (xr + 1) = xr + 1)
      by (apply wrap32_small; unfold in_int32, INT32_MIN; lia).
    rewrite Ex in Hb.
    assert (E4 : (xr + 1 <=? xr) = false) by lia. rewrite E4 in Hb.
    assert (Ea : add32 c burst = c + burst)
      by (apply wrap32_small; unfold in_int32, INT32_MIN; lia).
    rewrite Ea in Hb. rewrite Hb. unfold extend. simpl.
    destruct (IH (c + burst) c (xr + 1) c (S wr) eng
                 (tr ++ [ESetBufferSize c c; EGetBufferSize c;
                         EWrite probe capacity 1000000000 capacity;
                         EGetXRunCount (xr + 1)]) clk)
      as (v' & d' & evs & Hrun & Hflag & Hfinal); try lia.
    exists v', d', ([ESetBufferSize c c; EGetBufferSize c;
                     EWrite probe capacity 1000000000 capacity;
                     EGetXRunCount (xr + 1)] ++ evs).
    rewrite app_assoc.
    split; [exact Hrun|]. split; [exact Hflag|]. right.
    destruct Hfinal as [[Hover Hsize]|(Hrange & j & Hj & Hsize & Hmin & Hstop)].
    + rewrite Hsize. split; [lia|]. exists 0. repeat split; lia.
    + split; [lia|]. exists (j + 1). repeat split; try lia.
  - assert (Ex : wrap32 (xr + 0) = xr)
      by (rewrite Z.add_0_r; apply wrap32_small; unfold in_int32, INT32_MIN; lia).
    rewrite Ex in Hb.
    assert (E4 : (xr <=? xr) = true) by lia. rewrite E4 in Hb.
    rewrite Hb. unfold extend. simpl.
    eexists _, _, _. split; [reflexivity|]. split; [reflexivity|].
    right. simpl. split; [lia|]. exists 0. repeat split; lia.
Qed.

(** X6: on a stream that adopts the size it is asked for, up to its
    capacity, and underruns exactly while its buffer is smaller than a
    threshold, the tuner returns true and leaves the buffer at a
    multiple of the burst within the capacity: the smallest one that is
    not below the threshold, every smaller one having underrun, or else
    the largest one that fits the capacity. *)
Theorem tuner_finds_threshold (fuel : nat) (size0 xr0 : Z) (wr0 : nat)
    (eng : AAudioEngine) (tr : list event) (clk : nat) :
  burst <= capacity ->
  0 <= xr0 -> xr0 + capacity <= INT32_MAX ->
  0 <= probe_bytes capacity (bitsPerSample_ eng) ->
  capacity < Z.of_nat fuel ->
  exists d' evs,
    TunePlayerForLowLatency stream nd fuel (mkWorld (mkSim size0 xr0 wr0) eng tr clk)
    = (Ret true, mkWorld d' eng (tr ++ evs) clk)
    /\ burst <= sd_size d' <= capacity
    /\ (exists k, 1 <= k /\ sd_size d' = k * burst)
    /\ (burst < sd_size d' -> sd_size d' - burst < threshold)
    /\ (threshold <= sd_size d' \/ capacity < sd_size d' + burst).
Proof.
  intros Hcap Hxr Hroom Halloc Hfuel.
  pose proof (tune_entry stream nd fuel (mkWorld (mkSim size0 xr0 wr0) eng tr clk))
    as He.
  simpl in He.
  assert (Ex : wrap32 xr0 = xr0)
    by (apply wrap32_small; unfold in_int32, INT32_MIN; lia).
  rewrite Ex in He.
  assert (En : (probe_bytes capacity (bitsPerSample_ eng) <? 0) = false) by lia.
  rewrite En in He.
  set (n := probe_bytes capacity (bitsPerSample_ eng)) in *.
  destruct (plain_search (replicate (Z.to_nat n) 0) fuel burst 0 xr0 size0 wr0 eng
              (tr ++ [EGetState AAUDIO_STREAM_STATE_STARTED; EGetFramesPerBurst burst;
                      EGetBufferSize size0; EGetBufferCapacity capacity;
                      ENew ProbeBuf n; EGetXRunCount xr0]) clk)
    as (v' & d' & evs & Hrun & Hflag & Hfinal); try lia.
  unfold extend in He. simpl in He. rewrite Hrun, Hflag in He.
  unfold extend in He. simpl in He. rewrite <- !app_assoc in He.
  eexists _, _. split; [exact He|].
  destruct Hfinal as [[Hover _]|(Hrange & j & Hj & Hsize & Hmin & Hstop)]; [lia|].
  split; [exact Hrange|]. split; [exists (j + 1); split; lia|].
  split; [intros Hgt; apply Hmin; nia|exact Hstop].
Qed.

End PlainStream.

(** The stream of the sample (bursts of 96 frames, 384 of capacity)
    underruns below 200 frames: the tuner leaves it at 288 frames, the
    first multiple of the burst that is not below 200. *)
Lemma tuner_finds_threshold_witness :
  exists d' evs,
    TunePlayerForLowLatency (sim_api (plain_policy 96 384 2 200)) false 385
                            (mkWorld (mkSim 192 0 0) sample_engine [] 0)
    = (Ret true, mkWorld d' sample_engine ([] ++ evs) 0)
    /\ 96 <= sd_size d' <= 384
    /\ (exists k, 1 <= k /\ sd_size d' = k * 96)
    /\ (96 < sd_size d' -> sd_size d' - 96 < 200)
    /\ (200 <= sd_size d' \/ 384 < sd_size d' + 96).
Proof.
  apply (tuner_finds_threshold 96 384 2 200 false); try lia.
  - unfold INT32_MAX. lia.
  - unfold INT32_MAX. lia.
  - vm_compute. discriminate.
Defined.

(** * Further properties of the controller calls *)

Lemma run_commands_without_stream (cs : list command) (e : AAudioEngine) :
  playStream_ e = None -> run_commands cs e = e.
Proof.
  intros Hnull. induction cs as [|c cs IH]; simpl; [reflexivity|].
  assert (Hc : run_command c e = e).
  { destruct c; simpl;
      unfold Java_com_google_sample_aaudio_play_MainActivity_start,
             Java_com_google_sample_aaudio_play_MainActivity_stop,
             Java_com_google_sample_aaudio_play_MainActivity_deleteEngine;
      rewrite Hnull; reflexivity. }
  rewrite Hc. exact IH.
Qed.

(** X7: what the calls of the controller do to an engine that has a
    stream.  The stop flag is set if it was, or if deleteEngine was
    among the calls: no call takes a stop request back.  The play flag is
    what the last start or stop made it.  The rate, the channel count,
    the sample size and format and the handle are never written. *)
Theorem controller_calls_effect (cs : list command) (e : AAudioEngine) :
  playStream_ e <> None ->
  requestStop_ (run_commands cs e) = requestStop_ e || existsb is_delete_cmd cs
  /\ playAudio_ (run_commands cs e) = play_after cs (playAudio_ e)
  /\ same_stream e (run_commands cs e).
Proof.
  revert e. induction cs as [|c cs IH]; intros e Hopen.
  - simpl. rewrite orb_false_r. repeat split; reflexivity.
  - simpl run_commands. unfold play_after. simpl fold_left. fold (play_after cs).
    assert (Hstep : playStream_ (run_command c e) = playStream_ e
                    /\ requestStop_ (run_command c e) = requestStop_ e || is_delete_cmd c
                    /\ playAudio_ (run_command c e)
                       = match c with
                         | CmdStart => true
                         | CmdStop => false
                         | CmdDeleteEngine => playAudio_ e
                         end
                    /\ same_stream e (run_command c e)).
    { destruct (playStream_ e) as [h|] eqn:Hp; [|congruence].
      destruct c; simpl;
        unfold Java_com_google_sample_aaudio_play_MainActivity_start,
               Java_com_google_sample_aaudio_play_MainActivity_stop,
               Java_com_google_sample_aaudio_play_MainActivity_deleteEngine;
        rewrite Hp; simpl; rewrite ?orb_false_r, ?orb_true_r;
        unfold same_stream; simpl; auto 10. }
    destruct Hstep as (Hp & Hs & Ha & Hsame).
    destruct (IH (run_command c e)) as (I1 & I2 & I3); [congruence|].
    unfold run_commands in *. simpl existsb.
    rewrite I1, I2, Hs, Ha. rewrite orb_assoc.
    split; [reflexivity|]. split; [reflexivity|].
    eapply same_stream_trans; eassumption.
Qed.

Lemma controller_calls_effect_witness :
  requestStop_ (run_commands [CmdStart; CmdDeleteEngine; CmdStop] sample_engine)
  = true
  /\ playAudio_ (run_commands [CmdStart; CmdDeleteEngine; CmdStop] sample_engine)
     = false.
Proof.
  destruct (controller_calls_effect [CmdStart; CmdDeleteEngine; CmdStop]
              sample_engine ltac:(discriminate)) as (Hs & Hp & _).
  split; [exact Hs|exact Hp].
Defined.

(** X8: without a stream the calls of the controller do nothing: the
    engine is left as it is, start answers false and stop answers
    true. *)
Theorem controller_calls_without_stream (cs : list command) (e : AAudioEngine) :
  playStream_ e = None ->
  run_commands cs e = e
  /\ Java_com_google_sample_aaudio_play_MainActivity_start e = (false, e)
  /\ Java_com_google_sample_aaudio_play_MainActivity_stop e = (true, e)
  /\ Java_com_google_sample_aaudio_play_MainActivity_deleteEngine e = e.
Proof.
  intros Hnull. split; [now apply run_commands_without_stream|].
  unfold Java_com_google_sample_aaudio_play_MainActivity_start,
         Java_com_google_sample_aaudio_play_MainActivity_stop,
         Java_com_google_sample_aaudio_play_MainActivity_deleteEngine.
  rewrite Hnull. auto.
Qed.

Lemma controller_calls_without_stream_witness :
  run_commands [CmdStart; CmdDeleteEngine] engine_zero = engine_zero.
Proof.
  exact (proj1 (controller_calls_without_stream [CmdStart; CmdDeleteEngine]
                  engine_zero eq_refl)).
Defined.

(** * Further properties of the rendering thread *)

Lemma memset_zero_length (n : Z) (b : list Z) :
  length (memset_zero n b) = length b.
Proof.
  unfold memset_zero. rewrite length_app, length_replicate, length_drop. lia.
Qed.

Lemma fill_buffer_length (G : Type) (sample : G -> Z) (advancePhase : G -> G)
    (play : bool) (samplesPerFrame framesPerBurst : Z) (v : render_vars G) :
  length (buf (fill_buffer sample advancePhase play samplesPerFrame framesPerBurst v))
  = length (buf v).
Proof.
  unfold fill_buffer, render. destruct play.
  - destruct (render_from sample advancePhase (sineOscRight v) (buf v) 0
                samplesPerFrame (Z.to_nat framesPerBurst)) as [gr b] eqn:Hr.
    assert (Hb : length b = length (buf v)).
    { change b with (snd (gr, b)). rewrite <- Hr. apply render_from_length. }
    destruct (samplesPerFrame =? 2); [|exact Hb].
    destruct (render_from sample advancePhase (sineOscLeft v) b 1
                samplesPerFrame (Z.to_nat framesPerBurst)) as [gl b'] eqn:Hl.
    simpl. change b' with (snd (gl, b')). rewrite <- Hl.
    rewrite render_from_length. exact Hb.
  - simpl. apply memset_zero_length.
Qed.

(** What a session that returned went through: the loop returned, then
    the teardown ran. *)
Lemma render_session_returns (D : Type) (api : AAudioApi D) (nd : bool)
    (controller : nat -> list command) (G : Type) (sample : G -> Z)
    (advancePhase : G -> G) (fuel : nat) (samplesPerFrame framesPerBurst : Z)
    (v : render_vars G) (w w' : world D) :
  render_session api nd controller sample advancePhase fuel
                 samplesPerFrame framesPerBurst v w = (Ret tt, w') ->
  exists v1 w1 r1 r2,
    render_loop api nd controller sample advancePhase fuel
                samplesPerFrame framesPerBurst v w = (Ret v1, w1)
    /\ w_trace w' = w_trace w1 ++ [EDelete RenderBuf; ERequestStop r1; EClose r2]
    /\ w_clock w' = S (S (w_clock w1)).
Proof.
  intros Hrun. rewrite render_session_eq in Hrun.
  destruct (render_loop api nd controller sample advancePhase fuel
                        samplesPerFrame framesPerBurst v w) as [[v1|k] w1];
    [|discriminate Hrun].
  pose proof (teardown_eq D api controller w1) as Ht.
  destruct (AAudioStream_requestStop api (w_dev w1)) as [r1 d1].
  destruct (AAudioStream_close api d1) as [r2 d2].
  rewrite Ht in Hrun. inversion Hrun; subst w'.
  exists v1, w1, r1, r2. simpl. auto.
Qed.

(** X9: once a session has returned, no call of the controller changes
    the engine any more: a late start, stop or deleteEngine finds the
    handle null, start answering false and stop true.  Whatever the
    session left in the flags, a stop request of a deleteEngine that
    raced with the teardown included, stays until createEngine zeroes
    the engine. *)
Theorem late_controller_calls_are_inert (D : Type) (api : AAudioApi D)
    (nd : bool) (controller : nat -> list command) (G : Type) (sample : G -> Z)
    (advancePhase : G -> G) (fuel : nat) (samplesPerFrame framesPerBurst : Z)
    (v : render_vars G) (w w' : world D) (cs : list command) :
  render_session api nd controller sample advancePhase fuel
                 samplesPerFrame framesPerBurst v w = (Ret tt, w') ->
  run_commands cs (w_engine w') = w_engine w'
  /\ Java_com_google_sample_aaudio_play_MainActivity_start (w_engine w')
     = (false, w_engine w')
  /\ Java_com_google_sample_aaudio_play_MainActivity_stop (w_engine w')
     = (true, w_engine w').
Proof.
  intros Hrun. apply render_session_engine in Hrun.
  destruct Hrun as (_ & Hnull & _).
  split; [now apply run_commands_without_stream|].
  unfold Java_com_google_sample_aaudio_play_MainActivity_start,
         Java_com_google_sample_aaudio_play_MainActivity_stop.
  rewrite Hnull. split; reflexivity.
Qed.

(** After the session in which deleteEngine raced with the teardown, the
    stop request it left is still there after a stop and a start. *)
Lemma late_controller_calls_are_inert_witness :
  requestStop_
    (run_commands [CmdStop; CmdStart]
       (w_engine (snd (render_session (sim_api tiny_policy) false
                         (fun _ => [CmdDeleteEngine])
                         ramp_sample ramp_advance 5 2 2 tiny_vars (sim_world 2)))))
  = true.
Proof.
  rewrite (proj1 (late_controller_calls_are_inert sim_dev (sim_api tiny_policy)
                    false (fun _ => [CmdDeleteEngine]) Z ramp_sample ramp_advance
                    5 2 2 tiny_vars (sim_world 2) _ [CmdStop; CmdStart]
                    (surjective_pairing _))).
  vm_compute. reflexivity.
Defined.

(** The writes of the loop and the length of its buffer. *)
Lemma render_loop_writes (D : Type) (api : AAudioApi D) (nd : bool)
    (controller : nat -> list command) (G : Type) (sample : G -> Z)
    (advancePhase : G -> G) (samplesPerFrame framesPerBurst : Z) :
  forall (fuel : nat) (v : render_vars G) (w w' : world D) out evs,
    render_loop api nd controller sample advancePhase fuel
                samplesPerFrame framesPerBurst v w = (out, w') ->
    w_trace w' = w_trace w ++ evs ->
    List.Forall (render_write framesPerBurst (length (buf v))) evs
    /\ (forall v', out = Ret v' -> length (buf v') = length (buf v)).
Proof.
  induction fuel as [|fuel IH]; intros v w w' out evs Hrun Htr.
  { simpl in Hrun. inversion Hrun; subst out w'.
    rewrite <- (app_nil_r (w_trace w)) in Htr at 1. apply app_inv_head in Htr.
    subst evs. split; [constructor|discriminate]. }
  rewrite render_loop_eq in Hrun.
  destruct (requestStop_ (w_engine (after_read controller w))).
  { inversion Hrun; subst out w'. simpl in Htr.
    rewrite <- (app_nil_r (w_trace w)) in Htr at 1. apply app_inv_head in Htr.
    subst evs. split; [constructor|]. intros v' Hv. now inversion Hv. }
  pose proof (render_body_eq D api nd controller G sample advancePhase
                samplesPerFrame framesPerBurst v (after_read controller w)) as Hb.
  cbv zeta in Hb.
  set (v1 := fill_buffer sample advancePhase
               (playAudio_ (w_engine (after_read controller (after_read controller w))))
               samplesPerFrame framesPerBurst v) in *.
  assert (Hlen : length (buf v1) = length (buf v))
    by (subst v1; apply fill_buffer_length).
  destruct (AAudioStream_write api (buf v1) framesPerBurst 100000000
              (w_dev (after_read controller w))) as [r d].
  rewrite Hb in Hrun. clear Hb.
  destruct (nd || (0 <? r)).
  - destruct (render_loop_spec D api nd controller G sample advancePhase
                samplesPerFrame framesPerBurst fuel v1 _ out w' Hrun)
      as (evs1 & Htr1 & _).
    rewrite extend_trace in Htr1. simpl w_trace in Htr1.
    rewrite Htr1, <- app_assoc in Htr. apply app_inv_head in Htr. subst evs.
    destruct (IH v1 _ w' out evs1 Hrun) as (Hall & Hret).
    { rewrite Htr1. rewrite extend_trace. reflexivity. }
    rewrite Hlen in Hall, Hret. split; [|exact Hret].
    simpl. constructor; [simpl; auto|exact Hall].
  - inversion Hrun; subst out w'. rewrite extend_trace in Htr. simpl in Htr.
    apply app_inv_head in Htr. subst evs.
    split; [|discriminate]. constructor; [simpl; auto|constructor].
Qed.

(** X10: every write of the rendering loop passes [framesPerBurst]
    frames, the timeout of 100000000 ns, and a buffer that has the
    length of the buffer the loop started with: the loop never resizes
    its buffer, whatever the flags and the channel count. *)
Theorem render_writes_fit_buffer (D : Type) (api : AAudioApi D) (nd : bool)
    (controller : nat -> list command) (G : Type) (sample : G -> Z)
    (advancePhase : G -> G) (samplesPerFrame framesPerBurst : Z)
    (fuel : nat) (v : render_vars G) (w w' : world D)
    (out : outcome (render_vars G)) (evs : list event) :
  render_loop api nd controller sample advancePhase fuel
              samplesPerFrame framesPerBurst v w = (out, w') ->
  w_trace w' = w_trace w ++ evs ->
  List.Forall (render_write framesPerBurst (length (buf v))) evs
  /\ (forall v', out = Ret v' -> length (buf v') = length (buf v)).
Proof. apply render_loop_writes. Qed.

Lemma render_writes_fit_buffer_witness :
  List.Forall (render_write 2 4)
    [EWrite [0; 0; 0; 0] 2 100000000 2;
     EWrite [200; 100; 201; 101] 2 100000000 2].
Proof.
  refine (proj1 (render_writes_fit_buffer sim_dev (sim_api tiny_policy) false
                   short_visit Z ramp_sample ramp_advance 2 2 5 tiny_vars
                   (sim_world 2) _ _ _ _ _)).
  - apply surjective_pairing.
  - vm_compute. reflexivity.
Defined.

Lemma run_commands_stay_silent (cs : list command) :
  forall e : AAudioEngine,
    existsb is_start_cmd cs = false -> playAudio_ e = false ->
    playAudio_ (run_commands cs e) = false.
Proof.
  induction cs as [|c cs IH]; intros e Hcs Hplay; simpl in *; [exact Hplay|].
  apply orb_false_iff in Hcs. destruct Hcs as [Hc Hcs].
  apply IH; [exact Hcs|].
  destruct c; simpl in *; try discriminate Hc;
    unfold Java_com_google_sample_aaudio_play_MainActivity_stop,
           Java_com_google_sample_aaudio_play_MainActivity_deleteEngine;
    destruct (playStream_ e); simpl; auto.
Qed.

(** X11: as long as the controller has not called start, the rendering
    loop writes nothing but silence: with the play flag down at the
    beginning and no start among the calls of the controller, every
    write passes a buffer of zeros, and the generators are not advanced. *)
Theorem silence_until_start (D : Type) (api : AAudioApi D) (nd : bool)
    (controller : nat -> list command) (G : Type) (sample : G -> Z)
    (advancePhase : G -> G) (samplesPerFrame framesPerBurst : Z) :
  (forall n, existsb is_start_cmd (controller n) = false) ->
  forall (fuel : nat) (v : render_vars G) (w w' : world D) out evs,
    playAudio_ (w_engine w) = false ->
    length (buf v) = Z.to_nat (framesPerBurst * samplesPerFrame) ->
    render_loop api nd controller sample advancePhase fuel
                samplesPerFrame framesPerBurst v w = (out, w') ->
    w_trace w' = w_trace w ++ evs ->
    List.Forall (silent_write (Z.to_nat (framesPerBurst * samplesPerFrame))) evs
    /\ (forall v', out = Ret v' ->
          sineOscLeft v' = sineOscLeft v /\ sineOscRight v' = sineOscRight v).
Proof.
  intros Hquiet.
  induction fuel as [|fuel IH]; intros v w w' out evs Hplay Hlen Hrun Htr.
  { simpl in Hrun. inversion Hrun; subst out w'.
    rewrite <- (app_nil_r (w_trace w)) in Htr at 1. apply app_inv_head in Htr.
    subst evs. split; [constructor|discriminate]. }
  rewrite render_loop_eq in Hrun.
  destruct (requestStop_ (w_engine (after_read controller w))).
  { inversion Hrun; subst out w'. simpl in Htr.
    rewrite <- (app_nil_r (w_trace w)) in Htr at 1. apply app_inv_head in Htr.
    subst evs. split; [constructor|]. intros v' Hv. inversion Hv. auto. }
  pose proof (render_body_eq D api nd controller G sample advancePhase
                samplesPerFrame framesPerBurst v (after_read controller w)) as Hb.
  cbv zeta in Hb.
  assert (Hp1 : playAudio_ (w_engine (after_read controller w)) = false)
    by (apply run_commands_stay_silent; [apply Hquiet|exact Hplay]).
  assert (Hp2 : playAudio_ (w_engine (after_read controller
                                        (after_read controller w))) = false)
    by (apply run_commands_stay_silent; [apply Hquiet|exact Hp1]).
  rewrite Hp2 in Hb. unfold fill_buffer in Hb.
  rewrite (memset_zero_all _ _ Hlen) in Hb.
  simpl buf in Hb.
  set (zeros := replicate (Z.to_nat (framesPerBurst * samplesPerFrame)) 0) in *.
  destruct (AAudioStream_write api zeros framesPerBurst 100000000
              (w_dev (after_read controller w))) as [r d].
  rewrite Hb in Hrun. clear Hb.
  destruct (nd || (0 <? r)).
  - destruct (render_loop_spec D api nd controller G sample advancePhase
                samplesPerFrame framesPerBurst fuel _ _ out w' Hrun)
      as (evs1 & Htr1 & _).
    rewrite extend_trace in Htr1. simpl w_trace in Htr1.
    rewrite Htr1, <- app_assoc in Htr. apply app_inv_head in Htr. subst evs.
    pose proof (IH (mkRender (sineOscLeft v) (sineOscRight v) zeros)
                   (extend (after_read controller (after_read controller w)) d
                           [EWrite zeros framesPerBurst 100000000 r])
                   w' out evs1 Hp2) as Hih.
    destruct Hih as (Hall & Hret);
      [apply length_replicate|exact Hrun|
       rewrite Htr1; rewrite extend_trace; reflexivity|].
    split; [|exact Hret].
    simpl. constructor; [reflexivity|exact Hall].
  - inversion Hrun; subst out w'. rewrite extend_trace in Htr. simpl in Htr.
    apply app_inv_head in Htr. subst evs.
    split; [|discriminate]. constructor; [reflexivity|constructor].
Qed.

(** The controller only deletes the engine, after two iterations. *)
Lemma silence_until_start_witness :
  List.Forall (silent_write 4)
    [EWrite [0; 0; 0; 0] 2 100000000 2; EWrite [0; 0; 0; 0] 2 100000000 2].
Proof.
  refine (proj1 (silence_until_start sim_dev (sim_api tiny_policy) false
                   (fun n => match n with 4%nat => [CmdDeleteEngine] | _ => [] end)
                   Z ramp_sample ramp_advance 2 2 _ 5 tiny_vars (sim_world 2)
                   _ _ _ eq_refl eq_refl _ _)).
  - intros [|[|[|[|[|n]]]]]; reflexivity.
  - apply surjective_pairing.
  - vm_compute. reflexivity.
Defined.

(** A loop whose writes cannot make an assertion fail ends by returning
    or not at all. *)
Lemma render_loop_no_abort (D : Type) (api : AAudioApi D) (nd : bool)
    (controller : nat -> list command) (G : Type) (sample : G -> Z)
    (advancePhase : G -> G) (samplesPerFrame framesPerBurst : Z) :
  (nd = true \/
   forall b d, 0 < fst (AAudioStream_write api b framesPerBurst 100000000 d)) ->
  forall (fuel : nat) (v : render_vars G) (w : world D) k,
    fst (render_loop api nd controller sample advancePhase fuel
                     samplesPerFrame framesPerBurst v w) = Crash k ->
    k = OutOfFuel.
Proof.
  intros Hsafe.
  induction fuel as [|fuel IH]; intros v w k Hrun.
  { simpl in Hrun. now inversion Hrun. }
  rewrite render_loop_eq in Hrun.
  destruct (requestStop_ (w_engine (after_read controller w)));
    [discriminate Hrun|].
  pose proof (render_body_eq D api nd controller G sample advancePhase
                samplesPerFrame framesPerBurst v (after_read controller w)) as Hb.
  cbv zeta in Hb.
  match type of Hb with
  | context [AAudioStream_write api ?b ?n ?t ?d] =>
      assert (Hpos : nd || (0 <? fst (AAudioStream_write api b n t d)) = true)
        by (destruct Hsafe as [->|Hw]; [reflexivity|];
            specialize (Hw b d); apply orb_true_iff; right; lia);
      destruct (AAudioStream_write api b n t d) as [r d']
  end.
  simpl in Hpos. rewrite Hb, Hpos in Hrun. eapply IH; exact Hrun.
Qed.

(** A loop that returned ran fewer iterations than it had fuel. *)
Lemma render_loop_write_count (D : Type) (api : AAudioApi D) (nd : bool)
    (controller : nat -> list command) (G : Type) (sample : G -> Z)
    (advancePhase : G -> G) (samplesPerFrame framesPerBurst : Z) :
  forall (fuel : nat) (v v' : render_vars G) (w w' : world D) evs,
    render_loop api nd controller sample advancePhase fuel
                samplesPerFrame framesPerBurst v w = (Ret v', w') ->
    w_trace w' = w_trace w ++ evs ->
    (length evs < fuel)%nat.
Proof.
  induction fuel as [|fuel IH]; intros v v' w w' evs Hrun Htr.
  { simpl in Hrun. discriminate Hrun. }
  rewrite render_loop_eq in Hrun.
  destruct (requestStop_ (w_engine (after_read controller w))).
  { inversion Hrun; subst w'. simpl in Htr.
    rewrite <- (app_nil_r (w_trace w)) in Htr at 1. apply app_inv_head in Htr.
    subst evs. simpl. lia. }
  pose proof (render_body_eq D api nd controller G sample advancePhase
                samplesPerFrame framesPerBurst v (after_read controller w)) as Hb.
  cbv zeta in Hb.
  destruct (AAudioStream_write api _ framesPerBurst 100000000
              (w_dev (after_read controller w))) as [r d].
  rewrite Hb in Hrun. clear Hb.
  destruct (nd || (0 <? r)); [|discriminate Hrun].
  destruct (render_loop_spec D api nd controller G sample advancePhase
              samplesPerFrame framesPerBurst fuel _ _ _ w' Hrun)
    as (evs1 & Htr1 & _).
  pose proof (IH _ _ _ _ evs1 Hrun Htr1) as Hcount.
  rewrite extend_trace in Htr1. simpl w_trace in Htr1.
  rewrite Htr1, <- app_assoc in Htr. apply app_inv_head in Htr. subst evs.
  simpl. lia.
Qed.

(** X12: a call of deleteEngine ends the session.  If the engine has a
    stream, the call takes effect within the next [n] flag reads of the
    rendering thread, and no write can make an assertion fail (the
    writes of the loop are answered with a positive result, or NDEBUG is
    defined),
    then the session returns after at most [n] writes followed by the
    teardown, and leaves the handle null. *)
Theorem delete_request_ends_session (D : Type) (api : AAudioApi D) (nd : bool)
    (controller : nat -> list command) (G : Type) (sample : G -> Z)
    (advancePhase : G -> G) (samplesPerFrame framesPerBurst : Z)
    (n : nat) (v : render_vars G) (w : world D) :
  playStream_ (w_engine w) <> None ->
  (exists t, (w_clock w <= t < w_clock w + n)%nat
             /\ In CmdDeleteEngine (controller t)) ->
  (nd = true \/
   forall b d, 0 < fst (AAudioStream_write api b framesPerBurst 100000000 d)) ->
  exists w' evs r1 r2,
    render_session api nd controller sample advancePhase (S n)
                   samplesPerFrame framesPerBurst v w = (Ret tt, w')
    /\ w_trace w' = w_trace w ++ evs
                      ++ [EDelete RenderBuf; ERequestStop r1; EClose r2]
    /\ forallb is_write evs = true
    /\ (length evs <= n)%nat
    /\ playStream_ (w_engine w') = None.
Proof.
  intros Hopen Hstop Hsafe.
  pose proof (stop_request_ends_loop D api nd controller G sample advancePhase
                samplesPerFrame framesPerBurst (S n) n v w Hopen
                (or_intror Hstop) (Nat.lt_succ_diag_r n)) as Hterm.
  pose proof (render_loop_no_abort D api nd controller G sample advancePhase
                samplesPerFrame framesPerBurst Hsafe (S n) v w) as Hsafe'.
  rewrite render_session_eq.
  destruct (render_loop api nd controller sample advancePhase (S n)
                        samplesPerFrame framesPerBurst v w) as [[v1|k] w1] eqn:Hloop.
  2:{ exfalso. apply Hterm. simpl. f_equal. now apply Hsafe'. }
  destruct (render_loop_spec D api nd controller G sample advancePhase
              samplesPerFrame framesPerBurst (S n) v w _ w1 Hloop)
    as (evs & Htr & Hwr & _ & _).
  pose proof (render_loop_write_count D api nd controller G sample advancePhase
                samplesPerFrame framesPerBurst (S n) v v1 w w1 evs Hloop Htr)
    as Hcount.
  pose proof (teardown_eq D api controller w1) as Ht.
  destruct (AAudioStream_requestStop api (w_dev w1)) as [r1 d1].
  destruct (AAudioStream_close api d1) as [r2 d2].
  rewrite Ht. eexists _, evs, r1, r2. split; [reflexivity|].
  simpl. rewrite Htr, <- app_assoc.
  repeat split; [exact Hwr|lia].
Qed.

(** The engine of [short_visit] is deleted at the fifth flag read. *)
Lemma delete_request_ends_session_witness :
  exists w' evs r1 r2,
    render_session (sim_api tiny_policy) false short_visit ramp_sample ramp_advance
                   6 2 2 tiny_vars (sim_world 2) = (Ret tt, w')
    /\ w_trace w' = w_trace (sim_world 2) ++ evs
                      ++ [EDelete RenderBuf; ERequestStop r1; EClose r2]
    /\ forallb is_write evs = true
    /\ (length evs <= 5)%nat
    /\ playStream_ (w_engine w') = None.
Proof.
  apply (delete_request_ends_session sim_dev (sim_api tiny_policy) false
           short_visit Z ramp_sample ramp_advance 2 2 5 tiny_vars (sim_world 2)).
  - discriminate.
  - exists 4%nat. split; [simpl; lia|left; reflexivity].
  - right. intros b d. simpl. lia.
Defined.

(** ** PlayAudioThreadProc as a whole *)

Section ThreadProc.

Variable D : Type.
Variable api : AAudioApi D.
Variable nd : bool.
Variable controller : nat -> list command.
Variable G : Type.
Variable setup : Q -> Z -> Q -> G.
Variable sample : G -> Z.
Variable advancePhase : G -> G.
Variable PrintAudioStreamInfo : D -> D.
Variable garbage : Z.

Abbreviation thread :=
  (PlayAudioThreadProc api nd controller setup sample advancePhase
                       PrintAudioStreamInfo garbage).

(** The thread, step by step: the tuner, whose answer is dropped, the
    queries, the allocation of the render buffer, the session. *)
Lemma PlayAudioThreadProc_eq (fuelTune fuelRender : nat) (w : world D) :
  thread fuelTune fuelRender w =
    match TunePlayerForLowLatency api nd fuelTune w with
    | (Crash k, w1) => (Crash k, w1)
    | (Ret _, w1) =>
        let '(s, d3) := AAudioStream_getState api (PrintAudioStreamInfo (w_dev w1)) in
        let '(f, d4) := AAudioStream_getFramesPerBurst api d3 in
        let '(c, d5) := AAudioStream_getSamplesPerFrame api d4 in
        let queries := [EPrintInfo; EGetState s; EGetFramesPerBurst f;
                        EGetSamplesPerFrame c] in
        if mul32 f c <? 0 then (Crash BadAlloc, extend w1 d5 queries)
        else
          render_session api nd controller sample advancePhase fuelRender c f
            (mkRender (setup (440 # 1) (sampleRate_ (w_engine w1)) (1 # 4))
                      (setup (660 # 1) (sampleRate_ (w_engine w1)) (1 # 4))
                      (replicate (Z.to_nat (mul32 f c)) garbage))
            (extend w1 d5 (queries ++ [ENew RenderBuf (mul32 f c)]))
    end.
Proof.
  unfold PlayAudioThreadProc. unfold bind at 1.
  destruct (TunePlayerForLowLatency api nd fuelTune w) as [[answer|k] w1];
    [|reflexivity].
  unfold print_info. unfold_monad. simpl.
  destruct (AAudioStream_getState api (PrintAudioStreamInfo (w_dev w1))) as [s d3].
  simpl.
  destruct (AAudioStream_getFramesPerBurst api d3) as [f d4]. simpl.
  destruct (AAudioStream_getSamplesPerFrame api d4) as [c d5]. simpl.
  destruct (mul32 f c <? 0); simpl.
  - unfold extend. simpl. rewrite <- !app_assoc. reflexivity.
  - assert (Hassert : (if nd then ret D tt else ret D tt) = ret D tt)
      by (destruct nd; reflexivity).
    rewrite Hassert. unfold ret. simpl.
    unfold extend. simpl. rewrite <- !app_assoc. reflexivity.
Qed.

(** The trace and the engine of a run of the thread that returned. *)
Lemma thread_proc_trace (fuelTune fuelRender : nat) (w w' : world D) :
  thread fuelTune fuelRender w = (Ret tt, w') ->
  exists answer tevs s f c levs r1 r2,
    tuner_run nd (bitsPerSample_ (w_engine w)) (Ret answer) tevs
    /\ 0 <= mul32 f c
    /\ w_trace w' =
         w_trace w ++ tevs
           ++ [EPrintInfo; EGetState s; EGetFramesPerBurst f;
               EGetSamplesPerFrame c; ENew RenderBuf (mul32 f c)]
           ++ levs ++ [EDelete RenderBuf; ERequestStop r1; EClose r2]
    /\ List.Forall (render_write f (Z.to_nat (mul32 f c))) levs
    /\ playStream_ (w_engine w') = None
    /\ (requestStop_ (w_engine w') = true <->
          playStream_ (w_engine w) <> None
          /\ In CmdDeleteEngine (controller (pred (w_clock w'))))
    /\ sampleRate_ (w_engine w') = sampleRate_ (w_engine w)
    /\ sampleChannels_ (w_engine w') = sampleChannels_ (w_engine w)
    /\ bitsPerSample_ (w_engine w') = bitsPerSample_ (w_engine w)
    /\ sampleFormat_ (w_engine w') = sampleFormat_ (w_engine w).
Proof.
  intros Hrun. rewrite PlayAudioThreadProc_eq in Hrun.
  destruct (TunePlayerForLowLatency api nd fuelTune w) as [[answer|k] w1] eqn:Htune;
    [|discriminate Hrun].
  apply tuner_run_shape in Htune. destruct Htune as (tevs & Hw1 & Hshape).
  destruct (AAudioStream_getState api (PrintAudioStreamInfo (w_dev w1))) as [s d3].
  destruct (AAudioStream_getFramesPerBurst api d3) as [f d4].
  destruct (AAudioStream_getSamplesPerFrame api d4) as [c d5].
  cbv zeta in Hrun.
  destruct (mul32 f c <? 0) eqn:Hneg; [discriminate Hrun|].
  pose proof (render_session_engine _ _ _ _ _ _ _ _ _ _ _ _ _ Hrun)
    as (_ & Hnull & Hflag & E1 & E2 & E3 & E4 & _).
  rewrite Hw1 in Hflag, E1, E2, E3, E4. cbn [extend w_engine] in Hflag, E1, E2, E3, E4.
  apply render_session_returns in Hrun.
  destruct Hrun as (v1 & w2 & r1 & r2 & Hloop & Htr & _).
  destruct (render_loop_spec D api nd controller G sample advancePhase c f
              fuelRender _ _ _ w2 Hloop) as (levs & Htr2 & _).
  destruct (render_loop_writes D api nd controller G sample advancePhase c f
              fuelRender _ _ w2 _ levs Hloop Htr2) as (Hwrites & _).
  cbn [buf] in Hwrites. rewrite length_replicate in Hwrites.
  exists answer, tevs, s, f, c, levs, r1, r2.
  split; [exact Hshape|]. split; [lia|]. split.
  { rewrite Htr, Htr2, extend_trace, Hw1, extend_trace.
    rewrite <- !app_assoc. reflexivity. }
  split; [exact Hwrites|]. auto 10.
Qed.

(** X13: whether the tuning succeeded or not, a run of the rendering
    thread that returns has stopped and closed the stream as its last
    calls, after the release of the render buffer; it leaves the handle
    null, and the rate, the channel count, the sample size and the
    sample format as they were.  The stop flag is down at the end, but
    for one case: the engine had a stream and deleteEngine was called
    between the two assignments of the teardown, the one that puts the
    flag down and the one that clears the handle. *)
Theorem thread_proc_postcondition (fuelTune fuelRender : nat) (w w' : world D) :
  thread fuelTune fuelRender w = (Ret tt, w') ->
  playStream_ (w_engine w') = None
  /\ (requestStop_ (w_engine w') = true <->
        playStream_ (w_engine w) <> None
        /\ In CmdDeleteEngine (controller (pred (w_clock w'))))
  /\ sampleRate_ (w_engine w') = sampleRate_ (w_engine w)
  /\ sampleChannels_ (w_engine w') = sampleChannels_ (w_engine w)
  /\ bitsPerSample_ (w_engine w') = bitsPerSample_ (w_engine w)
  /\ sampleFormat_ (w_engine w') = sampleFormat_ (w_engine w)
  /\ exists pre r1 r2,
       w_trace w' = w_trace w ++ pre
                      ++ [EDelete RenderBuf; ERequestStop r1; EClose r2].
Proof.
  intros Hrun. apply thread_proc_trace in Hrun.
  destruct Hrun as (answer & tevs & s & f & c & levs & r1 & r2
                    & _ & _ & Htr & _ & H0 & Hflag & H1 & H2 & H3 & H4).
  repeat (split; [assumption|]).
  exists (tevs ++ [EPrintInfo; EGetState s; EGetFramesPerBurst f;
                   EGetSamplesPerFrame c; ENew RenderBuf (mul32 f c)] ++ levs),
    r1, r2.
  rewrite Htr. rewrite <- !app_assoc. reflexivity.
Qed.

(** X14: the render buffer is as long as the writes need.  In a run of
    the thread that returns, the buffer is allocated with the product,
    in 32-bit arithmetic, of the burst size and the channel count just
    read from the stream, and every write that follows passes that burst
    size as its frame count and a buffer of exactly that many samples;
    nothing is written after the release of the buffer. *)
Theorem render_buffer_sized_for_writes (fuelTune fuelRender : nat)
    (w w' : world D) :
  thread fuelTune fuelRender w = (Ret tt, w') ->
  exists pre f c levs r1 r2,
    w_trace w' =
      w_trace w ++ pre
        ++ [EGetFramesPerBurst f; EGetSamplesPerFrame c; ENew RenderBuf (mul32 f c)]
        ++ levs ++ [EDelete RenderBuf; ERequestStop r1; EClose r2]
    /\ 0 <= mul32 f c
    /\ List.Forall (render_write f (Z.to_nat (mul32 f c))) levs.
Proof.
  intros Hrun. apply thread_proc_trace in Hrun.
  destruct Hrun as (answer & tevs & s & f & c & levs & r1 & r2
                    & _ & Hpos & Htr & Hwrites & _).
  exists (tevs ++ [EPrintInfo; EGetState s]), f, c, levs, r1, r2.
  split; [|split; [exact Hpos|exact Hwrites]].
  rewrite Htr. rewrite <- !app_assoc. reflexivity.
Qed.

End ThreadProc.

(** The thread on the stereo stream with bursts of two frames, the
    engine being deleted after two iterations. *)
Lemma thread_proc_postcondition_witness :
  playStream_
    (w_engine (snd (PlayAudioThreadProc (sim_api tiny_policy) false short_visit
                      (fun _ _ _ => 100) ramp_sample ramp_advance (fun d => d) 7
                      10 10 (mkWorld (mkSim 4 0 0) sample_engine [] 0)))) = None.
Proof.
  refine (proj1 (thread_proc_postcondition sim_dev (sim_api tiny_policy) false
                   short_visit Z (fun _ _ _ => 100) ramp_sample ramp_advance
                   (fun d => d) 7 10 10
                   (mkWorld (mkSim 4 0 0) sample_engine [] 0) _ _)).
  vm_compute. reflexivity.
Defined.

Lemma render_buffer_sized_for_writes_witness :
  exists pre f c levs r1 r2,
    w_trace (snd (PlayAudioThreadProc (sim_api tiny_policy) false short_visit
                    (fun _ _ _ => 100) ramp_sample ramp_advance (fun d => d) 7
                    10 10 (mkWorld (mkSim 4 0 0) sample_engine [] 0))) =
      [] ++ pre
        ++ [EGetFramesPerBurst f; EGetSamplesPerFrame c; ENew RenderBuf (mul32 f c)]
        ++ levs ++ [EDelete RenderBuf; ERequestStop r1; EClose r2]
    /\ 0 <= mul32 f c
    /\ List.Forall (render_write f (Z.to_nat (mul32 f c))) levs.
Proof.
  apply (render_buffer_sized_for_writes sim_dev (sim_api tiny_policy) false
           short_visit Z (fun _ _ _ => 100) ramp_sample ramp_advance
           (fun d => d) 7 10 10 (mkWorld (mkSim 4 0 0) sample_engine [] 0)).
  vm_compute. reflexivity.
Defined.

(** * Further properties of createEngine *)

Section CreateEngine.

Variable D : Type.
Variable api : AAudioApi D.
Variable nd : bool.
Variable PrintAudioStreamInfo : D -> D.
Variable InitAAudio : bool.
Variable CreateStream : Z -> Z -> Z -> stream_ptr.
Variable SampleFormatToBpp : Z -> Z.
Variable AUDIO_SAMPLE_CHANNELS : Z.

Abbreviation createEngine :=
  (Java_com_google_sample_aaudio_play_MainActivity_createEngine
     api nd PrintAudioStreamInfo InitAAudio CreateStream SampleFormatToBpp
     AUDIO_SAMPLE_CHANNELS).

Abbreviation created :=
  (engine_created CreateStream SampleFormatToBpp AUDIO_SAMPLE_CHANNELS).

(** createEngine, call by call. *)
Lemma createEngine_eq (w : world D) :
  createEngine w =
    if negb InitAAudio
    then (Ret false, mkWorld (w_dev w) engine_zero (w_trace w) (w_clock w))
    else if negb nd && is_null (playStream_ created)
    then (Crash AssertFail, mkWorld (w_dev w) created (w_trace w) (w_clock w))
    else
      let '(rate, d1) := AAudioStream_getSampleRate api (PrintAudioStreamInfo (w_dev w)) in
      let '(r, d2) := AAudioStream_requestStart api d1 in
      let w' := mkWorld d2 (set_sampleRate (rate mod 4294967296) created)
                        (w_trace w ++ [EPrintInfo; EGetSampleRate rate; ERequestStart r])
                        (w_clock w) in
      if r =? AAUDIO_OK then (Ret true, w')
      else if nd then (Ret false, w') else (Crash AssertFail, w').
Proof.
  unfold Java_com_google_sample_aaudio_play_MainActivity_createEngine.
  unfold print_info. unfold_monad. simpl.
  destruct InitAAudio; simpl; [|reflexivity].
  destruct nd; simpl.
  - destruct (AAudioStream_getSampleRate api (PrintAudioStreamInfo (w_dev w)))
      as [rate d1]. simpl.
    destruct (AAudioStream_requestStart api d1) as [r d2]. simpl.
    rewrite <- !app_assoc. simpl.
    destruct (r =? AAUDIO_OK); reflexivity.
  - match goal with
    | |- context [is_null ?p] => destruct (is_null p)
    end; simpl; [reflexivity|].
    destruct (AAudioStream_getSampleRate api (PrintAudioStreamInfo (w_dev w)))
      as [rate d1]. simpl.
    destruct (AAudioStream_requestStart api d1) as [r d2]. simpl.
    rewrite <- !app_assoc. simpl.
    destruct (r =? AAUDIO_OK) eqn:Hr; simpl; [reflexivity|].
    reflexivity.
Qed.

(** X15: createEngine answers true, and so launches the rendering
    thread, only when AAudio is there and the stream accepted the start
    request, its last call.  The engine then holds the rate read from
    the stream, no stop request, and the play flag down: the thread
    begins with silence.  With the assertions compiled in the handle is
    not null. *)
Theorem create_engine_success (w w' : world D) :
  createEngine w = (Ret true, w') ->
  InitAAudio = true
  /\ (exists rate,
        w_trace w' = w_trace w ++ [EPrintInfo; EGetSampleRate rate;
                                   ERequestStart AAUDIO_OK]
        /\ w_engine w' = set_sampleRate (rate mod 4294967296) created)
  /\ playAudio_ (w_engine w') = false
  /\ requestStop_ (w_engine w') = false
  /\ (nd = false -> playStream_ (w_engine w') <> None).
Proof.
  intros Hrun. rewrite createEngine_eq in Hrun.
  destruct InitAAudio; cbn [negb] in Hrun; [|discriminate Hrun].
  destruct (negb nd && is_null (playStream_ created)) eqn:Hnull;
    [discriminate Hrun|].
  destruct (AAudioStream_getSampleRate api (PrintAudioStreamInfo (w_dev w)))
    as [rate d1].
  destruct (AAudioStream_requestStart api d1) as [r d2].
  cbv zeta in Hrun.
  destruct (r =? AAUDIO_OK) eqn:Hr.
  - inversion Hrun; subst w'. simpl.
    assert (r = AAUDIO_OK) by lia. subst r.
    split; [reflexivity|]. split; [eauto|].
    split; [reflexivity|]. split; [reflexivity|].
    intros Hnd. rewrite Hnd in Hnull. cbn [negb andb] in Hnull.
    unfold engine_created in Hnull. cbn [playStream_] in Hnull.
    intros Hnone. rewrite Hnone in Hnull. discriminate Hnull.
  - destruct nd; discriminate Hrun.
Qed.

(** X16: how createEngine fails.  Without AAudio it answers false
    before any call to the stream and leaves the engine zeroed.  When
    the stream refuses to start, the answer is false only if the
    assertions are compiled out, and then the engine keeps the handle
    of the stream, which is not closed.  With the assertions compiled
    in, a null handle or a refused start ends the process. *)
Theorem create_engine_failure (w w' : world D) (out : outcome bool) :
  createEngine w = (out, w') ->
  out <> Ret true ->
  (InitAAudio = false /\ out = Ret false
   /\ w' = mkWorld (w_dev w) engine_zero (w_trace w) (w_clock w))
  \/ (InitAAudio = true /\ nd = true /\ out = Ret false
      /\ playStream_ (w_engine w') = playStream_ created
      /\ exists rate r,
           r <> AAUDIO_OK
           /\ w_trace w' = w_trace w ++ [EPrintInfo; EGetSampleRate rate;
                                         ERequestStart r])
  \/ (InitAAudio = true /\ nd = false /\ out = Crash AssertFail
      /\ (playStream_ created = None
          \/ exists rate r,
               r <> AAUDIO_OK
               /\ w_trace w' = w_trace w ++ [EPrintInfo; EGetSampleRate rate;
                                             ERequestStart r])).
Proof.
  intros Hrun Hfail. rewrite createEngine_eq in Hrun.
  destruct InitAAudio; cbn [negb] in Hrun.
  2:{ left. inversion Hrun. auto. }
  right.
  destruct nd; cbn [negb andb] in Hrun.
  - left.
    destruct (AAudioStream_getSampleRate api (PrintAudioStreamInfo (w_dev w)))
      as [rate d1].
    destruct (AAudioStream_requestStart api d1) as [r d2].
    destruct (r =? AAUDIO_OK) eqn:Hr; inversion Hrun; subst out w';
      [now elim Hfail|].
    simpl. repeat split; try reflexivity.
    exists rate, r. split; [lia|reflexivity].
  - right. split; [reflexivity|]. split; [reflexivity|].
    destruct (is_null (playStream_ created)) eqn:Hnull.
    + inversion Hrun; subst out w'. split; [reflexivity|]. left.
      destruct (playStream_ created); [discriminate Hnull|reflexivity].
    + destruct (AAudioStream_getSampleRate api (PrintAudioStreamInfo (w_dev w)))
        as [rate d1].
      destruct (AAudioStream_requestStart api d1) as [r d2].
      destruct (r =? AAUDIO_OK) eqn:Hr; inversion Hrun; subst out w';
        [now elim Hfail|].
      split; [reflexivity|]. right.
      exists rate, r. split; [lia|reflexivity].
Qed.

End CreateEngine.

Lemma create_engine_success_witness :
  playAudio_
    (w_engine (snd (Java_com_google_sample_aaudio_play_MainActivity_createEngine
                      (sim_api tiny_policy) false (fun d => d) true
                      (fun _ _ _ => Some 1%positive) (fun _ => 16) 2
                      (mkWorld (mkSim 4 0 0) sample_engine [] 0)))) = false.
Proof.
  refine (proj1 (proj2 (proj2 (create_engine_success sim_dev (sim_api tiny_policy)
            false (fun d => d) true (fun _ _ _ => Some 1%positive) (fun _ => 16) 2
            (mkWorld (mkSim 4 0 0) sample_engine [] 0) _ _)))).
  vm_compute. reflexivity.
Defined.

(** A platform without AAudio: the engine of a former session is wiped
    and nothing is asked of the stream. *)
Lemma create_engine_failure_witness :
  Java_com_google_sample_aaudio_play_MainActivity_createEngine
    (sim_api tiny_policy) false (fun d => d) false
    (fun _ _ _ => Some 1%positive) (fun _ => 16) 2
    (mkWorld (mkSim 4 0 0) sample_engine [] 0)
  = (Ret false, mkWorld (mkSim 4 0 0) engine_zero [] 0).
Proof.
  destruct (create_engine_failure sim_dev (sim_api tiny_policy) false (fun d => d)
              false (fun _ _ _ => Some 1%positive) (fun _ => 16) 2
              (mkWorld (mkSim 4 0 0) sample_engine [] 0) _ _
              (surjective_pairing _))
    as [(_ & Hout & Hw)|[(Hinit & _)|(Hinit & _)]];
    try discriminate Hinit.
  - vm_compute. discriminate.
  - etransitivity; [apply surjective_pairing|].
    exact (f_equal2 pair Hout Hw).
Defined.
